(** * QRVerse input safety validator

    A shallow embedding of [validateInputSafety] (src/utils/validateInputSafety.js,
    the "enhanced" variant with multi-level decoding, hidden-executable and
    punycode checks) together with the parts of the JavaScript platform it
    calls: [String.prototype.trim], [decodeURIComponent], the regular
    expressions it tests, and the WHATWG URL parser behind [new URL(..)].

    JavaScript strings are sequences of UTF-16 code units; a code unit is a
    natural number below 2^16 and a string is a list of them.

    Beside it stand the basic variant of the validator, which the
    repository also holds, and from the application (src/App.jsx)
    [buildContent], the validation before a backend request, [handleChange]
    and [svgToEPS], with [encodeURIComponent] and the calls of
    [String.prototype.replace] that they make.

    The file has two parts: the definitions (the platform, then the
    validator as the source writes it, step by step, then the basic variant
    and the application), and the properties. *)

From Stdlib Require Import List NArith Bool Ascii String Lia.
Import ListNotations.

Local Open Scope N_scope.
Local Open Scope bool_scope.

(** ** Strings *)

Abbreviation codeunit := N (only parsing).
Abbreviation jsstring := (list N) (only parsing).

(** A string literal of the source, for literals that are plain ASCII. *)
Definition str (s : string) : jsstring :=
  map N_of_ascii (list_ascii_of_string s).

Fixpoint jseq (s t : jsstring) : bool :=
  match s, t with
  | [], [] => true
  | c :: s', d :: t' => (c =? d) && jseq s' t'
  | _, _ => false
  end.

Definition is_empty (s : jsstring) : bool :=
  match s with [] => true | _ :: _ => false end.

(** [Array.prototype.includes] on an array of strings. *)
Definition includes (arr : list jsstring) (x : jsstring) : bool :=
  existsb (jseq x) arr.

(** [String.prototype.startsWith]. *)
Fixpoint startsWith (s prefix : jsstring) : bool :=
  match prefix, s with
  | [], _ => true
  | p :: prefix', c :: s' => (c =? p) && startsWith s' prefix'
  | _ :: _, [] => false
  end.

(** ** Characters *)

Definition in_range (lo hi c : N) : bool := (lo <=? c) && (c <=? hi).

(** [A-Z], [a-z], [0-9] *)
Definition is_upper (c : N) : bool := in_range 65 90 c.
Definition is_lower (c : N) : bool := in_range 97 122 c.
Definition is_alpha (c : N) : bool := is_upper c || is_lower c.
Definition is_digit (c : N) : bool := in_range 48 57 c.
Definition is_alnum (c : N) : bool := is_alpha c || is_digit c.
Definition is_ascii (c : N) : bool := c <? 0x80.

Definition ascii_lower (c : N) : N := if is_upper c then c + 32 else c.

(** The code units that the source and the URL standard name. *)
Abbreviation TAB := 0x09 (only parsing).
Abbreviation LF := 0x0A (only parsing).
Abbreviation CR := 0x0D (only parsing).
Abbreviation SPACE := 0x20 (only parsing).
Abbreviation HASH := 0x23 (only parsing).
Abbreviation PERCENT := 0x25 (only parsing).
Abbreviation DOT := 0x2E (only parsing).
Abbreviation SLASH := 0x2F (only parsing).
Abbreviation COLON := 0x3A (only parsing).
Abbreviation QUESTION := 0x3F (only parsing).
Abbreviation AT := 0x40 (only parsing).
Abbreviation LBRACKET := 0x5B (only parsing).
Abbreviation BACKSLASH := 0x5C (only parsing).
Abbreviation RBRACKET := 0x5D (only parsing).
Abbreviation PIPE := 0x7C (only parsing).

(** ** Completions

    A JavaScript call either returns normally or throws.  The two exceptions
    the validator can meet are the [URIError] of [decodeURIComponent] and the
    [TypeError] of [new URL]. *)

Inductive exn := URIError | TypeError.

Inductive completion (A : Type) : Type :=
| Normal (a : A)
| Throw (e : exn).
Arguments Normal {A} a.
Arguments Throw {A} e.

Definition bind {A B} (m : completion A) (k : A -> completion B) : completion B :=
  match m with
  | Normal a => k a
  | Throw e => Throw e
  end.

(** [try { body } catch { handler }]. *)
Definition try_catch {A} (body : completion A) (handler : completion A) : completion A :=
  match body with
  | Normal a => Normal a
  | Throw _ => handler
  end.

Notation "x <- m ;; k" := (bind m (fun x => k))
  (at level 100, m at next level, right associativity).
Notation "'ret' a" := (Normal a) (at level 10, a at level 9).

(** ** The host

    The validator lower-cases with [String.prototype.toLowerCase], which is
    Unicode's default case conversion over the whole code space, and [new URL]
    converts internationalised domain names (UTS #46) and IPv6 literals.
    These three tables and algorithms of the host are not embedded; they are
    operations of a [Host], and [HostLaws] records what is used of them. *)

Class Host := {
  (** [String.prototype.toLowerCase] *)
  toLowerCase : jsstring -> jsstring;
  (** WHATWG "domain to ASCII" of the (percent-encoded) host string, for a
      domain that is not plain ASCII or has an [xn--] label; [None] is
      failure. *)
  domainToASCII : list N -> option jsstring;
  (** WHATWG IPv6 parser followed by the IPv6 serializer, applied to the text
      between the brackets of a host; the result is without brackets. *)
  ipv6 : list N -> option jsstring
}.

(** ** [String.prototype.trim]

    Strips WhiteSpace and LineTerminator code points from both ends. *)

Definition is_whitespace (c : N) : bool :=
  in_range 0x09 0x0D c || (c =? SPACE) || (c =? 0xA0) || (c =? 0x1680)
  || in_range 0x2000 0x200A c || (c =? 0x2028) || (c =? 0x2029) || (c =? 0x202F)
  || (c =? 0x205F) || (c =? 0x3000) || (c =? 0xFEFF).

Fixpoint trimStart (s : jsstring) : jsstring :=
  match s with
  | c :: s' => if is_whitespace c then trimStart s' else s
  | [] => []
  end.

Definition trimEnd (s : jsstring) : jsstring := rev (trimStart (rev s)).

Definition trim (s : jsstring) : jsstring := trimEnd (trimStart s).

(** What the properties use of [toLowerCase].  ECMAScript's [toLowerCase] is
    Unicode's default case conversion with the context rule for final sigma,
    and each law holds of it: among ASCII characters only the Basic Latin
    letters have a lower-case mapping and no rule looks at context; a
    lower-cased string has no character left that a mapping changes; a white
    space character has no case mapping, is the image of none, and is no
    cased letter that the final-sigma rule could see at either end; and no
    mapping deletes a character or makes one from nothing. *)
Class HostLaws (H : Host) : Prop := {
  (** On a string of ASCII code units, lower-casing maps [A-Z] to [a-z] and
      keeps everything else. *)
  toLowerCase_ascii : forall s,
    forallb is_ascii s = true -> toLowerCase s = map ascii_lower s;
  (** Lower-casing a lower-cased string changes nothing. *)
  toLowerCase_idem : forall s, toLowerCase (toLowerCase s) = toLowerCase s;
  (** White space has no case and is produced by no case mapping. *)
  toLowerCase_trim : forall s, trim (toLowerCase s) = toLowerCase (trim s);
  (** Lower-casing neither empties a string nor fills an empty one. *)
  toLowerCase_empty : forall s, is_empty (toLowerCase s) = is_empty s
}.

(** ** [decodeURIComponent]

    ECMA-262 Decode with an empty set of preserved escapes: every [%XX] is
    replaced, a byte with the top bit set starts a UTF-8 sequence of [%XX]
    escapes, and anything malformed throws [URIError]. *)

(** The value of a hexadecimal digit, [0-9], [a-f] or [A-F]. *)
Definition hex_value (c : N) : option N :=
  if is_digit c then Some (c - 48)
  else if in_range 97 102 c then Some (c - 87)
  else if in_range 65 70 c then Some (c - 55)
  else None.

(** ParseHexOctet: two hexadecimal digits at the head of [s]. *)
Definition ParseHexOctet (s : jsstring) : option (N * jsstring) :=
  match s with
  | h :: l :: rest =>
      match hex_value h, hex_value l with
      | Some a, Some b => Some (16 * a + b, rest)
      | _, _ => None
      end
  | _ => None
  end.

(** Number of leading one bits of an octet. *)
Definition leading_ones (b : N) : nat :=
  if b <? 0x80 then 0
  else if b <? 0xC0 then 1
  else if b <? 0xE0 then 2
  else if b <? 0xF0 then 3
  else if b <? 0xF8 then 4
  else 5.

(** The [n] escapes [%XX] that continue a sequence. *)
Fixpoint continuation (n : nat) (s : jsstring) : option (list N * jsstring) :=
  match n with
  | O => Some ([], s)
  | S n' =>
      match s with
      | c :: s1 =>
          if c =? PERCENT then
            match ParseHexOctet s1 with
            | Some (b, s2) =>
                match continuation n' s2 with
                | Some (bs, s3) => Some (b :: bs, s3)
                | None => None
                end
            | None => None
            end
          else None
      | [] => None
      end
  end.

Definition is_continuation_byte (b : N) : bool := in_range 0x80 0xBF b.

(** The code point of a well-formed UTF-8 sequence (no overlong forms, no
    surrogates, nothing above U+10FFFF). *)
Definition utf8_code_point (first : N) (rest : list N) : option N :=
  if forallb is_continuation_byte rest then
    let v := fold_left (fun acc b => acc * 64 + (b - 0x80)) rest
               (match rest with
                | [_] => first - 0xC0
                | [_; _] => first - 0xE0
                | _ => first - 0xF0
                end) in
    match rest with
    | [_] => if 0x80 <=? v then Some v else None
    | [_; _] => if (0x800 <=? v) && negb (in_range 0xD800 0xDFFF v) then Some v else None
    | [_; _; _] => if in_range 0x10000 0x10FFFF v then Some v else None
    | _ => None
    end
  else None.

Definition UTF16EncodeCodePoint (v : N) : jsstring :=
  if v <=? 0xFFFF then [v]
  else [0xD800 + (v - 0x10000) / 0x400; 0xDC00 + (v - 0x10000) mod 0x400].

Fixpoint Decode (fuel : nat) (s : jsstring) : completion jsstring :=
  match fuel with
  | O => ret []
  | S fuel' =>
      match s with
      | [] => ret []
      | c :: rest =>
          if c =? PERCENT then
            match ParseHexOctet rest with
            | None => Throw URIError
            | Some (b, rest1) =>
                match leading_ones b with
                | O => r <- Decode fuel' rest1 ;; ret (b :: r)
                | 1%nat => Throw URIError
                | S n =>
                    if (4 <? N.of_nat (S n)) then Throw URIError
                    else
                      match continuation n rest1 with
                      | None => Throw URIError
                      | Some (octets, rest2) =>
                          match utf8_code_point b octets with
                          | None => Throw URIError
                          | Some v =>
                              r <- Decode fuel' rest2 ;;
                              ret (UTF16EncodeCodePoint v ++ r)
                          end
                      end
                end
            end
          else r <- Decode fuel' rest ;; ret (c :: r)
      end
  end.

Definition decodeURIComponent (s : jsstring) : completion jsstring :=
  Decode (List.length s) s.

(** ** [new URL(input)]

    The WHATWG basic URL parser without a base URL and without a state
    override, written as the composition of its states.  The validator reads
    two attributes of the result, [hostname] and [pathname], so the record
    keeps the serialised host and path; scheme, credentials, port,
    query and fragment are parsed (they can fail or end the path) and
    dropped.  The parser works on code points. *)

Record URL := {
  hostname : jsstring;
  pathname : jsstring
}.

(** Conversion of a JavaScript string to scalar values: a surrogate pair is
    one code point, a lone surrogate is replaced by U+FFFD. *)
Fixpoint code_points (s : jsstring) : list N :=
  match s with
  | [] => []
  | c :: rest =>
      if in_range 0xD800 0xDBFF c then
        match rest with
        | d :: rest' =>
            if in_range 0xDC00 0xDFFF d
            then (0x10000 + (c - 0xD800) * 0x400 + (d - 0xDC00)) :: code_points rest'
            else 0xFFFD :: code_points rest
        | [] => [0xFFFD]
        end
      else if in_range 0xDC00 0xDFFF c then 0xFFFD :: code_points rest
      else c :: code_points rest
  end.

Fixpoint span (p : N -> bool) (s : list N) : list N * list N :=
  match s with
  | c :: s' => if p c then let (a, b) := span p s' in (c :: a, b) else ([], s)
  | [] => ([], [])
  end.

Fixpoint dropWhile (p : N -> bool) (s : list N) : list N :=
  match s with
  | c :: s' => if p c then dropWhile p s' else s
  | [] => []
  end.

Definition is_c0_or_space (c : N) : bool := c <=? SPACE.
Definition is_tab_or_newline (c : N) : bool := (c =? TAB) || (c =? LF) || (c =? CR).

(** Leading and trailing C0 controls and spaces are stripped, then every
    ASCII tab and newline is removed, wherever it stands. *)
Definition url_preprocess (input : list N) : list N :=
  let stripped := rev (dropWhile is_c0_or_space (rev (dropWhile is_c0_or_space input))) in
  filter (fun c => negb (is_tab_or_newline c)) stripped.

Definition is_special (scheme : jsstring) : bool :=
  includes [str "ftp"; str "file"; str "http"; str "https"; str "ws"; str "wss"] scheme.

(** *** Percent-encoding *)

(** UTF-8 encoding of a code point; each octet keeps the bits of its field,
    so that it is an octet whatever number is passed. *)
Definition utf8_encode (c : N) : list N :=
  if c <? 0x80 then [c]
  else if c <? 0x800 then [0xC0 + c / 64; 0x80 + c mod 64]
  else if c <? 0x10000 then [0xE0 + c / 4096; 0x80 + (c / 64) mod 64; 0x80 + c mod 64]
  else [0xF0 + (c / 262144) mod 8; 0x80 + (c / 4096) mod 64; 0x80 + (c / 64) mod 64;
        0x80 + c mod 64].

(** The digit [0-9A-F] of a number below sixteen. *)
Definition hex_digit (n : N) : N := if n <? 10 then 48 + n else 55 + n.

Definition percent_encode_byte (b : N) : jsstring :=
  [PERCENT; hex_digit (b / 16); hex_digit (b mod 16)].

(** The C0 control, query and path percent-encode sets. *)
Definition c0_control_set (c : N) : bool := (c <=? 0x1F) || (0x7E <? c).
Definition query_set (c : N) : bool :=
  c0_control_set c || (c =? SPACE) || (c =? 0x22) || (c =? HASH) || (c =? 0x3C)
  || (c =? 0x3E).
Definition path_set (c : N) : bool :=
  query_set c || (c =? QUESTION) || (c =? 0x5E) || (c =? 0x60) || (c =? 0x7B)
  || (c =? 0x7D).

Definition utf8_percent_encode (set : N -> bool) (c : N) : jsstring :=
  if set c then flat_map percent_encode_byte (utf8_encode c) else [c].

(** Percent-decoding of a byte sequence: [%XX] becomes a byte, any other
    [%] is kept. *)
Fixpoint percent_decode (fuel : nat) (s : list N) : list N :=
  match fuel with
  | O => []
  | S fuel' =>
      match s with
      | [] => []
      | c :: rest =>
          if c =? PERCENT then
            match ParseHexOctet rest with
            | Some (b, rest') => b :: percent_decode fuel' rest'
            | None => c :: percent_decode fuel' rest
            end
          else c :: percent_decode fuel' rest
      end
  end.

(** *** Hosts *)

Definition forbidden_host_code_point (c : N) : bool :=
  existsb (N.eqb c)
    [0x00; TAB; LF; CR; SPACE; HASH; SLASH; COLON; 0x3C; 0x3E; QUESTION; AT;
     LBRACKET; BACKSLASH; RBRACKET; 0x5E; PIPE].

Definition forbidden_domain_code_point (c : N) : bool :=
  forbidden_host_code_point c || (c <=? 0x1F) || (c =? PERCENT) || (c =? 0x7F).

(** Strictly split on a delimiter: always at least one item. *)
Fixpoint split_on (d : N) (s : list N) : list (list N) :=
  match s with
  | [] => [[]]
  | c :: s' =>
      if c =? d then [] :: split_on d s'
      else match split_on d s' with
           | item :: items => (c :: item) :: items
           | [] => [[c]]
           end
  end.

Definition digit_value (radix : N) (c : N) : option N :=
  match hex_value c with
  | Some v => if v <? radix then Some v else None
  | None => None
  end.

Fixpoint parse_radix (radix : N) (acc : N) (s : list N) : option N :=
  match s with
  | [] => Some acc
  | c :: s' =>
      match digit_value radix c with
      | Some v => parse_radix radix (acc * radix + v) s'
      | None => None
      end
  end.

(** The IPv4 number parser: decimal, [0x] hexadecimal or [0] octal. *)
Definition parse_ipv4_number (input : list N) : option N :=
  let two_or_more := 2 <=? N.of_nat (List.length input) in
  if is_empty input then None
  else if two_or_more && (startsWith input (str "0x") || startsWith input (str "0X"))
  then parse_radix 16 0 (skipn 2 input)
  else if two_or_more && startsWith input (str "0") then parse_radix 8 0 (skipn 1 input)
  else parse_radix 10 0 input.

Definition ends_in_a_number (domain : jsstring) : bool :=
  let parts := split_on DOT domain in
  let parts := if is_empty (last parts []) then removelast parts else parts in
  match parts with
  | [] => false
  | _ =>
      let l := last parts [] in
      (negb (is_empty l) && forallb is_digit l)
      || match parse_ipv4_number l with Some _ => true | None => false end
  end.

Fixpoint all_some {A} (l : list (option A)) : option (list A) :=
  match l with
  | [] => Some []
  | Some a :: l' =>
      match all_some l' with Some r => Some (a :: r) | None => None end
  | None :: _ => None
  end.

(** The IPv4 parser; the result is the address as a number. *)
Definition parse_ipv4 (input : jsstring) : option N :=
  let parts := split_on DOT input in
  let parts :=
    if is_empty (last parts []) && (1 <? N.of_nat (List.length parts))
    then removelast parts else parts in
  if 4 <? N.of_nat (List.length parts) then None
  else
    match all_some (map parse_ipv4_number parts) with
    | None => None
    | Some numbers =>
        let lastn := last numbers 0 in
        let front := removelast numbers in
        if existsb (fun n => 255 <? n) front then None
        else if 256 ^ (5 - N.of_nat (List.length numbers)) <=? lastn then None
        else
          Some (lastn +
                fst (fold_left (fun '(sum, counter) n => (sum + n * 256 ^ (3 - counter), counter + 1))
                               front (0, 0)))
    end.

Fixpoint decimal_digits (fuel : nat) (n : N) (acc : jsstring) : jsstring :=
  match fuel with
  | O => acc
  | S fuel' =>
      let acc' := (48 + n mod 10) :: acc in
      if n <? 10 then acc' else decimal_digits fuel' (n / 10) acc'
  end.

Definition decimal (n : N) : jsstring := decimal_digits 10 n [].

Definition serialize_ipv4 (a : N) : jsstring :=
  decimal (a / 16777216) ++ [DOT] ++ decimal ((a / 65536) mod 256) ++ [DOT]
  ++ decimal ((a / 256) mod 256) ++ [DOT] ++ decimal (a mod 256).

(** Does some label of the domain start with [xn--], in any case? *)
Definition has_punycode_label (domain : jsstring) : bool :=
  existsb (fun label => startsWith (map ascii_lower label) (str "xn--")) (split_on DOT domain).

Section Parser.
Context {H : Host}.

(** The opaque-host parser, for schemes that are not special. *)
Definition opaque_host_parse (input : list N) : option jsstring :=
  if existsb forbidden_host_code_point input then None
  else Some (flat_map (utf8_percent_encode c0_control_set) input).

(** The domain branch of the host parser.  Domain-to-ASCII of an ASCII
    domain without [xn--] labels is ASCII lower-casing; every other domain
    goes to the host's IDNA processing. *)
Definition domain_parse (input : list N) : option jsstring :=
  let bytes := percent_decode (List.length input) input in
  let asciiDomain :=
    if forallb is_ascii input && forallb is_ascii bytes && negb (has_punycode_label bytes)
    then Some (map ascii_lower bytes)
    else domainToASCII input in
  match asciiDomain with
  | None => None
  | Some d =>
      if is_empty d || existsb forbidden_domain_code_point d then None
      else if ends_in_a_number d then option_map serialize_ipv4 (parse_ipv4 d)
      else Some d
  end.

Definition host_parse (isOpaque : bool) (input : list N) : option jsstring :=
  if startsWith input (str "[") then
    match rev (tl input) with
    | c :: address =>
        if c =? RBRACKET
        then option_map (fun a => [LBRACKET] ++ a ++ [RBRACKET]) (ipv6 (rev address))
        else None
    | [] => None
    end
  else if isOpaque then opaque_host_parse input
  else domain_parse input.

(** *** Paths *)

Definition is_windows_drive_letter (s : list N) : bool :=
  match s with
  | [a; b] => is_alpha a && ((b =? COLON) || (b =? PIPE))
  | _ => false
  end.

Definition is_normalized_windows_drive_letter (s : list N) : bool :=
  match s with
  | [a; b] => is_alpha a && (b =? COLON)
  | _ => false
  end.

Definition is_single_dot (buffer : jsstring) : bool :=
  includes [str "."; str "%2e"] (map ascii_lower buffer).

Definition is_double_dot (buffer : jsstring) : bool :=
  includes [str ".."; str ".%2e"; str "%2e."; str "%2e%2e"] (map ascii_lower buffer).

Definition shorten (is_file : bool) (path : list jsstring) : list jsstring :=
  match path with
  | [segment] =>
      if is_file && is_normalized_windows_drive_letter segment then path
      else removelast path
  | _ => removelast path
  end.

(** The end of a path segment; [slash] tells whether a slash ended it. *)
Definition push_segment (is_file : bool) (path : list jsstring) (buffer : jsstring)
    (slash : bool) : list jsstring :=
  if is_double_dot buffer then
    let path := shorten is_file path in
    if slash then path else path ++ [[]]
  else if is_single_dot buffer then
    if slash then path else path ++ [[]]
  else
    let buffer :=
      if is_file && (match path with [] => true | _ :: _ => false end)
         && is_windows_drive_letter buffer
      then match buffer with a :: _ => [a; COLON] | [] => buffer end
      else buffer in
    path ++ [buffer].

(** The path state: the segments of the path, up to the query or fragment. *)
Fixpoint path_state (special is_file : bool) (path : list jsstring) (buffer : jsstring)
    (input : list N) : list jsstring :=
  match input with
  | [] => push_segment is_file path buffer false
  | c :: rest =>
      if (c =? SLASH) || (special && (c =? BACKSLASH))
      then path_state special is_file (push_segment is_file path buffer true) [] rest
      else if (c =? QUESTION) || (c =? HASH) then push_segment is_file path buffer false
      else path_state special is_file path (buffer ++ utf8_percent_encode path_set c) rest
  end.

Definition path_start_state (special is_file : bool) (input : list N) : list jsstring :=
  if special then
    match input with
    | c :: rest =>
        if (c =? SLASH) || (c =? BACKSLASH) then path_state special is_file [] [] rest
        else path_state special is_file [] [] input
    | [] => path_state special is_file [] [] []
    end
  else
    match input with
    | [] => []
    | c :: rest =>
        if (c =? QUESTION) || (c =? HASH) then []
        else if c =? SLASH then path_state special is_file [] [] rest
        else path_state special is_file [] [] input
    end.

(** The opaque path of a URL such as [mailto:a@b]. *)
Fixpoint opaque_path_state (input : list N) : jsstring :=
  match input with
  | [] => []
  | c :: rest =>
      if (c =? QUESTION) || (c =? HASH) then []
      else if c =? SPACE then
        match rest with
        | d :: _ =>
            (if (d =? QUESTION) || (d =? HASH) then str "%20" else [SPACE])
            ++ opaque_path_state rest
        | [] => [SPACE]
        end
      else utf8_percent_encode c0_control_set c ++ opaque_path_state rest
  end.

(** The URL path serializer, as the [pathname] getter calls it. *)
Definition serialize_path (path : list jsstring) : jsstring :=
  flat_map (fun segment => SLASH :: segment) path.

(** *** Authority *)

Definition authority_end (special : bool) (c : N) : bool :=
  (c =? SLASH) || (c =? QUESTION) || (c =? HASH) || (special && (c =? BACKSLASH)).

(** What follows the last [@] of the authority, if there is one. *)
Fixpoint after_last_at (s : list N) : option (list N) :=
  match s with
  | [] => None
  | c :: r =>
      match after_last_at r with
      | Some t => Some t
      | None => if c =? AT then Some r else None
      end
  end.

(** The host state: the buffer up to the first [:] outside brackets, and the
    port text after it. *)
Fixpoint split_host_port (insideBrackets : bool) (s : list N) : list N * option (list N) :=
  match s with
  | [] => ([], None)
  | c :: r =>
      if (c =? COLON) && negb insideBrackets then ([], Some r)
      else
        let inside :=
          if c =? LBRACKET then true else if c =? RBRACKET then false
          else insideBrackets in
        let (buffer, port) := split_host_port inside r in
        (c :: buffer, port)
  end.

Definition port_ok (p : list N) : bool :=
  forallb is_digit p
  && match parse_radix 10 0 p with Some v => v <=? 65535 | None => false end.

(** Authority, host and port states: the serialised host and the input that
    remains for the path. *)
Definition authority_state (special : bool) (input : list N) : option (jsstring * list N) :=
  let (authority, rest) := span (fun c => negb (authority_end special c)) input in
  let hostport :=
    match after_last_at authority with
    | Some hp => if is_empty hp then None else Some hp
    | None => Some authority
    end in
  match hostport with
  | None => None
  | Some hp =>
      match split_host_port false hp with
      | (buffer, Some port) =>
          if is_empty buffer then None
          else
            match host_parse (negb special) buffer with
            | Some host => if port_ok port then Some (host, rest) else None
            | None => None
            end
      | (buffer, None) =>
          if special && is_empty buffer then None
          else
            match host_parse (negb special) buffer with
            | Some host => Some (host, rest)
            | None => None
            end
      end
  end.

Definition is_slash (c : N) : bool := (c =? SLASH) || (c =? BACKSLASH).

(** *** The [file] scheme *)

Definition file_host_state (input : list N) : option URL :=
  let (buffer, rest) :=
    span (fun c => negb (is_slash c || (c =? QUESTION) || (c =? HASH))) input in
  if is_windows_drive_letter buffer then
    Some {| hostname := []; pathname := serialize_path (path_state true true [] buffer rest) |}
  else if is_empty buffer then
    Some {| hostname := []; pathname := serialize_path (path_start_state true true rest) |}
  else
    match host_parse false buffer with
    | None => None
    | Some host =>
        Some {| hostname := if jseq host (str "localhost") then [] else host;
                pathname := serialize_path (path_start_state true true rest) |}
    end.

Definition file_state (input : list N) : option URL :=
  let path_only rest :=
    Some {| hostname := []; pathname := serialize_path (path_state true true [] [] rest) |} in
  match input with
  | c :: r1 =>
      if is_slash c then
        match r1 with
        | d :: r2 => if is_slash d then file_host_state r2 else path_only r1
        | [] => path_only r1
        end
      else path_only input
  | [] => path_only input
  end.

(** *** The parser *)

Definition is_scheme_char (c : N) : bool :=
  is_alnum c || (c =? 0x2B) || (c =? 0x2D) || (c =? DOT).

Definition basic_URL_parser (input : jsstring) : option URL :=
  let input := url_preprocess (code_points input) in
  if match input with c :: _ => is_alpha c | [] => false end then
    let (buffer, rest) := span is_scheme_char input in
    if startsWith rest (str ":") then
      let remaining := tl rest in
      let scheme := map ascii_lower buffer in
      if jseq scheme (str "file") then file_state remaining
      else if is_special scheme then
        match authority_state true (dropWhile is_slash remaining) with
        | Some (host, rest) =>
            Some {| hostname := host;
                    pathname := serialize_path (path_start_state true false rest) |}
        | None => None
        end
      else if startsWith remaining (str "//") then
        match authority_state false (skipn 2 remaining) with
        | Some (host, rest) =>
            Some {| hostname := host;
                    pathname := serialize_path (path_start_state false false rest) |}
        | None => None
        end
      else if startsWith remaining (str "/") then
        Some {| hostname := [];
                pathname := serialize_path (path_state false false [] [] (tl remaining)) |}
      else Some {| hostname := []; pathname := opaque_path_state remaining |}
    else None
  else None.

(** [new URL(input)] throws a [TypeError] when the parser fails. *)
Definition new_URL (input : jsstring) : completion URL :=
  match basic_URL_parser input with
  | Some url => ret url
  | None => Throw TypeError
  end.

End Parser.

(** ** Regular expressions of the validator

    All of them carry the flag [i] and none the flag [u]: a letter of the
    pattern matches the same ASCII letter in either case and nothing else,
    and the input is read code unit by code unit. *)

(** A literal at the head of the input; the result is what follows it. *)
Fixpoint match_literal_i (literal input : jsstring) : option jsstring :=
  match literal, input with
  | [], _ => Some input
  | p :: literal', c :: input' =>
      if ascii_lower c =? ascii_lower p then match_literal_i literal' input' else None
  | _ :: _, [] => None
  end.

(** [/^(a|b|...)/i.test(s)] *)
Definition test_prefix_i (alternatives : list jsstring) (s : jsstring) : bool :=
  existsb (fun alt => match match_literal_i alt s with Some _ => true | None => false end)
          alternatives.

(** [test] of a pattern that is not anchored: some position matches. *)
Fixpoint search (p : jsstring -> bool) (s : jsstring) : bool :=
  p s || match s with [] => false | _ :: s' => search p s' end.

(** [s.split(/[?#]/)[0]] *)
Definition before_query (s : jsstring) : jsstring :=
  fst (span (fun c => negb ((c =? QUESTION) || (c =? HASH))) s).

(** [s.match(/\.([a-z0-9]+)$/i)]: the first capture group of the leftmost
    match, if any. *)
Fixpoint match_extension (s : jsstring) : option jsstring :=
  match s with
  | [] => None
  | c :: rest =>
      if (c =? DOT) && negb (is_empty rest) && forallb is_alnum rest then Some rest
      else match_extension rest
  end.

(** The lookahead [(?=[^a-z]|$)]. *)
Definition lookahead_boundary (rest : jsstring) : bool :=
  match rest with
  | [] => true
  | c :: _ => negb (is_alpha c)
  end.

(** ** The validator *)

Record Verdict := {
  status : jsstring;
  reasonCode : jsstring;
  message : jsstring
}.

(** JavaScript values, as far as a caller can pass them for [content].  The
    validator applies [!] and [typeof] to the value and calls a method on
    it only when it is a string, so a number is kept as a natural number:
    all that is read of it is whether it is zero. *)
Inductive value :=
| JsUndefined
| JsNull
| JsBoolean (b : bool)
| JsNumber (n : N)
| JsString (s : jsstring)
| JsObject.

Definition ToBoolean (v : value) : bool :=
  match v with
  | JsUndefined | JsNull => false
  | JsBoolean b => b
  | JsNumber n => negb (n =? 0)
  | JsString s => negb (is_empty s)
  | JsObject => true
  end.

Definition typeof_string (v : value) : bool :=
  match v with JsString _ => true | _ => false end.

(** [content.trim()]: only a string has the method. *)
Definition call_trim (v : value) : completion jsstring :=
  match v with
  | JsString s => ret (trim s)
  | _ => Throw TypeError
  end.

(** The em dash of the messages. *)
Definition dash : jsstring := [0x2014].

Definition nonUrlTypes : list jsstring :=
  [str "Text"; str "Wi-Fi"; str "Email"; str "vCard"; str "Phone"; str "SMS";
   str "Event"; str "Geo"; str "UPI"; str "MECARD"].

(** The alternatives of [unsafeProtocolPattern]. *)
Definition unsafeSchemes : list jsstring :=
  [str "javascript:"; str "data:"; str "file:"; str "vbscript:"; str "about:";
   str "filesystem:"].

Definition unsafeProtocolPattern : jsstring -> bool := test_prefix_i unsafeSchemes.

Definition riskyProtocolPattern : jsstring -> bool :=
  test_prefix_i [str "ftp:"; str "telnet:"; str "ssh:"; str "mms:"; str "rtsp:";
                 str "magnet:"].

Definition blockedExtensions : list jsstring :=
  [str "exe"; str "msi"; str "bat"; str "cmd"; str "vbs"; str "scr"; str "dll";
   str "com"; str "jar"; str "ps1"; str "sh"; str "apk"; str "aab"; str "app";
   str "dmg"; str "pkg"; str "deb"; str "rpm"; str "img"; str "bin"; str "crx";
   str "xpi"].

Definition archiveExtensions : list jsstring :=
  [str "zip"; str "rar"; str "7z"; str "tar"; str "tgz"; str "tar.gz"; str "gz";
   str "bz2"; str "xz"; str "iso"].

Definition macroEnabledDocs : list jsstring := [str "docm"; str "xlsm"; str "pptm"].

Definition shortenerDomains : list jsstring :=
  [str "bit.ly"; str "t.co"; str "tinyurl.com"; str "goo.gl"; str "ow.ly";
   str "buff.ly"; str "dlvr.it"; str "rebrand.ly"; str "cutt.ly"].

(** The alternatives of the hidden-executable pattern, in its order. *)
Definition hiddenExecutableExtensions : list jsstring :=
  [str "exe"; str "msi"; str "bat"; str "cmd"; str "vbs"; str "scr"; str "dll";
   str "jar"; str "apk"; str "ps1"; str "sh"; str "aab"].

(** One alternative of the group, followed by the lookahead. *)
Definition hidden_alternative (rest ext : jsstring) : bool :=
  match match_literal_i ext rest with
  | Some after => lookahead_boundary after
  | None => false
  end.

(** [/\.(exe|msi|...|aab)(?=[^a-z]|$)/i] at the head of the input. *)
Definition hidden_executable_here (s : jsstring) : bool :=
  match s with
  | c :: rest => (c =? DOT) && existsb (hidden_alternative rest) hiddenExecutableExtensions
  | [] => false
  end.

Definition hiddenExecutablePattern : jsstring -> bool := search hidden_executable_here.

(** [/^https?:\/\//i.test(s) || /^ftp:\/\//i.test(s)] *)
Definition isUrlLike (s : jsstring) : bool :=
  test_prefix_i [str "https://"; str "http://"] s || test_prefix_i [str "ftp://"] s.

Section Validator.
Context {H : Host}.

(** The decoding loop: at most [rounds] rounds, left when a round changes
    nothing or throws. *)
Fixpoint decode_loop (rounds : nat) (decoded : jsstring) : jsstring :=
  match rounds with
  | O => decoded
  | S rounds' =>
      match decodeURIComponent decoded with
      | Normal once => if jseq once decoded then decoded else decode_loop rounds' once
      | Throw _ => decoded
      end
  end.

(** [decoded] as the checks see it: trimmed, lower-cased, decoded, and
    without NUL. *)
Definition normalize (trimmed : jsstring) : jsstring :=
  filter (fun c => negb (c =? 0x00)) (decode_loop 3 (toLowerCase trimmed)).

(** [extMatch ? extMatch[1].toLowerCase() : ""] *)
Definition extension_of (s : jsstring) : jsstring :=
  match match_extension s with
  | Some group => toLowerCase group
  | None => []
  end.

(** Step 5, the extension: from the path of the URL, or from the decoded
    string when it does not parse. *)
Definition extract_extension (decoded : jsstring) : completion jsstring :=
  try_catch
    (urlObj <- new_URL decoded ;;
     let pathname := if is_empty (pathname urlObj) then [] else pathname urlObj in
     let pathPart := before_query (toLowerCase pathname) in
     ret (extension_of pathPart))
    (let noQuery := before_query decoded in
     ret (extension_of noQuery)).

(** Step 10, punycode and shortener domains: the verdict returned inside the
    [try], or [None] when the block is left without one. *)
Definition check_domain (decoded : jsstring) : completion (option Verdict) :=
  try_catch
    (urlObj <- new_URL decoded ;;
     let domain := toLowerCase (hostname urlObj) in
     if startsWith domain (str "xn--") then
       ret (Some {| status := str "warn";
                    reasonCode := str "PUNYCODE_DOMAIN";
                    message := str "Caution " ++ dash ++
                      str " this domain uses internationalized (Punycode) characters. Verify that it belongs to a trusted source before sharing or scanning." |})
     else if includes shortenerDomains domain then
       ret (Some {| status := str "warn";
                    reasonCode := str "SHORTENER";
                    message := str "Shortened URL detected (" ++ domain ++
                      str "). Expand the link before generating a QR code." |})
     else ret None)
    (ret None).

Definition validateInputSafety (inputType : jsstring) (content : value)
    (isVerifiedUser : bool) : completion Verdict :=
  (* 1. Normalize *)
  blank <- (if negb (ToBoolean content) then ret true
            else if negb (typeof_string content) then ret true
            else (trimmed <- call_trim content ;;
                  ret (negb (ToBoolean (JsString trimmed))))) ;;
  if blank then
    ret {| status := str "block";
           reasonCode := str "EMPTY";
           message := str "Please enter content to generate a QR code." |}
  else
  trimmed <- call_trim content ;;
  let decoded := normalize trimmed in
  let isUrlLike := isUrlLike decoded in
  (* 2. Skip validation for non-URL input types *)
  if includes nonUrlTypes inputType then
    ret {| status := str "ok";
           reasonCode := str "SAFE";
           message := str "Content type is non-URL and safe." |}
  (* 3. Protocol safety check *)
  else if unsafeProtocolPattern decoded then
    ret {| status := str "block";
           reasonCode := str "UNSAFE_PROTOCOL";
           message := str "Blocked " ++ dash ++
             str " unsafe URL scheme (javascript:, data:, file:, etc.) detected." |}
  else if riskyProtocolPattern decoded then
    ret {| status := str "warn";
           reasonCode := str "RISKY_PROTOCOL";
           message := str "Warning " ++ dash ++
             str " non-secure protocol detected (ftp, telnet, etc.)." |}
  else
  (* 5. Extract file extension safely *)
  extension <- extract_extension decoded ;;
  (* 6. Hidden executable detection *)
  if hiddenExecutablePattern decoded then
    ret {| status := str "block";
           reasonCode := str "EXECUTABLE_HIDDEN";
           message := str "Blocked " ++ dash ++
             str " hidden executable signature detected in encoded or obfuscated URL." |}
  (* 7. Executable / dangerous file extensions *)
  else if includes blockedExtensions extension then
    ret {| status := str "block";
           reasonCode := str "EXECUTABLE";
           message := str "Blocked " ++ dash ++
             str " executable or installable file type (." ++ extension ++
             str ") is not allowed for safety reasons." |}
  (* 8. Archive / compressed files *)
  else if includes archiveExtensions extension then
    if negb isVerifiedUser then
      ret {| status := str "block";
             reasonCode := str "ARCHIVE";
             message := str "Archive file (." ++ extension ++
               str ") links are restricted to verified users for safety." |}
    else
      ret {| status := str "warn";
             reasonCode := str "ARCHIVE";
             message := str "Archive link detected (." ++ extension ++
               str "). Proceed with caution and share only with trusted users." |}
  (* 9. Macro-enabled office documents *)
  else if includes macroEnabledDocs extension then
    ret {| status := str "warn";
           reasonCode := str "MACRO_DOC";
           message := str "Macro-enabled document (." ++ extension ++
             str ") detected. These may contain embedded scripts. Verify file before sharing." |}
  else
  (* 10. Punycode (IDN) detection and shorteners *)
  returned <- check_domain decoded ;;
  match returned with
  | Some verdict => ret verdict
  | None =>
  (* 11. HTTP vs HTTPS *)
  if startsWith decoded (str "http://") then
    ret {| status := str "warn";
           reasonCode := str "HTTP";
           message := str "Warning " ++ dash ++
             str " non-secure HTTP link detected. Use HTTPS whenever possible." |}
  (* 12. Default safe case *)
  else if isUrlLike || startsWith decoded (str "https://") then
    ret {| status := str "ok";
           reasonCode := str "SAFE";
           message := str "Looks good " ++ dash ++
             str " this link appears safe for QR generation." |}
  (* 13. Invalid or malformed input *)
  else
    ret {| status := str "block";
           reasonCode := str "INVALID";
           message := str "Invalid or unrecognized input. Please enter a valid URL or text." |}
  end.

End Validator.

(** ** [encodeURIComponent]

    ECMA-262 Encode with the unreserved set of [encodeURIComponent]: the
    letters, the digits and [- _ . ! ~ * ' ( )] are kept, every other code
    point is written as the escapes [%XX] of its UTF-8 octets, and a
    surrogate without its partner throws [URIError].  The callers of the
    validator build the [mailto:] content with it. *)

Definition uriUnescaped (c : N) : bool :=
  is_alnum c
  || existsb (N.eqb c) [0x2D; 0x5F; DOT; 0x21; 0x7E; 0x2A; 0x27; 0x28; 0x29].

Fixpoint Encode (s : jsstring) : completion jsstring :=
  match s with
  | [] => ret []
  | c :: rest =>
      if uriUnescaped c then r <- Encode rest ;; ret (c :: r)
      else if in_range 0xDC00 0xDFFF c then Throw URIError
      else if in_range 0xD800 0xDBFF c then
        match rest with
        | d :: rest' =>
            if in_range 0xDC00 0xDFFF d then
              r <- Encode rest' ;;
              ret (flat_map percent_encode_byte
                     (utf8_encode (0x10000 + (c - 0xD800) * 0x400 + (d - 0xDC00))) ++ r)
            else Throw URIError
        | [] => Throw URIError
        end
      else r <- Encode rest ;; ret (flat_map percent_encode_byte (utf8_encode c) ++ r)
  end.

Definition encodeURIComponent (s : jsstring) : completion jsstring := Encode s.

(** [layers] applications of [encodeURIComponent]. *)
Fixpoint encode_layers (layers : nat) (s : jsstring) : completion jsstring :=
  match layers with
  | O => ret s
  | S layers' => once <- encodeURIComponent s ;; encode_layers layers' once
  end.

(** A JavaScript string: every code unit is below 2^16. *)
Definition code_units (s : jsstring) : Prop := Forall (fun c => c < 0x10000) s.

(** A code unit that decoding and the removal of NUL leave in place. *)
Definition plain_char (c : N) : bool := negb (c =? PERCENT) && negb (c =? 0x00).

(** A code unit of an encoded string. *)
Definition uri_char (c : N) : bool := uriUnescaped c || (c =? PERCENT).

(** ** The basic variant of the validator

    The repository holds a second [validateInputSafety], the validator before
    multi-level decoding, the hidden-executable check and the punycode check
    were added.  It decodes once and outside any [try], tests the protocols
    on the lower-cased content, takes the extension from the decoded
    string, and strips a leading [www.] from the host before it looks for a
    shortener.  Its lists are those of the enhanced variant. *)

Module Basic.
Section Validator.
Context {H : Host}.

(** [urlObj.hostname.replace(/^www\./, "")] *)
Definition strip_www (hostname : jsstring) : jsstring :=
  if startsWith hostname (str "www.") then skipn 4 hostname else hostname.

(** Step 9, shortened URLs: the verdict returned inside the [try], or [None]
    when the block is left without one. *)
Definition check_shortener (value : jsstring) : completion (option Verdict) :=
  try_catch
    (urlObj <- new_URL value ;;
     let domain := strip_www (hostname urlObj) in
     if includes shortenerDomains domain then
       ret (Some {| status := str "warn";
                    reasonCode := str "SHORTENER";
                    message := str "Shortened URL detected (" ++ domain ++
                      str "). Expand the link before generating a QR code." |})
     else ret None)
    (ret None).

Definition validateInputSafety (inputType : jsstring) (content : value)
    (isVerifiedUser : bool) : completion Verdict :=
  (* 1. Normalize *)
  blank <- (if negb (ToBoolean content) then ret true
            else if negb (typeof_string content) then ret true
            else (trimmed <- call_trim content ;;
                  ret (negb (ToBoolean (JsString trimmed))))) ;;
  if blank then
    ret {| status := str "block";
           reasonCode := str "EMPTY";
           message := str "Please enter content to generate a QR code." |}
  else
  trimmed <- call_trim content ;;
  let value := toLowerCase trimmed in
  decoded <- decodeURIComponent value ;;
  let noQuery := before_query decoded in
  let isUrlLike := isUrlLike value in
  (* 2. Skip validation for non-URL input types *)
  if includes nonUrlTypes inputType then
    ret {| status := str "ok";
           reasonCode := str "SAFE";
           message := str "Content type is non-URL and safe." |}
  (* 3. Protocol safety check *)
  else if unsafeProtocolPattern value then
    ret {| status := str "block";
           reasonCode := str "UNSAFE_PROTOCOL";
           message := str "Blocked " ++ dash ++
             str " unsafe URL scheme (javascript:, data:, file:, etc.) detected." |}
  else if riskyProtocolPattern value then
    ret {| status := str "warn";
           reasonCode := str "RISKY_PROTOCOL";
           message := str "Warning " ++ dash ++
             str " non-secure protocol detected (ftp, telnet, etc.)." |}
  else
  (* 5. Extract file extension *)
  let extension := extension_of noQuery in
  (* 6. Executable / dangerous file extensions *)
  if includes blockedExtensions extension then
    ret {| status := str "block";
           reasonCode := str "EXECUTABLE";
           message := str "Blocked " ++ dash ++
             str " executable or installable file type (." ++ extension ++
             str ") is not allowed for safety reasons." |}
  (* 7. Archive / compressed files *)
  else if includes archiveExtensions extension then
    if negb isVerifiedUser then
      ret {| status := str "block";
             reasonCode := str "ARCHIVE";
             message := str "Archive file (." ++ extension ++
               str ") links are restricted to verified users for safety." |}
    else
      ret {| status := str "warn";
             reasonCode := str "ARCHIVE";
             message := str "Archive link detected (." ++ extension ++
               str "). Proceed with caution and share only with trusted users." |}
  (* 8. Macro-enabled office documents *)
  else if includes macroEnabledDocs extension then
    ret {| status := str "warn";
           reasonCode := str "MACRO_DOC";
           message := str "Macro-enabled document (." ++ extension ++
             str ") detected. These may contain embedded scripts. Verify file before sharing." |}
  else
  (* 9. Shortened URLs *)
  returned <- check_shortener value ;;
  match returned with
  | Some verdict => ret verdict
  | None =>
  (* 10. HTTP vs HTTPS *)
  if startsWith value (str "http://") then
    ret {| status := str "warn";
           reasonCode := str "HTTP";
           message := str "Warning " ++ dash ++
             str " non-secure HTTP link detected. Use HTTPS whenever possible." |}
  (* 11. Default safe case *)
  else if isUrlLike || startsWith value (str "https://") then
    ret {| status := str "ok";
           reasonCode := str "SAFE";
           message := str "Looks good " ++ dash ++
             str " this link appears safe for QR generation." |}
  (* 12. Invalid or malformed input *)
  else
    ret {| status := str "block";
           reasonCode := str "INVALID";
           message := str "Invalid or unrecognized input. Please enter a valid URL or text." |}
  end.

End Validator.
End Basic.

(** ** The application (src/App.jsx)

    The form keeps its fields in the object [inputs], which starts empty and
    which [handleChange] extends with the text of a form control: a field is
    absent or a string. *)

Definition Inputs : Type := jsstring -> option jsstring.

(** [{ ...inputs, [field]: value }] *)
Definition merge (inputs : Inputs) (field value : jsstring) : Inputs :=
  fun name => if jseq name field then Some value else inputs name.

(** [x || d] of a field [x]. *)
Definition or_default (x : option jsstring) (d : jsstring) : jsstring :=
  match x with
  | Some (c :: s) => c :: s
  | _ => d
  end.

(** [x ? `...${x}` : ""] of a field [x], with the text before it. *)
Definition when_given (before : jsstring) (x : option jsstring) : jsstring :=
  match x with
  | Some (c :: s) => before ++ c :: s
  | _ => []
  end.

(** The structured input types, in the order of the [switch]. *)
Definition structuredTypes : list jsstring :=
  [str "Wi-Fi"; str "Email"; str "vCard"; str "Phone"; str "SMS"; str "Event";
   str "Geo"; str "UPI"; str "MECARD"].

(** [inputs.name || ""] *)
Definition given (inputs : Inputs) (name : string) : jsstring :=
  or_default (inputs (str name)) [].

Definition buildContent (inputType : jsstring) (inputs : Inputs) : completion jsstring :=
  if jseq inputType (str "URL") then ret (given inputs "url")
  else if jseq inputType (str "Text") then ret (given inputs "text")
  else if jseq inputType (str "Wi-Fi") then
    ret (str "WIFI:S:" ++ given inputs "ssid" ++ str ";T:"
         ++ or_default (inputs (str "encryption")) (str "WPA")
         ++ str ";P:" ++ given inputs "password" ++ str ";;")
  else if jseq inputType (str "Email") then
    subject <- encodeURIComponent (given inputs "subject") ;;
    body <- encodeURIComponent (given inputs "body") ;;
    ret (str "mailto:" ++ given inputs "emailTo" ++ str "?subject=" ++ subject
         ++ str "&body=" ++ body)
  else if jseq inputType (str "vCard") then
    ret (str "BEGIN:VCARD" ++ [LF] ++ str "VERSION:3.0" ++ [LF]
         ++ str "FN:" ++ given inputs "name" ++ [LF]
         ++ str "ORG:" ++ given inputs "company" ++ [LF]
         ++ str "TEL:" ++ given inputs "phone" ++ [LF]
         ++ str "EMAIL:" ++ given inputs "email" ++ [LF] ++ str "END:VCARD")
  else if jseq inputType (str "Phone") then
    ret (str "tel:" ++ given inputs "phoneNumber")
  else if jseq inputType (str "SMS") then
    ret (str "SMSTO:" ++ given inputs "smsNumber" ++ str ":" ++ given inputs "smsMessage")
  else if jseq inputType (str "Event") then
    ret (str "BEGIN:VEVENT" ++ [LF]
         ++ str "SUMMARY:" ++ given inputs "eventName" ++ [LF]
         ++ str "LOCATION:" ++ given inputs "eventLocation" ++ [LF]
         ++ str "DTSTART:" ++ given inputs "eventStart" ++ [LF]
         ++ str "DTEND:" ++ given inputs "eventEnd" ++ [LF]
         ++ str "DESCRIPTION:" ++ given inputs "eventDescription" ++ [LF] ++ str "END:VEVENT")
  else if jseq inputType (str "Geo") then
    ret (str "geo:" ++ given inputs "latitude" ++ str "," ++ given inputs "longitude"
         ++ when_given (str "?q=") (inputs (str "label")))
  else if jseq inputType (str "UPI") then
    ret (str "upi://pay?pa=" ++ given inputs "pa" ++ str "&pn=" ++ given inputs "pn"
         ++ when_given (str "&am=") (inputs (str "am"))
         ++ when_given (str "&cu=") (inputs (str "cu"))
         ++ when_given (str "&tn=") (inputs (str "tn"))
         ++ when_given (str "&tr=") (inputs (str "tr")))
  else if jseq inputType (str "MECARD") then
    ret (str "MECARD:N:" ++ given inputs "fullName" ++ str ";TEL:" ++ given inputs "mePhone"
         ++ str ";EMAIL:" ++ given inputs "meEmail" ++ str ";;")
  else ret [].

(** What the validation before a backend request does: it leaves without
    content, it stops with the validation state it has set, or it goes on to
    the request for [data] with the validation state it has set. *)
Inductive Outcome :=
| NoContent
| Stopped (validationStatus validationMessage : jsstring)
| Request (data validationStatus validationMessage : jsstring).

Section App.
Context {H : Host}.

(** The body of the timer in the effect, up to the request. *)
Definition fetchQR (inputType : jsstring) (inputs : Inputs) (isVerifiedUser : bool)
    : completion Outcome :=
  content <- buildContent inputType inputs ;;
  if negb (ToBoolean (JsString (trim content))) then ret NoContent
  else
    try_catch
      (result <- validateInputSafety inputType (JsString content) isVerifiedUser ;;
       if jseq (status result) (str "block")
       then ret (Stopped (status result) (message result))
       else ret (Request content (status result) (message result)))
      (ret (Stopped (str "block") (str "Validation error"))).

(** [handleChange]: the new fields, and the validation state it sets, if it
    sets one.  The content is built from the merged fields by the [switch]
    of [buildContent], which the source repeats here. *)
Definition handleChange (inputType : jsstring) (inputs : Inputs) (isVerifiedUser : bool)
    (field value : jsstring) : Inputs * option (jsstring * jsstring) :=
  let merged := merge inputs field value in
  (merged,
   match (content <- buildContent inputType merged ;;
          validateInputSafety inputType (JsString content) isVerifiedUser) with
   | Normal result => Some (status result, message result)
   | Throw _ => None
   end).

End App.

(** ** The EPS export (src/App.jsx)

    [svgToEPS] edits the text of the SVG image with three calls of
    [String.prototype.replace]: a regular expression without the flag [g]
    and a string pattern replace their first match, a regular expression
    with the flag [g] replaces every match, from left to right. *)

(** What [.] does not match. *)
Definition is_line_terminator (c : N) : bool :=
  (c =? LF) || (c =? CR) || (c =? 0x2028) || (c =? 0x2029).

(** [.*?>]: the shortest run of characters that [.] matches, up to [>]; the
    result is what follows the match. *)
Fixpoint lazy_dots_then_gt (s : jsstring) : option jsstring :=
  match s with
  | [] => None
  | c :: rest =>
      if c =? 0x3E then Some rest
      else if is_line_terminator c then None
      else lazy_dots_then_gt rest
  end.

(** [/<svg.*?>/] at the head of the input. *)
Definition svg_open_tag (s : jsstring) : option jsstring :=
  if startsWith s (str "<svg") then lazy_dots_then_gt (skipn 4 s) else None.

(** A string pattern at the head of the input. *)
Definition literally (pattern s : jsstring) : option jsstring :=
  if startsWith s pattern then Some (skipn (List.length pattern) s) else None.

(** [s.replace(pattern, "")] for a pattern without the flag [g]: the leftmost
    match is taken out. *)
Fixpoint remove_first (pattern : jsstring -> option jsstring) (s : jsstring) : jsstring :=
  match pattern s with
  | Some after => after
  | None =>
      match s with
      | [] => []
      | c :: rest => c :: remove_first pattern rest
      end
  end.

(** [s.replace(/pattern/g, by)] for a literal pattern that is not empty;
    [skip] counts the code units of a match that are still to be passed. *)
Fixpoint replace_all (skip : nat) (pattern by_ : jsstring) (s : jsstring) : jsstring :=
  match s with
  | [] => []
  | c :: rest =>
      match skip with
      | S skip' => replace_all skip' pattern by_ rest
      | O =>
          if startsWith s pattern
          then by_ ++ replace_all (List.length pattern - 1) pattern by_ rest
          else c :: replace_all 0 pattern by_ rest
      end
  end.

(** The pattern of the last call: [fill=] and a double quote. *)
Definition fill_attribute : jsstring := str "fill=" ++ [0x22].

Definition epsHeader : jsstring :=
  str "%!PS-Adobe-3.0 EPSF-3.0" ++ [LF] ++ str "%%BoundingBox: 0 0 1000 1000" ++ [LF].

Definition svgToEPS (svgData : jsstring) : jsstring :=
  let epsBody :=
    replace_all 0 fill_attribute (str "setrgbcolor" ++ [LF] ++ str "fill ")
      (remove_first (literally (str "</svg>"))
         (remove_first svg_open_tag svgData)) in
  epsHeader ++ epsBody ++ [LF] ++ str "showpage".

(** Some position of the string starts with the pattern. *)
Definition occurs (pattern s : jsstring) : bool :=
  search (fun rest => startsWith rest pattern) s.

(** A code unit of a plain path: a lower-case letter, a digit, [/], [-] or
    [_]. *)
Definition slug_char (c : N) : bool :=
  is_lower c || is_digit c || (c =? SLASH) || (c =? 0x2D) || (c =? 0x5F).

(** The same with the colon and the dot of a scheme and a host. *)
Definition link_char (c : N) : bool := slug_char c || (c =? COLON) || (c =? DOT).

(** ** A host for plain ASCII

    The host that lower-cases the Basic Latin letters only and supports
    neither internationalised domain names nor IPv6 literals.  On strings of
    ASCII code units whose host is a plain domain name or an IPv4 address
    it computes what every conforming host computes. *)

Definition AsciiHost : Host := {|
  toLowerCase := map ascii_lower;
  domainToASCII := fun _ => None;
  ipv6 := fun _ => None
|}.

(** ** Vocabulary of the properties *)

(** The status and reason code of every [return] of the validator. *)
Definition verdict_kinds : list (jsstring * jsstring) :=
  [(str "block", str "EMPTY"); (str "ok", str "SAFE");
   (str "block", str "UNSAFE_PROTOCOL"); (str "warn", str "RISKY_PROTOCOL");
   (str "block", str "EXECUTABLE_HIDDEN"); (str "block", str "EXECUTABLE");
   (str "block", str "ARCHIVE"); (str "warn", str "ARCHIVE");
   (str "warn", str "MACRO_DOC"); (str "warn", str "PUNYCODE_DOMAIN");
   (str "warn", str "SHORTENER"); (str "warn", str "HTTP");
   (str "block", str "INVALID")].

Definition well_formed (v : Verdict) : Prop :=
  In (status v, reasonCode v) verdict_kinds /\ message v <> [].

(** Content that is missing, not a string, or blank after trimming. *)
Definition blank (content : value) : Prop :=
  match content with
  | JsString s => trim s = []
  | _ => True
  end.

(** The verdicts that carry no part of the input. *)
Definition verdict_EMPTY : Verdict :=
  {| status := str "block";
     reasonCode := str "EMPTY";
     message := str "Please enter content to generate a QR code." |}.

Definition verdict_SAFE_non_URL : Verdict :=
  {| status := str "ok";
     reasonCode := str "SAFE";
     message := str "Content type is non-URL and safe." |}.

Definition verdict_UNSAFE_PROTOCOL : Verdict :=
  {| status := str "block";
     reasonCode := str "UNSAFE_PROTOCOL";
     message := str "Blocked " ++ dash ++
       str " unsafe URL scheme (javascript:, data:, file:, etc.) detected." |}.

Definition verdict_EXECUTABLE_HIDDEN : Verdict :=
  {| status := str "block";
     reasonCode := str "EXECUTABLE_HIDDEN";
     message := str "Blocked " ++ dash ++
       str " hidden executable signature detected in encoded or obfuscated URL." |}.

Definition verdict_EXECUTABLE (extension : jsstring) : Verdict :=
  {| status := str "block";
     reasonCode := str "EXECUTABLE";
     message := str "Blocked " ++ dash ++
       str " executable or installable file type (." ++ extension ++
       str ") is not allowed for safety reasons." |}.

Definition verdict_ARCHIVE (isVerifiedUser : bool) (extension : jsstring) : Verdict :=
  if negb isVerifiedUser then
    {| status := str "block";
       reasonCode := str "ARCHIVE";
       message := str "Archive file (." ++ extension ++
         str ") links are restricted to verified users for safety." |}
  else
    {| status := str "warn";
       reasonCode := str "ARCHIVE";
       message := str "Archive link detected (." ++ extension ++
         str "). Proceed with caution and share only with trusted users." |}.

Definition verdict_SHORTENER (domain : jsstring) : Verdict :=
  {| status := str "warn";
     reasonCode := str "SHORTENER";
     message := str "Shortened URL detected (" ++ domain ++
       str "). Expand the link before generating a QR code." |}.

(** How status and reason code go together. *)
Definition pairing_invariant (v : Verdict) : Prop :=
  In (status v) [str "ok"; str "warn"; str "block"]
  /\ (status v = str "ok" <-> reasonCode v = str "SAFE")
  /\ (status v = str "warn" ->
      In (reasonCode v)
         [str "RISKY_PROTOCOL"; str "ARCHIVE"; str "MACRO_DOC"; str "PUNYCODE_DOMAIN";
          str "SHORTENER"; str "HTTP"])
  /\ (status v = str "block" ->
      In (reasonCode v)
         [str "EMPTY"; str "UNSAFE_PROTOCOL"; str "EXECUTABLE_HIDDEN"; str "EXECUTABLE";
          str "ARCHIVE"; str "INVALID"])
  /\ message v <> [].

(** The blocked extensions that the hidden-executable pattern does not name. *)
Definition installerExtensions : list jsstring :=
  [str "com"; str "app"; str "dmg"; str "pkg"; str "deb"; str "rpm"; str "img";
   str "bin"; str "crx"; str "xpi"].

(** While a path is read, the output so far ([buffer]) and the input still
    to come: either the input holds a match of the hidden-executable
    pattern, or the buffer ends in a dot and the beginning of an extension
    that the input completes. *)
Definition pending (buffer input : jsstring) : Prop :=
  hiddenExecutablePattern input = true
  \/ exists before g1 g2 post,
       buffer = before ++ DOT :: g1
       /\ input = g2 ++ post
       /\ In (map ascii_lower (g1 ++ g2)) hiddenExecutableExtensions
       /\ lookahead_boundary post = true.

(** A code unit of a serialised path: ASCII, and neither [?] nor [#]. *)
Definition path_char (c : N) : bool :=
  is_ascii c && negb ((c =? QUESTION) || (c =? HASH)).

Definition path_chars (s : list N) : Prop := forallb path_char s = true.

(** What one code point adds to the output: itself, or escapes [%XX]. *)
Definition escaped (piece : jsstring) : Prop :=
  exists body x y, piece = body ++ [PERCENT; x; y] /\ x <> DOT /\ y <> DOT.

(** The verdict of the risky protocols. *)
Definition verdict_RISKY_PROTOCOL : Verdict :=
  {| status := str "warn";
     reasonCode := str "RISKY_PROTOCOL";
     message := str "Warning " ++ dash ++
       str " non-secure protocol detected (ftp, telnet, etc.)." |}.

(** The verdict of a plain HTTP link. *)
Definition verdict_HTTP : Verdict :=
  {| status := str "warn";
     reasonCode := str "HTTP";
     message := str "Warning " ++ dash ++
       str " non-secure HTTP link detected. Use HTTPS whenever possible." |}.

(** The verdict of the default safe case. *)
Definition verdict_SAFE_link : Verdict :=
  {| status := str "ok";
     reasonCode := str "SAFE";
     message := str "Looks good " ++ dash ++
       str " this link appears safe for QR generation." |}.

(** The unsafe schemes without their colon. *)
Definition unsafeSchemeNames : list jsstring :=
  [str "javascript"; str "data"; str "file"; str "vbscript"; str "about"; str "filesystem"].

(** A conversion of case that the decoder does not see in an escape. *)
Definition case_map (g : N -> N) : Prop := forall c, g c = c \/ g c = ascii_lower c.

(** A Unicode scalar value. *)
Definition scalar_value (v : N) : Prop := v < 0x110000 /\ ~ (0xD800 <= v <= 0xDFFF).

(** The status and reason code of every [return] of the basic variant. *)
Definition basic_verdict_kinds : list (jsstring * jsstring) :=
  [(str "block", str "EMPTY"); (str "ok", str "SAFE");
   (str "block", str "UNSAFE_PROTOCOL"); (str "warn", str "RISKY_PROTOCOL");
   (str "block", str "EXECUTABLE"); (str "block", str "ARCHIVE");
   (str "warn", str "ARCHIVE"); (str "warn", str "MACRO_DOC");
   (str "warn", str "SHORTENER"); (str "warn", str "HTTP");
   (str "block", str "INVALID")].

(** The reason codes of the steps that both variants take before they look
    at an extension. *)
Definition early_reason_codes : list jsstring :=
  [str "EMPTY"; str "UNSAFE_PROTOCOL"; str "RISKY_PROTOCOL"].

(** ** Proof automation *)

(** Goals about string literals are decided by evaluation. *)
Ltac literal :=
  lazymatch goal with
  | |- _ /\ _ => split; literal
  | |- _ <-> _ => split; literal
  | |- _ -> _ =>
      let E := fresh "E" in
      intro E; first [ vm_compute in E; discriminate E | literal ]
  | |- _ <> _ => let E := fresh "E" in intro E; vm_compute in E; discriminate E
  | |- In _ _ => simpl; tauto
  | |- _ = _ => reflexivity
  end.

(** A [return] of the validator: the verdict, its kind and its message. *)
Ltac returns :=
  eexists; split; [reflexivity |]; split; cbn [status reasonCode message]; literal.

(** Replace a closed term by its value. *)
Ltac evaluate t :=
  let v := eval vm_compute in t in
  replace t with v by (vm_compute; reflexivity).

(** Quotient and remainder of a division by a constant, as variables that
    [lia] can use. *)
Ltac euclid n d :=
  let q := fresh "q" in
  let r := fresh "r" in
  pose proof (N.div_mod n d ltac:(lia));
  pose proof (N.mod_lt n d ltac:(lia));
  set (q := n / d) in *; set (r := n mod d) in *; clearbody q r.

(** Case analysis on every comparison of the goal. *)
Ltac by_cases :=
  repeat (match goal with
          | |- context [?a <=? ?b] => destruct (N.leb_spec a b)
          | |- context [?a <? ?b] => destruct (N.ltb_spec a b)
          | |- context [?a =? ?b] => destruct (N.eqb_spec a b)
          end;
          cbn [andb orb negb]).

(** Every comparison of the goal that the context decides is replaced by
    its value. *)
Ltac settle :=
  repeat match goal with
         | |- context [?a <=? ?b] =>
             first [ replace (a <=? b) with true by (symmetry; apply N.leb_le; lia)
                   | replace (a <=? b) with false by (symmetry; apply N.leb_gt; lia) ]
         | |- context [?a <? ?b] =>
             first [ replace (a <? b) with true by (symmetry; apply N.ltb_lt; lia)
                   | replace (a <? b) with false by (symmetry; apply N.ltb_ge; lia) ]
         | |- context [?a =? ?b] =>
             first [ replace (a =? b) with true by (symmetry; apply N.eqb_eq; lia)
                   | replace (a =? b) with false by (symmetry; apply N.eqb_neq; lia) ]
         end;
  cbn [andb orb negb].

(** The first step of the validator on a string that is not blank. *)
Ltac enter s Hs :=
  cbn [ToBoolean typeof_string call_trim bind negb];
  let E := fresh "E" in
  destruct (is_empty s) eqn:E;
    [exfalso; apply Hs; revert E; destruct s; [reflexivity | discriminate] | clear E];
  destruct (is_empty (trim s)) eqn:E;
    [exfalso; apply Hs; revert E; destruct (trim s); [reflexivity | discriminate]
    | clear E];
  cbn [negb bind].

(** The [case] labels of a [switch] are compared by evaluation. *)
Ltac switch :=
  repeat match goal with
         | |- context [jseq ?a ?b] => evaluate (jseq a b)
         | E : context [jseq ?a ?b] |- _ =>
             let v := eval vm_compute in (jseq a b) in
             replace (jseq a b) with v in E by (vm_compute; reflexivity)
         end.

(** * Properties *)

(** ** Characters and strings *)

Lemma ascii_lower_idem : forall c, ascii_lower (ascii_lower c) = ascii_lower c.
Proof.
  intros c. unfold ascii_lower, is_upper, in_range.
  destruct ((65 <=? c) && (c <=? 90)) eqn:E; [| rewrite E; reflexivity].
  apply andb_true_iff in E. destruct E as [E1 E2].
  apply N.leb_le in E1. apply N.leb_le in E2.
  replace (c + 32 <=? 90) with false by (symmetry; apply N.leb_gt; lia).
  now rewrite andb_false_r.
Qed.

Lemma letter_not_whitespace : forall c, 65 <= c <= 122 -> is_whitespace c = false.
Proof.
  intros c [E1 E2]. unfold is_whitespace, in_range.
  replace (c <=? 13) with false by (symmetry; apply N.leb_gt; lia).
  replace (8192 <=? c) with false by (symmetry; apply N.leb_gt; lia).
  repeat match goal with
         | |- context [N.eqb c ?k] =>
             replace (N.eqb c k) with false by (symmetry; apply N.eqb_neq; lia)
         end.
  now rewrite andb_false_r.
Qed.

Lemma is_whitespace_lower : forall c, is_whitespace (ascii_lower c) = is_whitespace c.
Proof.
  intros c. unfold ascii_lower. destruct (is_upper c) eqn:E; [| reflexivity].
  unfold is_upper, in_range in E. apply andb_true_iff in E. destruct E as [E1 E2].
  apply N.leb_le in E1. apply N.leb_le in E2.
  rewrite !letter_not_whitespace by lia. reflexivity.
Qed.

Lemma trimStart_map : forall f s,
  (forall c, is_whitespace (f c) = is_whitespace c) ->
  trimStart (map f s) = map f (trimStart s).
Proof.
  intros f s Hf. induction s as [| c s IH]; simpl; [reflexivity |].
  rewrite Hf. destruct (is_whitespace c); [exact IH | reflexivity].
Qed.

Lemma trim_map : forall f s,
  (forall c, is_whitespace (f c) = is_whitespace c) ->
  trim (map f s) = map f (trim s).
Proof.
  intros f s Hf. unfold trim, trimEnd.
  now rewrite trimStart_map, <- map_rev, trimStart_map, map_rev.
Qed.

Lemma jseq_refl : forall s, jseq s s = true.
Proof.
  induction s as [| c s IH]; simpl; [reflexivity |].
  now rewrite N.eqb_refl.
Qed.

Lemma jseq_eq : forall s t, jseq s t = true -> s = t.
Proof.
  induction s as [| c s IH]; intros [| d t] E; simpl in E; try discriminate; [reflexivity |].
  apply andb_true_iff in E. destruct E as [E1 E2].
  apply N.eqb_eq in E1. f_equal; auto.
Qed.

Lemma includes_In : forall arr x, includes arr x = true <-> In x arr.
Proof.
  intros arr x. unfold includes. rewrite existsb_exists. split.
  - intros [y [Hy E]]. apply jseq_eq in E. now subst.
  - intros Hx. exists x. split; [assumption | apply jseq_refl].
Qed.

Lemma is_empty_nil : forall s, is_empty s = true <-> s = [].
Proof. intros [| c s]; simpl; split; congruence. Qed.

(** The ASCII host satisfies the laws. *)
Lemma AsciiHost_laws : HostLaws AsciiHost.
Proof.
  constructor; simpl.
  - reflexivity.
  - intros s. rewrite map_map. apply map_ext. apply ascii_lower_idem.
  - intros s. apply trim_map. apply is_whitespace_lower.
  - intros [| c s]; reflexivity.
Qed.

(** ** Regular expressions *)

Lemma startsWith_match_literal_i : forall literal s,
  startsWith s literal = true -> match_literal_i literal s <> None.
Proof.
  induction literal as [| p literal IH]; intros s E; [discriminate |].
  destruct s as [| c s]; simpl in E; [discriminate |].
  apply andb_true_iff in E. destruct E as [E1 E2].
  apply N.eqb_eq in E1. subst c. simpl. rewrite N.eqb_refl. now apply IH.
Qed.

Lemma unsafeProtocolPattern_startsWith : forall s scheme,
  In scheme unsafeSchemes -> startsWith s scheme = true ->
  unsafeProtocolPattern s = true.
Proof.
  intros s scheme Hin E. unfold unsafeProtocolPattern, test_prefix_i.
  apply existsb_exists. exists scheme. split; [exact Hin |].
  apply startsWith_match_literal_i in E.
  destruct (match_literal_i scheme s); [reflexivity | contradiction].
Qed.

Lemma match_literal_i_lower : forall group rest,
  match_literal_i (map ascii_lower group) (group ++ rest) = Some rest.
Proof.
  induction group as [| c group IH]; intros rest; simpl; [reflexivity |].
  now rewrite ascii_lower_idem, N.eqb_refl.
Qed.

Lemma search_here : forall p s, p s = true -> search p s = true.
Proof. intros p [| c s] E; simpl; now rewrite E. Qed.

Lemma span_split : forall p s,
  s = fst (span p s) ++ snd (span p s)
  /\ match snd (span p s) with [] => True | c :: _ => p c = false end.
Proof.
  intros p s. induction s as [| c s [IH1 IH2]]; simpl; [split; trivial |].
  destruct (p c) eqn:E; simpl; [| split; trivial].
  destruct (span p s) as [a b]; simpl in *. split; [now f_equal | exact IH2].
Qed.

(** What follows the part before the query is nothing, [?] or [#]. *)
Lemma before_query_split : forall s,
  exists rest, s = before_query s ++ rest /\ lookahead_boundary rest = true.
Proof.
  intros s. unfold before_query.
  destruct (span_split (fun c => negb ((c =? 63) || (c =? 35))) s) as [E1 E2].
  exists (snd (span (fun c => negb ((c =? 63) || (c =? 35))) s)).
  split; [exact E1 |].
  destruct (snd _) as [| c rest]; [reflexivity |]. simpl.
  apply negb_false_iff, orb_true_iff in E2.
  destruct E2 as [E | E]; apply N.eqb_eq in E; subst c; reflexivity.
Qed.

Lemma alnum_is_ascii : forall s, forallb is_alnum s = true -> forallb is_ascii s = true.
Proof.
  intros s Hs. rewrite forallb_forall in *. intros c Hc. specialize (Hs c Hc).
  unfold is_alnum, is_alpha, is_upper, is_lower, is_digit, in_range in Hs.
  unfold is_ascii. apply N.ltb_lt.
  repeat (apply orb_true_iff in Hs; destruct Hs as [Hs | Hs]);
    apply andb_true_iff in Hs; destruct Hs as [_ Hs]; apply N.leb_le in Hs; lia.
Qed.

Lemma search_tail : forall p c s, search p s = true -> search p (c :: s) = true.
Proof. intros p c s E. simpl. rewrite E. apply orb_true_r. Qed.

Lemma search_suffix : forall p before s, search p s = true -> search p (before ++ s) = true.
Proof.
  intros p before s E. induction before as [| c before IH]; [exact E |].
  now apply search_tail.
Qed.

Lemma match_literal_i_app : forall literal s after t,
  match_literal_i literal s = Some after ->
  match_literal_i literal (s ++ t) = Some (after ++ t).
Proof.
  induction literal as [| p literal IH]; intros s after t E; simpl in *.
  - now injection E as <-.
  - destruct s as [| c s]; [discriminate |]. simpl.
    destruct (ascii_lower c =? ascii_lower p); [now apply IH | discriminate].
Qed.

Lemma lookahead_boundary_app : forall after t,
  lookahead_boundary after = true -> lookahead_boundary t = true ->
  lookahead_boundary (after ++ t) = true.
Proof. intros [| c after] t E1 E2; [exact E2 | exact E1]. Qed.

Lemma search_cons : forall p c s, search p (c :: s) = p (c :: s) || search p s.
Proof. reflexivity. Qed.

Lemma hidden_executable_here_cons : forall c rest,
  hidden_executable_here (c :: rest)
  = (c =? 46) && existsb (hidden_alternative rest) hiddenExecutableExtensions.
Proof. reflexivity. Qed.

(** The pattern still matches when something that does not start with a
    letter is appended. *)
Lemma hidden_app_boundary : forall s t,
  lookahead_boundary t = true ->
  hiddenExecutablePattern s = true -> hiddenExecutablePattern (s ++ t) = true.
Proof.
  intros s t Ht. unfold hiddenExecutablePattern.
  induction s as [| c s IH]; intros E.
  - discriminate.
  - rewrite search_cons in E. apply orb_true_iff in E.
    change ((c :: s) ++ t) with (c :: s ++ t). destruct E as [E | E].
    + apply search_here. rewrite hidden_executable_here_cons in *.
      apply andb_true_iff in E. destruct E as [E1 E2].
      rewrite E1. cbn [andb].
      apply existsb_exists in E2. destruct E2 as [ext [Hin E2]].
      apply existsb_exists. exists ext. split; [exact Hin |].
      unfold hidden_alternative in *.
      destruct (match_literal_i ext s) as [after |] eqn:Em; [| discriminate].
      rewrite (match_literal_i_app _ _ _ t Em).
      now apply lookahead_boundary_app.
    + apply search_tail. destruct s as [| d s]; [discriminate |]. now apply IH.
Qed.

(** A dot, an extension the pattern names, and a boundary: a match. *)
Lemma hidden_executable_here_intro : forall group post,
  In (map ascii_lower group) hiddenExecutableExtensions ->
  lookahead_boundary post = true ->
  hidden_executable_here (46 :: group ++ post) = true.
Proof.
  intros group post Hin Hpost. rewrite hidden_executable_here_cons.
  rewrite N.eqb_refl. cbn [andb].
  apply existsb_exists. exists (map ascii_lower group).
  split; [exact Hin |]. unfold hidden_alternative.
  now rewrite match_literal_i_lower.
Qed.

Lemma is_alnum_lower : forall c, is_alnum (ascii_lower c) = is_alnum c.
Proof.
  intros c. unfold ascii_lower. destruct (is_upper c) eqn:E; [| reflexivity].
  unfold is_alnum, is_alpha. rewrite E. cbn [orb].
  unfold is_upper, in_range in E. apply andb_true_iff in E. destruct E as [E1 E2].
  apply N.leb_le in E1. apply N.leb_le in E2.
  unfold is_lower, in_range.
  replace (97 <=? c + 32) with true by (symmetry; apply N.leb_le; lia).
  replace (c + 32 <=? 122) with true by (symmetry; apply N.leb_le; lia).
  cbn [andb]. now rewrite orb_true_r.
Qed.

Lemma hidden_extension_alnum : forall group,
  In (map ascii_lower group) hiddenExecutableExtensions -> forallb is_alnum group = true.
Proof.
  intros group Hin.
  assert (E : forallb is_alnum (map ascii_lower group) = true).
  { unfold hiddenExecutableExtensions in Hin. simpl in Hin.
    repeat (destruct Hin as [Hin | Hin]; [rewrite <- Hin; reflexivity |]).
    contradiction. }
  rewrite forallb_forall in *. intros c Hc.
  rewrite <- is_alnum_lower. apply E. now apply in_map.
Qed.

Lemma pending_suffix : forall buffer input,
  hiddenExecutablePattern input = true -> forall c, pending buffer (c :: input).
Proof. intros buffer input E c. left. now apply search_tail. Qed.

Lemma pending_nil : forall input, pending [] input -> hiddenExecutablePattern input = true.
Proof.
  intros input [E | [before [g1 [g2 [post [E _]]]]]]; [exact E |].
  destruct before; discriminate.
Qed.

(** One code point of input, kept as it is in the output. *)
Lemma pending_direct : forall buffer c rest,
  pending (buffer ++ [c]) rest -> pending buffer (c :: rest).
Proof.
  intros buffer c rest [E | [before [g1 [g2 [post [Eb [Ei [Hin Hpost]]]]]]]].
  - now apply pending_suffix.
  - destruct g1 as [| a g1 _] using rev_ind.
    + apply app_inj_tail in Eb. destruct Eb as [_ ->].
      left. unfold hiddenExecutablePattern. apply search_here.
      rewrite Ei. now apply hidden_executable_here_intro.
    + right. change (before ++ 46 :: g1 ++ [a]) with (before ++ (46 :: g1) ++ [a]) in Eb.
      rewrite app_assoc in Eb. apply app_inj_tail in Eb. destruct Eb as [-> ->].
      exists before, g1, (a :: g2), post. repeat split; try assumption.
      * rewrite Ei. reflexivity.
      * now rewrite <- app_assoc in Hin.
Qed.

(** One code point of input, written as escapes: no extension runs across
    the escape. *)
Lemma pending_escaped : forall buffer piece c rest,
  escaped piece -> pending (buffer ++ piece) rest -> pending buffer (c :: rest).
Proof.
  intros buffer piece c rest [body [x [y [-> [Hx Hy]]]]]
         [E | [before [g1 [g2 [post [Eb [Ei [Hin Hpost]]]]]]]].
  - now apply pending_suffix.
  - exfalso.
    assert (Hg : forallb is_alnum g1 = true).
    { apply hidden_extension_alnum in Hin. rewrite forallb_app in Hin.
      now apply andb_true_iff in Hin. }
    change [37; x; y] with ([37] ++ [x] ++ [y]) in Eb. rewrite !app_assoc in Eb.
    destruct g1 as [| b g1 _] using rev_ind.
    { apply app_inj_tail in Eb. destruct Eb as [_ Eb]. now apply Hy. }
    change (before ++ 46 :: g1 ++ [b]) with (before ++ (46 :: g1) ++ [b]) in Eb.
    rewrite (app_assoc before) in Eb. apply app_inj_tail in Eb. destruct Eb as [Eb _].
    destruct g1 as [| a g1 _] using rev_ind.
    { apply app_inj_tail in Eb. destruct Eb as [_ Eb]. now apply Hx. }
    change (before ++ 46 :: g1 ++ [a]) with (before ++ (46 :: g1) ++ [a]) in Eb.
    rewrite (app_assoc before) in Eb. apply app_inj_tail in Eb. destruct Eb as [Eb _].
    rewrite !forallb_app in Hg. cbn [forallb] in Hg.
    destruct g1 as [| a' g1 _] using rev_ind.
    { apply app_inj_tail in Eb. destruct Eb as [_ Eb]. discriminate. }
    change (before ++ 46 :: g1 ++ [a']) with (before ++ (46 :: g1) ++ [a']) in Eb.
    rewrite (app_assoc before) in Eb. apply app_inj_tail in Eb. destruct Eb as [_ <-].
    rewrite !forallb_app in Hg. cbn [forallb] in Hg.
    repeat (apply andb_true_iff in Hg; destruct Hg as [Hg ?]). discriminate.
Qed.

Lemma hex_digit_not_dot : forall n, hex_digit n <> 46.
Proof. intros n. unfold hex_digit. destruct (n <? 10); lia. Qed.

Lemma utf8_percent_encode_piece : forall set c,
  utf8_percent_encode set c = [c] \/ escaped (utf8_percent_encode set c).
Proof.
  intros set c. unfold utf8_percent_encode.
  destruct (set c); [right | now left].
  unfold utf8_encode, escaped.
  destruct (c <? 128); [| destruct (c <? 2048); [| destruct (c <? 65536)]];
    cbn [flat_map percent_encode_byte app].
  - exists []. do 2 eexists. split; [reflexivity |]. split; apply hex_digit_not_dot.
  - eexists [_; _; _]. do 2 eexists. split; [reflexivity |]. split; apply hex_digit_not_dot.
  - eexists [_; _; _; _; _; _]. do 2 eexists.
    split; [reflexivity |]. split; apply hex_digit_not_dot.
  - eexists [_; _; _; _; _; _; _; _; _]. do 2 eexists.
    split; [reflexivity |]. split; apply hex_digit_not_dot.
Qed.

Lemma pending_utf8_percent_encode : forall set buffer c rest,
  pending (buffer ++ utf8_percent_encode set c) rest -> pending buffer (c :: rest).
Proof.
  intros set buffer c rest Hp.
  destruct (utf8_percent_encode_piece set c) as [E | E].
  - rewrite E in Hp. now apply pending_direct.
  - now apply (pending_escaped buffer _ c rest E).
Qed.

(** The text that the extension pattern matched ends the string. *)
Lemma match_extension_end : forall s group,
  match_extension s = Some group ->
  exists before, s = before ++ 46 :: group
                 /\ group <> [] /\ forallb is_alnum group = true.
Proof.
  induction s as [| c s IH]; intros group E; simpl in E; [discriminate |].
  destruct ((c =? 46) && negb (is_empty s) && forallb is_alnum s) eqn:Ec.
  - injection E as <-.
    apply andb_true_iff in Ec. destruct Ec as [Ec E3].
    apply andb_true_iff in Ec. destruct Ec as [E1 E2].
    apply N.eqb_eq in E1. subst c. exists []. repeat split; [| exact E3].
    intros ->. discriminate.
  - destruct (IH group E) as [before [-> Hg]]. now exists (c :: before).
Qed.

(** A string that ends in something that is not alphanumeric has no
    extension. *)
Lemma match_extension_not_alnum_end : forall s c,
  is_alnum c = false -> match_extension (s ++ [c]) = None.
Proof.
  intros s c Hc. destruct (match_extension (s ++ [c])) as [group |] eqn:E; [| reflexivity].
  exfalso. destruct (match_extension_end _ _ E) as [before [Eb [Hne Hg]]].
  destruct group as [| a group _] using rev_ind; [now apply Hne |].
  change (before ++ 46 :: group ++ [a]) with (before ++ (46 :: group) ++ [a]) in Eb.
  rewrite app_assoc in Eb. apply app_inj_tail in Eb. destruct Eb as [_ <-].
  rewrite forallb_app in Hg. cbn [forallb] in Hg.
  apply andb_true_iff in Hg. destruct Hg as [_ Hg]. rewrite Hc in Hg. discriminate.
Qed.

(** An extension at the end of [x ++ sep :: s] lies within [s] when the
    separator is neither a dot nor alphanumeric. *)
Lemma extension_after_separator : forall x sep s before group,
  x ++ sep :: s = before ++ 46 :: group ->
  sep <> 46 -> is_alnum sep = false -> forallb is_alnum group = true ->
  exists before', s = before' ++ 46 :: group.
Proof.
  intros x sep s before group E Hsep Hal Hg.
  apply app_eq_app in E. destruct E as [l [[E1 E2] | [E1 E2]]].
  - exfalso. destruct l as [| a l]; simpl in E2.
    + injection E2 as E2 _. now apply Hsep.
    + injection E2 as _ E2. rewrite E2, forallb_app in Hg. cbn [forallb] in Hg.
      rewrite Hal in Hg. cbn [andb] in Hg. now rewrite andb_false_r in Hg.
  - destruct l as [| a l]; simpl in E2.
    + exfalso. injection E2 as E2 _. now apply Hsep.
    + injection E2 as _ E2. now exists l.
Qed.

(** ** The parser and the hidden-executable pattern *)

Section ParserFacts.
Context {H : Host}.

Lemma serialize_path_snoc : forall path segment,
  serialize_path (path ++ [segment]) = serialize_path path ++ 47 :: segment.
Proof.
  intros path segment. unfold serialize_path.
  rewrite flat_map_app. cbn [flat_map]. now rewrite app_nil_r.
Qed.

Lemma windows_drive_letter_no_extension : forall a b before group,
  is_alpha a = true -> [a; b] = before ++ 46 :: group -> b = 46 /\ before = [a] /\ group = [].
Proof.
  intros a b before group Ha E.
  destruct before as [| x [| y [| z before]]]; simpl in E.
  - injection E as -> _. vm_compute in Ha. discriminate.
  - injection E as <- -> <-. auto.
  - injection E as _ _ E. discriminate.
  - injection E as _ _ E. destruct before; discriminate.
Qed.

(** When the path ends and has an extension, the buffer of the path state
    ends in that extension. *)
Lemma push_segment_final : forall is_file path buffer group,
  match_extension (serialize_path (push_segment is_file path buffer false)) = Some group ->
  exists before, buffer = before ++ 46 :: group.
Proof.
  intros f path buffer group E. unfold push_segment in E.
  destruct (is_double_dot buffer).
  { rewrite serialize_path_snoc, match_extension_not_alnum_end in E by reflexivity.
    discriminate. }
  destruct (is_single_dot buffer).
  { rewrite serialize_path_snoc, match_extension_not_alnum_end in E by reflexivity.
    discriminate. }
  rewrite serialize_path_snoc in E.
  destruct (match_extension_end _ _ E) as [before [Eb [Hne Hg]]].
  apply extension_after_separator in Eb; [| discriminate | reflexivity | exact Hg].
  destruct Eb as [before' Eb].
  destruct (f && match path with [] => true | _ :: _ => false end
            && is_windows_drive_letter buffer) eqn:Ew; [| now exists before'].
  exfalso. apply andb_true_iff in Ew. destruct Ew as [_ Ew].
  unfold is_windows_drive_letter in Ew.
  destruct buffer as [| a [| b [| c buffer]]]; try discriminate.
  apply andb_true_iff in Ew. destruct Ew as [Ha _].
  apply (windows_drive_letter_no_extension a 58 _ _ Ha) in Eb.
  destruct Eb as [Eb _]. discriminate.
Qed.

Lemma lookahead_boundary_query : forall c rest,
  (c =? 63) || (c =? 35) = true -> lookahead_boundary (c :: rest) = true.
Proof.
  intros c rest E. apply orb_true_iff in E.
  destruct E as [E | E]; apply N.eqb_eq in E; subst c; reflexivity.
Qed.

Lemma pending_final : forall buffer group post,
  (exists before, buffer = before ++ 46 :: group) ->
  In (map ascii_lower group) hiddenExecutableExtensions ->
  lookahead_boundary post = true ->
  pending buffer post.
Proof.
  intros buffer group post [before ->] Hin Hpost. right.
  exists before, group, [], post. rewrite app_nil_r. auto.
Qed.

(** The path state: an extension of the serialised path that the pattern
    names is spelled out in the input, between the buffer and what follows. *)
Lemma path_state_pending : forall input special is_file path buffer group,
  match_extension (serialize_path (path_state special is_file path buffer input))
  = Some group ->
  In (map ascii_lower group) hiddenExecutableExtensions ->
  pending buffer input.
Proof.
  induction input as [| c rest IH]; intros special f path buffer group E Hin.
  - simpl in E. apply push_segment_final in E.
    now apply (pending_final buffer group []).
  - cbn [path_state] in E.
    destruct ((c =? 47) || special && (c =? 92)).
    + apply IH in E; [| exact Hin]. apply pending_nil in E. now apply pending_suffix.
    + destruct ((c =? 63) || (c =? 35)) eqn:Eq.
      * apply push_segment_final in E.
        apply (pending_final buffer group (c :: rest) E Hin).
        now apply lookahead_boundary_query.
      * apply IH in E; [| exact Hin].
        now apply (pending_utf8_percent_encode path_set).
Qed.

Lemma opaque_path_state_pending : forall input buffer group,
  match_extension (buffer ++ opaque_path_state input) = Some group ->
  In (map ascii_lower group) hiddenExecutableExtensions ->
  pending buffer input.
Proof.
  induction input as [| c rest IH]; intros buffer group E Hin.
  - simpl in E. rewrite app_nil_r in E.
    destruct (match_extension_end _ _ E) as [before [Eb _]].
    apply (pending_final buffer group []); eauto.
  - cbn [opaque_path_state] in E.
    destruct ((c =? 63) || (c =? 35)) eqn:Eq.
    + rewrite app_nil_r in E.
      destruct (match_extension_end _ _ E) as [before [Eb _]].
      apply (pending_final buffer group (c :: rest)); eauto.
      now apply lookahead_boundary_query.
    + destruct (c =? 32) eqn:Es.
      * apply N.eqb_eq in Es. subst c.
        destruct rest as [| d rest'].
        { exfalso. rewrite match_extension_not_alnum_end in E by reflexivity.
          discriminate. }
        rewrite app_assoc in E. apply IH in E; [| exact Hin].
        destruct ((d =? 63) || (d =? 35)).
        -- apply (pending_escaped buffer (str "%20") 32); [| exact E].
           exists [], 50, 48. repeat split; discriminate.
        -- now apply pending_direct.
      * rewrite app_assoc in E. apply IH in E; [| exact Hin].
        now apply (pending_utf8_percent_encode c0_control_set).
Qed.

Lemma path_start_state_hidden : forall special is_file input group,
  match_extension (serialize_path (path_start_state special is_file input)) = Some group ->
  In (map ascii_lower group) hiddenExecutableExtensions ->
  hiddenExecutablePattern input = true.
Proof.
  intros special f input group E Hin. unfold path_start_state in E.
  destruct special.
  - destruct input as [| c rest].
    + apply path_state_pending in E; [| exact Hin]. now apply pending_nil.
    + destruct ((c =? 47) || (c =? 92));
        apply path_state_pending in E; try exact Hin; apply pending_nil in E;
        [now apply search_tail | exact E].
  - destruct input as [| c rest]; [discriminate |].
    destruct ((c =? 63) || (c =? 35)); [discriminate |].
    destruct (c =? 47);
      apply path_state_pending in E; try exact Hin; apply pending_nil in E;
      [now apply search_tail | exact E].
Qed.

Lemma span_app : forall p s a b, span p s = (a, b) -> s = a ++ b.
Proof.
  intros p s a b E. destruct (span_split p s) as [Es _].
  rewrite E in Es. exact Es.
Qed.

Lemma dropWhile_suffix : forall p s, exists before, s = before ++ dropWhile p s.
Proof.
  intros p s. induction s as [| c s [before IH]]; [now exists [] |]. simpl.
  destruct (p c); [| now exists []].
  exists (c :: before). simpl. now f_equal.
Qed.

Lemma authority_state_rest : forall special input host rest,
  authority_state special input = Some (host, rest) ->
  exists before, input = before ++ rest.
Proof.
  intros special input host rest E. unfold authority_state in E.
  destruct (span _ input) as [authority rest0] eqn:Es.
  apply span_app in Es. exists authority.
  destruct (match after_last_at authority with
            | Some hp => if is_empty hp then None else Some hp
            | None => Some authority
            end) as [hp |]; [| discriminate].
  destruct (split_host_port false hp) as [buffer [port |]].
  - destruct (is_empty buffer); [discriminate |].
    destruct (host_parse _ buffer); [| discriminate].
    destruct (port_ok port); [| discriminate].
    injection E as _ <-. exact Es.
  - destruct (special && is_empty buffer); [discriminate |].
    destruct (host_parse _ buffer); [| discriminate].
    injection E as _ <-. exact Es.
Qed.

Lemma pending_drive_letter : forall buffer input,
  is_windows_drive_letter buffer = true -> pending buffer input ->
  hiddenExecutablePattern input = true.
Proof.
  intros buffer input Ew [E | [before [g1 [g2 [post [Eb [Ei [Hin Hpost]]]]]]]]; [exact E |].
  exfalso. unfold is_windows_drive_letter in Ew.
  destruct buffer as [| a [| b [| c buffer]]]; try discriminate.
  apply andb_true_iff in Ew. destruct Ew as [Ha Hb].
  apply (windows_drive_letter_no_extension a b _ _ Ha) in Eb.
  destruct Eb as [-> _]. discriminate.
Qed.

Lemma file_host_state_hidden : forall input url group,
  file_host_state input = Some url ->
  match_extension (pathname url) = Some group ->
  In (map ascii_lower group) hiddenExecutableExtensions ->
  hiddenExecutablePattern input = true.
Proof.
  intros input url group E Em Hin. unfold file_host_state in E.
  destruct (span _ input) as [buffer rest] eqn:Es. apply span_app in Es. subst input.
  apply search_suffix.
  destruct (is_windows_drive_letter buffer) eqn:Ew.
  { injection E as <-.
    apply (pending_drive_letter buffer); [exact Ew |].
    exact (path_state_pending rest true true [] buffer group Em Hin). }
  destruct (is_empty buffer).
  { injection E as <-. exact (path_start_state_hidden true true rest group Em Hin). }
  destruct (host_parse false buffer); [| discriminate].
  injection E as <-. exact (path_start_state_hidden true true rest group Em Hin).
Qed.

Lemma file_state_hidden : forall input url group,
  file_state input = Some url ->
  match_extension (pathname url) = Some group ->
  In (map ascii_lower group) hiddenExecutableExtensions ->
  hiddenExecutablePattern input = true.
Proof.
  intros input url group E Em Hin. unfold file_state in E.
  assert (Hpath : forall rest,
             Some {| hostname := [];
                     pathname := serialize_path (path_state true true [] [] rest) |}
             = Some url -> hiddenExecutablePattern rest = true).
  { intros rest Er. injection Er as <-. apply pending_nil.
    exact (path_state_pending rest true true [] [] group Em Hin). }
  destruct input as [| c r1]; [now apply Hpath |].
  destruct (is_slash c); [| now apply Hpath].
  apply search_tail.
  destruct r1 as [| d r2]; [now apply Hpath |].
  destruct (is_slash d); [| now apply Hpath].
  apply search_tail. now apply (file_host_state_hidden r2 url group).
Qed.

(** An extension of the parsed path that the pattern names is matched by the
    pattern in the parser's input. *)
Lemma startsWith_skipn : forall s prefix,
  startsWith s prefix = true -> s = prefix ++ skipn (List.length prefix) s.
Proof.
  intros s prefix. revert s.
  induction prefix as [| p prefix IH]; intros s E; [reflexivity |].
  destruct s as [| c s]; simpl in E; [discriminate |].
  apply andb_true_iff in E. destruct E as [E1 E2].
  apply N.eqb_eq in E1. subst c. simpl. f_equal. now apply IH.
Qed.

Lemma search_skipn : forall p n s, search p (skipn n s) = true -> search p s = true.
Proof.
  intros p n s E. rewrite <- (firstn_skipn n s). now apply search_suffix.
Qed.

Lemma search_tl : forall p s, search p (tl s) = true -> search p s = true.
Proof. intros p [| c s] E; [exact E | now apply search_tail]. Qed.

(** An extension of the parsed path that the pattern names is matched by the
    pattern in the parser's input. *)
Lemma basic_URL_parser_hidden : forall input url group,
  basic_URL_parser input = Some url ->
  match_extension (pathname url) = Some group ->
  In (map ascii_lower group) hiddenExecutableExtensions ->
  hiddenExecutablePattern (url_preprocess (code_points input)) = true.
Proof.
  intros input url group E Em Hin. unfold basic_URL_parser in E.
  destruct (match url_preprocess (code_points input) with
            | c :: _ => is_alpha c
            | [] => false
            end); [| discriminate].
  destruct (span is_scheme_char _) as [buffer rest] eqn:Es.
  apply span_app in Es. rewrite Es. apply search_suffix.
  destruct (startsWith rest (str ":")); [| discriminate].
  apply search_tl. remember (tl rest) as remaining eqn:Er. clear Er.
  fold (hiddenExecutablePattern remaining).
  destruct (jseq (map ascii_lower buffer) (str "file")).
  { now apply (file_state_hidden remaining url group). }
  destruct (is_special (map ascii_lower buffer)).
  { destruct (authority_state true (dropWhile is_slash remaining))
      as [[host rest'] |] eqn:Ea; [| discriminate].
    injection E as <-.
    pose proof (path_start_state_hidden true false rest' group Em Hin) as Hrest.
    apply authority_state_rest in Ea. destruct Ea as [before Ea].
    destruct (dropWhile_suffix is_slash remaining) as [before' Ed].
    rewrite Ed, Ea. now do 2 apply search_suffix. }
  destruct (startsWith remaining (str "//")).
  { destruct (authority_state false (skipn 2 remaining))
      as [[host rest'] |] eqn:Ea; [| discriminate].
    injection E as <-.
    pose proof (path_start_state_hidden false false rest' group Em Hin) as Hrest.
    apply authority_state_rest in Ea. destruct Ea as [before Ea].
    apply (search_skipn _ 2). rewrite Ea. now apply search_suffix. }
  destruct (startsWith remaining (str "/")).
  { injection E as <-. apply search_tl. apply pending_nil.
    exact (path_state_pending (tl remaining) false false [] [] group Em Hin). }
  injection E as <-. apply pending_nil.
  exact (opaque_path_state_pending remaining [] group Em Hin).
Qed.

End ParserFacts.


(** ** Preprocessing of the parser's input *)

Lemma is_alpha_ascii : forall c, is_alpha c = true -> is_ascii c = true.
Proof.
  intros c Hc. unfold is_alpha, is_upper, is_lower, in_range in Hc.
  unfold is_ascii. apply N.ltb_lt.
  apply orb_true_iff in Hc. destruct Hc as [Hc | Hc];
    apply andb_true_iff in Hc; destruct Hc as [_ Hc]; apply N.leb_le in Hc; lia.
Qed.

Lemma is_ascii_lower : forall c, is_ascii (ascii_lower c) = is_ascii c.
Proof.
  intros c. unfold ascii_lower. destruct (is_upper c) eqn:E; [| reflexivity].
  unfold is_upper, in_range in E. apply andb_true_iff in E. destruct E as [E1 E2].
  apply N.leb_le in E1. apply N.leb_le in E2.
  unfold is_ascii.
  replace (c + 32 <? 128) with true by (symmetry; apply N.ltb_lt; lia).
  symmetry. apply N.ltb_lt. lia.
Qed.

(** How [code_points] reads one unit: it keeps it, or it puts a code point
    that is not ASCII for one or two units that are not ASCII. *)
Lemma code_points_cons : forall c rest,
  exists x tail,
    code_points (c :: rest) = x :: code_points tail
    /\ ((x = c /\ tail = rest)
        \/ (is_ascii x = false /\ is_ascii c = false
            /\ (tail = rest \/ exists d, rest = d :: tail))).
Proof.
  intros c rest. cbn [code_points].
  destruct (in_range 55296 56319 c) eqn:E1.
  - assert (Hc : is_ascii c = false).
    { unfold in_range in E1. apply andb_true_iff in E1. destruct E1 as [E1 _].
      apply N.leb_le in E1. unfold is_ascii. apply N.ltb_ge. lia. }
    destruct rest as [| d rest'].
    + exists 65533, []. split; [reflexivity |]. right. auto.
    + destruct (in_range 56320 57343 d).
      * eexists _, rest'. split; [reflexivity |]. right.
        repeat split; [| exact Hc | right; now exists d].
        unfold is_ascii. apply N.ltb_ge. lia.
      * exists 65533, (d :: rest'). split; [reflexivity |]. right. auto.
  - destruct (in_range 56320 57343 c) eqn:E2.
    + exists 65533, rest. split; [reflexivity |]. right.
      repeat split; [| now left].
      unfold in_range in E2. apply andb_true_iff in E2. destruct E2 as [E2 _].
      apply N.leb_le in E2. unfold is_ascii. apply N.ltb_ge. lia.
    + exists c, rest. split; [reflexivity |]. now left.
Qed.

Lemma lookahead_boundary_code_points : forall s,
  lookahead_boundary (code_points s) = true -> lookahead_boundary s = true.
Proof.
  intros [| c rest] E; [reflexivity |].
  destruct (code_points_cons c rest) as [x [tail [Ec [[-> _] | [_ [Hc _]]]]]];
    rewrite Ec in E; [exact E |].
  cbn [lookahead_boundary]. destruct (is_alpha c) eqn:Ha; [| reflexivity].
  apply is_alpha_ascii in Ha. congruence.
Qed.

Lemma hidden_alternative_code_points : forall ext s,
  forallb is_ascii ext = true ->
  hidden_alternative (code_points s) ext = true -> hidden_alternative s ext = true.
Proof.
  unfold hidden_alternative.
  induction ext as [| p ext IH]; intros s Hext E.
  - cbn [match_literal_i] in *. now apply lookahead_boundary_code_points.
  - cbn [forallb] in Hext. apply andb_true_iff in Hext. destruct Hext as [Hp Hext].
    destruct s as [| c rest]; [discriminate |].
    destruct (code_points_cons c rest) as [x [tail [Ec Hx]]]. rewrite Ec in E.
    cbn [match_literal_i] in *.
    destruct (ascii_lower x =? ascii_lower p) eqn:Ex; [| discriminate].
    apply N.eqb_eq in Ex.
    destruct Hx as [[-> ->] | [Hx _]].
    + rewrite Ex, N.eqb_refl. now apply IH.
    + exfalso. rewrite <- is_ascii_lower, Ex, is_ascii_lower in Hx. congruence.
Qed.

Lemma hidden_extension_ascii : forall ext,
  In ext hiddenExecutableExtensions -> forallb is_ascii ext = true.
Proof.
  intros ext Hin. unfold hiddenExecutableExtensions in Hin. simpl in Hin.
  repeat (destruct Hin as [Hin | Hin]; [rewrite <- Hin; reflexivity |]).
  contradiction.
Qed.

Lemma hidden_executable_here_code_points : forall s,
  hidden_executable_here (code_points s) = true -> hidden_executable_here s = true.
Proof.
  intros [| c rest] E; [discriminate |].
  destruct (code_points_cons c rest) as [x [tail [Ec Hx]]]. rewrite Ec in E.
  rewrite hidden_executable_here_cons in *.
  apply andb_true_iff in E. destruct E as [E1 E2].
  apply N.eqb_eq in E1. subst x.
  destruct Hx as [[<- ->] | [Hx _]]; [| discriminate].
  rewrite N.eqb_refl. cbn [andb].
  apply existsb_exists in E2. destruct E2 as [ext [Hin E2]].
  apply existsb_exists. exists ext. split; [exact Hin |].
  apply hidden_alternative_code_points; [| exact E2].
  now apply hidden_extension_ascii.
Qed.

(** Reading code points instead of code units creates no match. *)
Lemma code_points_hidden : forall s,
  hiddenExecutablePattern (code_points s) = true -> hiddenExecutablePattern s = true.
Proof.
  unfold hiddenExecutablePattern.
  assert (Hn : forall n s, (List.length s <= n)%nat ->
             search hidden_executable_here (code_points s) = true ->
             search hidden_executable_here s = true).
  { induction n as [| n IH]; intros s Hlen E.
    - destruct s; [discriminate | simpl in Hlen; lia].
    - destruct s as [| c rest]; [discriminate |].
      destruct (code_points_cons c rest) as [x [tail [Ec Hx]]].
      rewrite Ec, search_cons in E. rewrite <- Ec in E.
      apply orb_true_iff in E. destruct E as [E | E].
      + apply search_here. now apply hidden_executable_here_code_points.
      + apply search_tail. simpl in Hlen.
        assert (Ht : tail = rest \/ exists d, rest = d :: tail) by tauto.
        destruct Ht as [-> | [d ->]].
        * apply IH; [lia | exact E].
        * apply search_tail. apply IH; [simpl in Hlen; lia | exact E]. }
  intros s. now apply (Hn (List.length s)).
Qed.

Lemma code_points_no_tab : forall s,
  existsb is_tab_or_newline s = false ->
  existsb is_tab_or_newline (code_points s) = false.
Proof.
  assert (Hn : forall n s, (List.length s <= n)%nat ->
             existsb is_tab_or_newline s = false ->
             existsb is_tab_or_newline (code_points s) = false).
  { induction n as [| n IH]; intros s Hlen E.
    - destruct s; [reflexivity | simpl in Hlen; lia].
    - destruct s as [| c rest]; [reflexivity |].
      destruct (code_points_cons c rest) as [x [tail [Ec Hx]]]. rewrite Ec.
      cbn [existsb] in *. apply orb_false_iff in E. destruct E as [E1 E2].
      simpl in Hlen. apply orb_false_iff.
      destruct Hx as [[-> ->] | [Hx [_ Ht]]].
      + split; [exact E1 | apply IH; [lia | exact E2]].
      + split.
        * unfold is_tab_or_newline. unfold is_ascii in Hx. apply N.ltb_ge in Hx.
          repeat match goal with
                 | |- context [N.eqb x ?k] =>
                     replace (N.eqb x k) with false by (symmetry; apply N.eqb_neq; lia)
                 end.
          reflexivity.
        * destruct Ht as [-> | [d ->]]; [apply IH; [lia | exact E2] |].
          cbn [existsb] in E2. apply orb_false_iff in E2.
          apply IH; [simpl in Hlen; lia | tauto]. }
  intros s. now apply (Hn (List.length s)).
Qed.

Lemma filter_all : forall (f : N -> bool) s, forallb f s = true -> filter f s = s.
Proof.
  intros f s E. induction s as [| c s IH]; [reflexivity |].
  cbn [forallb] in E. apply andb_true_iff in E. destruct E as [E1 E2].
  cbn [filter]. rewrite E1. f_equal. now apply IH.
Qed.

Lemma dropWhile_split : forall p s,
  exists taken, s = taken ++ dropWhile p s /\ forallb p taken = true.
Proof.
  intros p s. induction s as [| c s [taken [IH1 IH2]]]; [now exists [] |]. simpl.
  destruct (p c) eqn:E; [| now exists []].
  exists (c :: taken). simpl. rewrite E. split; [now f_equal | exact IH2].
Qed.

Lemma forallb_rev : forall (f : N -> bool) s, forallb f s = true -> forallb f (rev s) = true.
Proof.
  intros f s E. rewrite forallb_forall in *. intros c Hc. apply E. now apply in_rev.
Qed.

Lemma lookahead_boundary_c0 : forall t,
  forallb is_c0_or_space t = true -> lookahead_boundary t = true.
Proof.
  intros [| c t] E; [reflexivity |]. cbn [forallb] in E.
  apply andb_true_iff in E. destruct E as [E _].
  cbn [lookahead_boundary]. destruct (is_alpha c) eqn:Ha; [| reflexivity].
  exfalso. unfold is_c0_or_space in E. apply N.leb_le in E.
  unfold is_alpha, is_upper, is_lower, in_range in Ha.
  apply orb_true_iff in Ha. destruct Ha as [Ha | Ha];
    apply andb_true_iff in Ha; destruct Ha as [Ha _]; apply N.leb_le in Ha; lia.
Qed.

Lemma existsb_false_forallb : forall (f : N -> bool) s,
  existsb f s = false -> forallb (fun c => negb (f c)) s = true.
Proof.
  intros f s E. induction s as [| c s IH]; [reflexivity |].
  cbn [existsb] in E. apply orb_false_iff in E. destruct E as [E1 E2].
  cbn [forallb]. rewrite E1. now apply IH.
Qed.

(** Without tabs and newlines to remove, preprocessing only strips the two
    ends, and what it strips at the end is no letter. *)
Lemma url_preprocess_hidden : forall s,
  existsb is_tab_or_newline s = false ->
  hiddenExecutablePattern (url_preprocess s) = true -> hiddenExecutablePattern s = true.
Proof.
  intros s Hs E. unfold url_preprocess in E.
  destruct (dropWhile_split is_c0_or_space s) as [lead [E1 _]].
  destruct (dropWhile_split is_c0_or_space (rev (dropWhile is_c0_or_space s)))
    as [taken [E2 Htaken]].
  set (core := rev (dropWhile is_c0_or_space (rev (dropWhile is_c0_or_space s)))) in *.
  assert (Es : s = lead ++ core ++ rev taken).
  { rewrite E1 at 1. f_equal. unfold core.
    rewrite <- rev_app_distr, <- E2. now rewrite rev_involutive. }
  apply existsb_false_forallb in Hs.
  rewrite filter_all in E.
  - rewrite Es. apply search_suffix. apply hidden_app_boundary; [| exact E].
    apply lookahead_boundary_c0. now apply forallb_rev.
  - rewrite Es, !forallb_app in Hs.
    apply andb_true_iff in Hs. destruct Hs as [_ Hs].
    now apply andb_true_iff in Hs.
Qed.


(** ** The characters of a parsed path *)

Lemma hex_digit_path_char : forall n, n < 16 -> path_char (hex_digit n) = true.
Proof.
  intros n Hn. unfold hex_digit, path_char, is_ascii.
  destruct (N.ltb_spec n 10).
  - replace (48 + n <? 128) with true by (symmetry; apply N.ltb_lt; lia).
    replace (48 + n =? 63) with false by (symmetry; apply N.eqb_neq; lia).
    replace (48 + n =? 35) with false by (symmetry; apply N.eqb_neq; lia).
    reflexivity.
  - replace (55 + n <? 128) with true by (symmetry; apply N.ltb_lt; lia).
    replace (55 + n =? 63) with false by (symmetry; apply N.eqb_neq; lia).
    replace (55 + n =? 35) with false by (symmetry; apply N.eqb_neq; lia).
    reflexivity.
Qed.

Lemma utf8_encode_octets : forall c b, In b (utf8_encode c) -> b < 256.
Proof.
  intros c b Hb. unfold utf8_encode in Hb.
  assert (M : forall a, a mod 64 < 64) by (intros a; apply N.mod_lt; lia).
  assert (M8 : forall a, a mod 8 < 8) by (intros a; apply N.mod_lt; lia).
  pose proof (M c). pose proof (M (c / 64)). pose proof (M (c / 4096)).
  pose proof (M8 (c / 262144)). clear M M8.
  destruct (N.ltb_spec c 128); [| destruct (N.ltb_spec c 2048);
                                   [| destruct (N.ltb_spec c 65536)]].
  - cbn [In] in Hb. destruct Hb as [<- | []]. lia.
  - assert (c / 64 < 32) by (apply N.Div0.div_lt_upper_bound; lia).
    cbn [In] in Hb. repeat (destruct Hb as [<- | Hb]; [lia |]). contradiction.
  - assert (c / 4096 < 16) by (apply N.Div0.div_lt_upper_bound; lia).
    cbn [In] in Hb. repeat (destruct Hb as [<- | Hb]; [lia |]). contradiction.
  - cbn [In] in Hb. repeat (destruct Hb as [<- | Hb]; [lia |]). contradiction.
Qed.

Lemma percent_encode_byte_path_char : forall b,
  b < 256 -> forallb path_char (percent_encode_byte b) = true.
Proof.
  intros b Hb. unfold percent_encode_byte. cbn [forallb].
  rewrite !hex_digit_path_char; [reflexivity | |].
  - apply N.mod_lt. lia.
  - apply N.Div0.div_lt_upper_bound. lia.
Qed.

Lemma utf8_percent_encode_path_char : forall set c,
  (set c = false -> path_char c = true) ->
  forallb path_char (utf8_percent_encode set c) = true.
Proof.
  intros set c Hc. unfold utf8_percent_encode.
  destruct (set c); [| cbn [forallb]; now rewrite Hc].
  apply forallb_forall. intros x Hx. apply in_flat_map in Hx.
  destruct Hx as [b [Hb Hx]]. apply utf8_encode_octets in Hb.
  pose proof (percent_encode_byte_path_char b Hb) as Hp.
  rewrite forallb_forall in Hp. now apply Hp.
Qed.

Lemma path_set_path_char : forall c, path_set c = false -> path_char c = true.
Proof.
  intros c E. unfold path_set, query_set, c0_control_set in E.
  repeat match type of E with
         | _ || _ = false =>
             apply orb_false_iff in E; let E' := fresh "E" in destruct E as [E E']
         end.
  unfold path_char, is_ascii.
  repeat match goal with
         | Hk : (c =? ?k) = false |- _ => rewrite ?Hk; clear Hk
         | Hk : (126 <? c) = false |- _ => apply N.ltb_ge in Hk
         end.
  replace (c <? 128) with true by (symmetry; apply N.ltb_lt; lia).
  reflexivity.
Qed.

Lemma is_alpha_path_char : forall c, is_alpha c = true -> path_char c = true.
Proof.
  intros c Hc. unfold path_char. rewrite (is_alpha_ascii c Hc). cbn [andb].
  unfold is_alpha, is_upper, is_lower, in_range in Hc.
  destruct (N.eqb_spec c 63) as [-> | _]; [discriminate |].
  destruct (N.eqb_spec c 35) as [-> | _]; [discriminate |]. reflexivity.
Qed.

Lemma Forall_removelast : forall (P : list N -> Prop) l,
  Forall P l -> Forall P (removelast l).
Proof.
  intros P l Hl. induction Hl as [| x l Hx Hl IH]; [constructor |].
  destruct l as [| y l]; [constructor |].
  change (removelast (x :: y :: l)) with (x :: removelast (y :: l)).
  now constructor.
Qed.

Lemma serialize_path_chars : forall path,
  Forall path_chars path -> path_chars (serialize_path path).
Proof.
  intros path Hp. unfold path_chars, serialize_path.
  apply forallb_forall. intros c Hc. apply in_flat_map in Hc.
  destruct Hc as [segment [Hs Hc]].
  rewrite Forall_forall in Hp. specialize (Hp segment Hs).
  destruct Hc as [<- | Hc]; [reflexivity |].
  unfold path_chars in Hp. rewrite forallb_forall in Hp. now apply Hp.
Qed.

Section PathCharacters.
Context {H : Host}.

Lemma shorten_chars : forall is_file path,
  Forall path_chars path -> Forall path_chars (shorten is_file path).
Proof.
  intros f path Hp. unfold shorten.
  destruct path as [| segment [| s path]]; [constructor | | now apply Forall_removelast].
  destruct (f && is_normalized_windows_drive_letter segment);
    [exact Hp | constructor].
Qed.

Lemma push_segment_chars : forall is_file path buffer slash,
  Forall path_chars path -> path_chars buffer ->
  Forall path_chars (push_segment is_file path buffer slash).
Proof.
  intros f path buffer slash Hp Hb. unfold push_segment.
  assert (Hnil : path_chars []) by reflexivity.
  destruct (is_double_dot buffer).
  { destruct slash; [now apply shorten_chars |].
    apply Forall_app. split; [now apply shorten_chars | now constructor]. }
  destruct (is_single_dot buffer).
  { destruct slash; [exact Hp |]. apply Forall_app. split; [exact Hp | now constructor]. }
  apply Forall_app. split; [exact Hp |]. constructor; [| constructor].
  destruct (f && _ && is_windows_drive_letter buffer); [| exact Hb].
  destruct buffer as [| a buffer]; [exact Hb |].
  unfold path_chars in *. cbn [forallb] in *.
  apply andb_true_iff in Hb. destruct Hb as [Ha _]. now rewrite Ha.
Qed.

Lemma path_state_chars : forall input special is_file path buffer,
  Forall path_chars path -> path_chars buffer ->
  Forall path_chars (path_state special is_file path buffer input).
Proof.
  induction input as [| c rest IH]; intros special f path buffer Hp Hb; cbn [path_state].
  - now apply push_segment_chars.
  - destruct ((c =? 47) || special && (c =? 92)).
    + apply IH; [now apply push_segment_chars | reflexivity].
    + destruct ((c =? 63) || (c =? 35)); [now apply push_segment_chars |].
      apply IH; [exact Hp |]. unfold path_chars in *. rewrite forallb_app, Hb.
      apply utf8_percent_encode_path_char, path_set_path_char.
Qed.

Lemma path_start_state_chars : forall special is_file input,
  Forall path_chars (path_start_state special is_file input).
Proof.
  intros special f input. unfold path_start_state.
  assert (Hs : forall rest, Forall path_chars (path_state special f [] [] rest)).
  { intros rest. apply path_state_chars; [constructor | reflexivity]. }
  destruct special.
  - destruct input as [| c rest]; [apply Hs |].
    destruct ((c =? 47) || (c =? 92)); apply Hs.
  - destruct input as [| c rest]; [constructor |].
    destruct ((c =? 63) || (c =? 35)); [constructor |].
    destruct (c =? 47); apply Hs.
Qed.

Lemma opaque_path_state_chars : forall input, path_chars (opaque_path_state input).
Proof.
  unfold path_chars.
  induction input as [| c rest IH]; [reflexivity |]. cbn [opaque_path_state].
  destruct ((c =? 63) || (c =? 35)) eqn:Eq; [reflexivity |].
  destruct (c =? 32) eqn:Es.
  - destruct rest as [| d rest']; [reflexivity |].
    rewrite forallb_app, IH. destruct ((d =? 63) || (d =? 35)); reflexivity.
  - rewrite forallb_app, IH, utf8_percent_encode_path_char; [reflexivity |].
    intros Ec. unfold path_char. rewrite Eq. unfold c0_control_set in Ec.
    apply orb_false_iff in Ec. destruct Ec as [_ Ec]. apply N.ltb_ge in Ec.
    unfold is_ascii. replace (c <? 128) with true by (symmetry; apply N.ltb_lt; lia).
    reflexivity.
Qed.

Lemma windows_drive_letter_chars : forall buffer,
  is_windows_drive_letter buffer = true -> path_chars buffer.
Proof.
  intros buffer E. unfold is_windows_drive_letter in E.
  destruct buffer as [| a [| b [| c buffer]]]; try discriminate.
  apply andb_true_iff in E. destruct E as [Ha Hb].
  unfold path_chars. cbn [forallb]. rewrite (is_alpha_path_char a Ha).
  apply orb_true_iff in Hb. destruct Hb as [Hb | Hb];
    apply N.eqb_eq in Hb; subst b; reflexivity.
Qed.

(** The path of a parsed URL is ASCII and holds neither [?] nor [#]. *)
Lemma basic_URL_parser_path_chars : forall input url,
  basic_URL_parser input = Some url -> path_chars (pathname url).
Proof.
  intros input url E. unfold basic_URL_parser in E.
  destruct (match url_preprocess (code_points input) with
            | c :: _ => is_alpha c
            | [] => false
            end); [| discriminate].
  destruct (span is_scheme_char _) as [buffer rest].
  destruct (startsWith rest (str ":")); [| discriminate].
  assert (Hs : forall special f host rest',
             Some {| hostname := host;
                     pathname := serialize_path (path_state special f [] [] rest') |}
             = Some url -> path_chars (pathname url)).
  { intros special f host rest' Er. injection Er as Er. rewrite <- Er.
    apply serialize_path_chars, path_state_chars; [constructor | reflexivity]. }
  assert (Hst : forall special f host rest',
             Some {| hostname := host;
                     pathname := serialize_path (path_start_state special f rest') |}
             = Some url -> path_chars (pathname url)).
  { intros special f host rest' Er. injection Er as Er. rewrite <- Er.
    apply serialize_path_chars, path_start_state_chars. }
  destruct (jseq (map ascii_lower buffer) (str "file")).
  { unfold file_state in E.
    assert (Hhost : forall r, file_host_state r = Some url -> path_chars (pathname url)).
    { intros r Er. unfold file_host_state in Er.
      destruct (span _ r) as [b rest'].
      destruct (is_windows_drive_letter b) eqn:Ew.
      { injection Er as Er. rewrite <- Er.
        apply serialize_path_chars, path_state_chars;
          [constructor | now apply windows_drive_letter_chars]. }
      destruct (is_empty b); [now apply Hst in Er |].
      destruct (host_parse false b); [| discriminate].
      now apply Hst in Er. }
    destruct (tl rest) as [| c r1]; [now apply Hs in E |].
    destruct (is_slash c); [| now apply Hs in E].
    destruct r1 as [| d r2]; [now apply Hs in E |].
    destruct (is_slash d); [now apply (Hhost r2) | now apply Hs in E]. }
  destruct (is_special (map ascii_lower buffer)).
  { destruct (authority_state true _) as [[host rest'] |]; [| discriminate].
    now apply Hst in E. }
  destruct (startsWith (tl rest) (str "//")).
  { destruct (authority_state false _) as [[host rest'] |]; [| discriminate].
    now apply Hst in E. }
  destruct (startsWith (tl rest) (str "/")); [now apply Hs in E |].
  injection E as E. rewrite <- E. apply opaque_path_state_chars.
Qed.

End PathCharacters.

(** ** Lower-casing and the extension pattern *)

Lemma ascii_lower_eqb : forall c k,
  is_alpha k = false -> (ascii_lower c =? k) = (c =? k).
Proof.
  intros c k Hk. unfold ascii_lower. destruct (is_upper c) eqn:E; [| reflexivity].
  unfold is_alpha, is_upper, is_lower, in_range in *.
  apply andb_true_iff in E. destruct E as [E1 E2].
  apply N.leb_le in E1. apply N.leb_le in E2.
  apply orb_false_iff in Hk. destruct Hk as [Hu Hl].
  destruct (N.eqb_spec (c + 32) k) as [E3 | _]; destruct (N.eqb_spec c k) as [E4 | _];
    try reflexivity; exfalso.
  - replace (97 <=? k) with true in Hl by (symmetry; apply N.leb_le; lia).
    replace (k <=? 122) with true in Hl by (symmetry; apply N.leb_le; lia).
    discriminate.
  - replace (65 <=? k) with true in Hu by (symmetry; apply N.leb_le; lia).
    replace (k <=? 90) with true in Hu by (symmetry; apply N.leb_le; lia).
    discriminate.
Qed.

Lemma forallb_is_alnum_lower : forall s,
  forallb is_alnum (map ascii_lower s) = forallb is_alnum s.
Proof.
  induction s as [| c s IH]; [reflexivity |]. cbn [map forallb].
  now rewrite is_alnum_lower, IH.
Qed.

Lemma match_extension_map_lower : forall s,
  match_extension (map ascii_lower s) = option_map (map ascii_lower) (match_extension s).
Proof.
  induction s as [| c s IH]; [reflexivity |]. cbn [map match_extension].
  rewrite ascii_lower_eqb by reflexivity. rewrite forallb_is_alnum_lower.
  replace (is_empty (map ascii_lower s)) with (is_empty s) by (now destruct s).
  destruct ((c =? 46) && negb (is_empty s) && forallb is_alnum s); [reflexivity | exact IH].
Qed.

Lemma before_query_all : forall s,
  forallb (fun c => negb ((c =? 63) || (c =? 35))) s = true -> before_query s = s.
Proof.
  intros s E. unfold before_query. induction s as [| c s IH]; [reflexivity |].
  cbn [forallb] in E. apply andb_true_iff in E. destruct E as [E1 E2].
  cbn [span]. rewrite E1. specialize (IH E2).
  destruct (span _ s) as [a b]. cbn [fst] in *. now f_equal.
Qed.

Lemma path_chars_ascii : forall s, path_chars s -> forallb is_ascii s = true.
Proof.
  intros s Hs. unfold path_chars in Hs. rewrite forallb_forall in *.
  intros c Hc. specialize (Hs c Hc). unfold path_char in Hs.
  now apply andb_true_iff in Hs.
Qed.

Lemma path_chars_lower_no_query : forall s,
  path_chars s ->
  forallb (fun c => negb ((c =? 63) || (c =? 35))) (map ascii_lower s) = true.
Proof.
  intros s Hs. unfold path_chars in Hs. rewrite forallb_forall in *.
  intros c Hc. apply in_map_iff in Hc. destruct Hc as [d [<- Hd]].
  specialize (Hs d Hd). unfold path_char in Hs.
  apply andb_true_iff in Hs. destruct Hs as [_ Hs].
  now rewrite !ascii_lower_eqb by reflexivity.
Qed.

Lemma or_empty : forall s : list N, (if is_empty s then [] else s) = s.
Proof. now intros [| c s]. Qed.

(** ** Every path of the validator returns *)

Section Facts.
Context {H : Host}.

Lemma extract_extension_normal : forall decoded,
  exists extension, extract_extension decoded = ret extension.
Proof.
  intros decoded. unfold extract_extension.
  destruct (new_URL decoded) as [urlObj | e]; cbn [bind try_catch]; eauto.
Qed.

Lemma check_domain_normal : forall decoded,
  check_domain decoded = ret None
  \/ exists v, check_domain decoded = ret (Some v)
       /\ status v = str "warn"
       /\ (reasonCode v = str "PUNYCODE_DOMAIN" \/ reasonCode v = str "SHORTENER")
       /\ message v <> [].
Proof.
  intros decoded. unfold check_domain.
  destruct (new_URL decoded) as [urlObj | e]; cbn [bind try_catch]; [| now left].
  destruct (startsWith _ _).
  - right. eexists. split; [reflexivity |]. cbn [status reasonCode message].
    repeat split; [now left | literal].
  - destruct (includes shortenerDomains _); [| now left].
    right. eexists. split; [reflexivity |]. cbn [status reasonCode message].
    repeat split; [now right | literal].
Qed.

Lemma validate_returns : forall inputType content isVerifiedUser,
  exists v, validateInputSafety inputType content isVerifiedUser = ret v /\ well_formed v.
Proof.
  intros t c b. unfold validateInputSafety.
  destruct c as [| | x | n | s |]; cbn [ToBoolean typeof_string call_trim bind negb];
    try solve [returns].
  - destruct x; cbn [negb bind]; returns.
  - destruct (n =? 0); cbn [negb bind]; returns.
  - destruct (is_empty s); cbn [negb bind]; [returns |].
    destruct (is_empty (trim s)); cbn [negb bind]; [returns |].
    destruct (includes nonUrlTypes t); [returns |].
    destruct (unsafeProtocolPattern _); [returns |].
    destruct (riskyProtocolPattern _); [returns |].
    destruct (extract_extension_normal (normalize (trim s))) as [ext ->]. cbn [bind].
    destruct (hiddenExecutablePattern _); [returns |].
    destruct (includes blockedExtensions ext); [returns |].
    destruct (includes archiveExtensions ext); [destruct b; cbn [negb]; returns |].
    destruct (includes macroEnabledDocs ext); [returns |].
    destruct (check_domain_normal (normalize (trim s)))
      as [-> | [v [-> [Hs [Hr Hm]]]]]; cbn [bind].
    + destruct (startsWith _ _); [returns |].
      destruct (_ || _); returns.
    + exists v. split; [reflexivity |]. split; [| exact Hm].
      rewrite Hs. destruct Hr as [-> | ->]; literal.
Qed.

(** The flag [isVerifiedUser] is read on the archive path and nowhere else. *)
Lemma validate_flag : forall inputType content,
  (exists v, reasonCode v <> str "ARCHIVE"
     /\ forall isVerifiedUser, validateInputSafety inputType content isVerifiedUser = ret v)
  \/ (exists extension, forall isVerifiedUser,
        validateInputSafety inputType content isVerifiedUser
        = ret (verdict_ARCHIVE isVerifiedUser extension)).
Proof.
  intros t c. unfold validateInputSafety.
  assert (Hleaf : forall v, reasonCode v <> str "ARCHIVE" ->
    (exists v0 : Verdict, reasonCode v0 <> str "ARCHIVE"
       /\ (forall _ : bool, ret v = ret v0))
    \/ (exists extension, forall b : bool, ret v = ret (verdict_ARCHIVE b extension))).
  { intros v Hv. left. exists v. split; [exact Hv | reflexivity]. }
  destruct c as [| | x | n | s |]; cbn [ToBoolean typeof_string call_trim bind negb];
    try solve [apply Hleaf; literal].
  - destruct x; cbn [negb bind]; apply Hleaf; literal.
  - destruct (n =? 0); cbn [negb bind]; apply Hleaf; literal.
  - destruct (is_empty s); cbn [negb bind]; [apply Hleaf; literal |].
    destruct (is_empty (trim s)); cbn [negb bind]; [apply Hleaf; literal |].
    destruct (includes nonUrlTypes t); [apply Hleaf; literal |].
    destruct (unsafeProtocolPattern _); [apply Hleaf; literal |].
    destruct (riskyProtocolPattern _); [apply Hleaf; literal |].
    destruct (extract_extension_normal (normalize (trim s))) as [ext ->]. cbn [bind].
    destruct (hiddenExecutablePattern _); [apply Hleaf; literal |].
    destruct (includes blockedExtensions ext); [apply Hleaf; literal |].
    destruct (includes archiveExtensions ext).
    { right. exists ext. intros b. unfold verdict_ARCHIVE. destruct b; reflexivity. }
    destruct (includes macroEnabledDocs ext); [apply Hleaf; literal |].
    destruct (check_domain_normal (normalize (trim s)))
      as [-> | [v [-> [Hs [Hr Hm]]]]]; cbn [bind].
    + destruct (startsWith _ _); [apply Hleaf; literal |].
      destruct (_ || _); apply Hleaf; literal.
    + apply Hleaf. destruct Hr as [-> | ->]; literal.
Qed.

End Facts.

(** ** Lawful hosts *)

Section Lawful.
Context {H : Host} {HL : HostLaws H}.

(** The group that the extension pattern captures is ASCII, so its
    lower-casing is the same on every lawful host. *)
Lemma extension_of_lawful : forall s,
  extension_of s
  = match match_extension s with
    | Some group => map ascii_lower group
    | None => []
    end.
Proof.
  intros s. unfold extension_of.
  destruct (match_extension s) as [group |] eqn:E; [| reflexivity].
  destruct (match_extension_end _ _ E) as [before [_ [_ Hg]]].
  apply toLowerCase_ascii, alnum_is_ascii, Hg.
Qed.

(** When the extension is read off the decoded string itself and is one the
    hidden-executable pattern names, the pattern matches that string. *)
Lemma hidden_matches_fallback_extension : forall decoded,
  In (extension_of (before_query decoded)) hiddenExecutableExtensions ->
  hiddenExecutablePattern decoded = true.
Proof.
  intros decoded Hin. rewrite extension_of_lawful in Hin.
  destruct (match_extension (before_query decoded)) as [group |] eqn:E.
  2:{ exfalso. simpl in Hin. intuition discriminate. }
  destruct (match_extension_end _ _ E) as [before [Eb _]].
  destruct (before_query_split decoded) as [rest [Ed Hrest]].
  rewrite Eb, <- app_assoc in Ed. rewrite Ed.
  unfold hiddenExecutablePattern. apply search_suffix, search_here.
  now apply hidden_executable_here_intro.
Qed.

(** The same when the extension is read off the path of the parsed URL,
    provided the decoded string holds no tab and no newline, which the
    parser would remove. *)
Lemma hidden_matches_parsed_extension : forall decoded urlObj,
  basic_URL_parser decoded = Some urlObj ->
  existsb is_tab_or_newline decoded = false ->
  In (extension_of
        (before_query
           (toLowerCase (if is_empty (pathname urlObj) then [] else pathname urlObj))))
     hiddenExecutableExtensions ->
  hiddenExecutablePattern decoded = true.
Proof.
  intros decoded urlObj Eu Htab Hin.
  pose proof (basic_URL_parser_path_chars decoded urlObj Eu) as Hp.
  rewrite or_empty in Hin.
  rewrite (toLowerCase_ascii _ (path_chars_ascii _ Hp)) in Hin.
  rewrite (before_query_all _ (path_chars_lower_no_query _ Hp)) in Hin.
  rewrite extension_of_lawful, match_extension_map_lower in Hin.
  destruct (match_extension (pathname urlObj)) as [group |] eqn:Em.
  2:{ exfalso. simpl in Hin. intuition discriminate. }
  cbn [option_map] in Hin. rewrite map_map in Hin.
  rewrite (map_ext _ _ ascii_lower_idem) in Hin.
  apply code_points_hidden, url_preprocess_hidden.
  - now apply code_points_no_tab.
  - now apply (basic_URL_parser_hidden decoded urlObj group).
Qed.

End Lawful.

(** ** Totality and shape of the verdict *)

(** C1. For every input type, every content value (a string or not) and
    every flag, [validateInputSafety] returns normally, with one verdict
    whose status and reason code are among the enumerated ones and whose
    message is not empty.  The model threads the exceptions of
    [decodeURIComponent] and [new URL] through [bind]; none of them
    reaches the caller. *)
Theorem validateInputSafety_total :
  forall (H : Host) (inputType : jsstring) (content : value) (isVerifiedUser : bool),
  exists v,
    validateInputSafety inputType content isVerifiedUser = ret v
    /\ In (status v) [str "ok"; str "warn"; str "block"]
    /\ In (reasonCode v)
         [str "EMPTY"; str "UNSAFE_PROTOCOL"; str "RISKY_PROTOCOL"; str "EXECUTABLE";
          str "EXECUTABLE_HIDDEN"; str "ARCHIVE"; str "MACRO_DOC"; str "PUNYCODE_DOMAIN";
          str "SHORTENER"; str "HTTP"; str "SAFE"; str "INVALID"]
    /\ message v <> [].
Proof.
  intros H t c b.
  destruct (validate_returns t c b) as [v [Hv [Hkind Hmsg]]].
  exists v. split; [exact Hv |]. split; [| split; [| exact Hmsg]];
    destruct v as [st rc msg]; cbn [status reasonCode] in *;
    unfold verdict_kinds in Hkind; simpl in Hkind;
    repeat (destruct Hkind as [Hkind | Hkind];
            [injection Hkind as <- <-; simpl; tauto |]);
    contradiction.
Qed.

(** A malformed escape and a string that is no URL, end to end. *)
Example malformed_escape_is_INVALID :
  decodeURIComponent (str "%zz") = Throw URIError
  /\ exists msg,
       validateInputSafety (H := AsciiHost) (str "URL") (JsString (str "%zz")) false
       = ret {| status := str "block"; reasonCode := str "INVALID"; message := msg |}.
Proof. split; [reflexivity | eexists; vm_compute; reflexivity]. Qed.

Example unparsable_URL_is_INVALID :
  new_URL (H := AsciiHost) (str "not a url") = Throw TypeError
  /\ exists msg,
       validateInputSafety (H := AsciiHost) (str "URL") (JsString (str "not a url")) false
       = ret {| status := str "block"; reasonCode := str "INVALID"; message := msg |}.
Proof. split; [reflexivity | eexists; vm_compute; reflexivity]. Qed.

(** C9. Status and reason code of a returned verdict go together: the
    status is ok, warn or block; it is ok exactly when the reason code is
    SAFE; a warn carries one of six reason codes and a block one of six;
    the message is never empty. *)
Theorem status_reasonCode_pairing :
  forall (H : Host) (inputType : jsstring) (content : value) (isVerifiedUser : bool)
         (v : Verdict),
    validateInputSafety inputType content isVerifiedUser = ret v ->
    pairing_invariant v.
Proof.
  intros H t c b v Hv.
  destruct (validate_returns t c b) as [v' [Hv' [Hkind Hmsg]]].
  rewrite Hv in Hv'. injection Hv' as <-.
  unfold pairing_invariant.
  destruct v as [st rc msg]; cbn [status reasonCode message] in *.
  unfold verdict_kinds in Hkind; simpl in Hkind.
  repeat (destruct Hkind as [Hkind | Hkind];
          [injection Hkind as <- <-; repeat split; try exact Hmsg; literal |]).
  contradiction.
Qed.

Lemma status_reasonCode_pairing_witness :
  validateInputSafety (H := AsciiHost) (str "URL")
    (JsString (str "https://example.com/file.zip")) true
  = ret (verdict_ARCHIVE true (str "zip"))
  /\ pairing_invariant (verdict_ARCHIVE true (str "zip")).
Proof.
  split; [reflexivity |].
  exact (status_reasonCode_pairing AsciiHost (str "URL")
           (JsString (str "https://example.com/file.zip")) true
           (verdict_ARCHIVE true (str "zip")) eq_refl).
Defined.

(** ** The verified-user flag *)

(** C5. With input type and content fixed, the flag changes the verdict on
    the archive path only.  If the unverified run has reason code ARCHIVE,
    its status is block and the verified run returns warn with ARCHIVE; if
    either run has another reason code, the other run returns the very same
    verdict. *)
Theorem verified_flag_only_archive :
  forall (H : Host) (inputType : jsstring) (content : value) (v : Verdict),
    validateInputSafety inputType content false = ret v ->
    (reasonCode v = str "ARCHIVE" ->
       status v = str "block"
       /\ exists v', validateInputSafety inputType content true = ret v'
                     /\ status v' = str "warn" /\ reasonCode v' = str "ARCHIVE")
    /\ (reasonCode v <> str "ARCHIVE" ->
          validateInputSafety inputType content true = ret v)
    /\ (forall v', validateInputSafety inputType content true = ret v' ->
          reasonCode v' <> str "ARCHIVE" -> v' = v).
Proof.
  intros H t c v Hv.
  destruct (validate_flag t c) as [[v0 [Hne Hall]] | [ext Hall]].
  - rewrite Hall in Hv. injection Hv as <-.
    split; [intros E; contradiction |].
    split; [intros _; apply Hall |].
    intros v' Hv' _. rewrite Hall in Hv'. now injection Hv' as <-.
  - rewrite Hall in Hv. injection Hv as <-.
    split; [intros _; split; [reflexivity |] |].
    + exists (verdict_ARCHIVE true ext). rewrite Hall. repeat split.
    + split; [intros E; exfalso; apply E; reflexivity |].
      intros v' Hv' Hne. rewrite Hall in Hv'. injection Hv' as <-.
      exfalso; apply Hne; reflexivity.
Qed.

Lemma verified_flag_only_archive_witness :
  validateInputSafety (H := AsciiHost) (str "URL")
    (JsString (str "https://example.com/file.zip")) false
  = ret (verdict_ARCHIVE false (str "zip"))
  /\ status (verdict_ARCHIVE false (str "zip")) = str "block"
  /\ exists v', validateInputSafety (H := AsciiHost) (str "URL")
                  (JsString (str "https://example.com/file.zip")) true = ret v'
                /\ status v' = str "warn" /\ reasonCode v' = str "ARCHIVE".
Proof.
  split; [reflexivity |].
  apply (verified_flag_only_archive AsciiHost (str "URL")
           (JsString (str "https://example.com/file.zip"))
           (verdict_ARCHIVE false (str "zip")) eq_refl).
  reflexivity.
Defined.

(** ** Empty content and the type bypass *)

Lemma trim_nil_of_empty : forall s, is_empty s = true -> trim s = [].
Proof. intros s E. apply is_empty_nil in E. now subst. Qed.

(** C8. Whatever the input type, also a non-URL one, content that is
    missing, not a string, or blank after trimming is blocked as EMPTY: the
    emptiness check comes before the type bypass. *)
Theorem blank_content_blocked :
  forall (H : Host) (inputType : jsstring) (content : value) (isVerifiedUser : bool),
    blank content ->
    validateInputSafety inputType content isVerifiedUser = ret verdict_EMPTY.
Proof.
  intros H t c b Hblank. unfold validateInputSafety.
  destruct c as [| | x | n | s |]; cbn [ToBoolean typeof_string call_trim bind negb];
    try reflexivity.
  - destruct x; reflexivity.
  - destruct (n =? 0); reflexivity.
  - simpl in Hblank. destruct (is_empty s); cbn [negb bind]; [reflexivity |].
    rewrite Hblank. reflexivity.
Qed.

Lemma blank_content_blocked_witness :
  blank (JsString (str "   "))
  /\ validateInputSafety (H := AsciiHost) (str "Text") (JsString (str "   ")) false
     = ret verdict_EMPTY.
Proof.
  split; [reflexivity |].
  apply (blank_content_blocked AsciiHost (str "Text") (JsString (str "   ")) false).
  reflexivity.
Defined.

(** C2, as the code has it: for a non-URL input type and content that is
    not blank after trimming, the verdict is ok with SAFE, whatever the
    content says. *)
Theorem nonurl_type_bypass :
  forall (H : Host) (inputType content : jsstring) (isVerifiedUser : bool),
    In inputType nonUrlTypes ->
    trim content <> [] ->
    validateInputSafety inputType (JsString content) isVerifiedUser
    = ret verdict_SAFE_non_URL.
Proof.
  intros H t s b Ht Hs. unfold validateInputSafety.
  cbn [ToBoolean typeof_string call_trim bind negb].
  destruct (is_empty s) eqn:E1.
  { exfalso. apply Hs. now apply trim_nil_of_empty. }
  destruct (is_empty (trim s)) eqn:E2.
  { exfalso. apply Hs. now apply is_empty_nil. }
  cbn [negb bind].
  apply includes_In in Ht. rewrite Ht. reflexivity.
Qed.

Lemma nonurl_type_bypass_witness :
  In (str "Text") nonUrlTypes
  /\ trim (str "javascript:alert(1)") <> []
  /\ validateInputSafety (H := AsciiHost) (str "Text")
       (JsString (str "javascript:alert(1)")) false
     = ret verdict_SAFE_non_URL.
Proof.
  assert (H1 : In (str "Text") nonUrlTypes) by (simpl; tauto).
  assert (H2 : trim (str "javascript:alert(1)") <> []) by (vm_compute; discriminate).
  split; [exact H1 |]. split; [exact H2 |].
  exact (nonurl_type_bypass AsciiHost (str "Text") (str "javascript:alert(1)") false H1 H2).
Defined.

(** C2, as stated, fails on blank content: a non-URL type with an empty
    string is blocked as EMPTY, not passed as SAFE. *)
Lemma nonurl_blank_is_blocked :
  In (str "Text") nonUrlTypes
  /\ validateInputSafety (H := AsciiHost) (str "Text") (JsString (str "")) false
     = ret verdict_EMPTY
  /\ status verdict_EMPTY <> str "ok"
  /\ reasonCode verdict_EMPTY <> str "SAFE".
Proof.
  split; [simpl; tauto |]. split; [reflexivity |]. split; literal.
Qed.

(** ** Claims that need the host laws *)

(** C7. The verdict does not depend on the case of the content: content and
    its lower-casing get the same result, for every input type and flag. *)
Theorem case_invariance :
  forall (H : Host) (HL : HostLaws H)
         (inputType content : jsstring) (isVerifiedUser : bool),
    validateInputSafety inputType (JsString content) isVerifiedUser
    = validateInputSafety inputType (JsString (toLowerCase content)) isVerifiedUser.
Proof.
  intros H HL t s b. unfold validateInputSafety.
  cbn [ToBoolean typeof_string call_trim bind negb].
  rewrite toLowerCase_trim, !toLowerCase_empty.
  unfold normalize. rewrite toLowerCase_idem. reflexivity.
Qed.

Lemma case_invariance_witness :
  validateInputSafety (H := AsciiHost) (str "URL") (JsString (str "FILE.EXE")) false
  = validateInputSafety (H := AsciiHost) (str "URL") (JsString (str "file.exe")) false.
Proof.
  exact (case_invariance AsciiHost AsciiHost_laws (str "URL") (str "FILE.EXE") false).
Defined.

(** C6. For the input type URL and content that is not blank, if the
    decoded string (trimmed, lower-cased, percent-decoded in at most three
    rounds, without NUL) starts with one of the unsafe schemes, the verdict is
    block with UNSAFE_PROTOCOL; [javascript:alert(1)] is such a content. *)
Theorem unsafe_scheme_blocked :
  forall (H : Host) (HL : HostLaws H),
    (forall (content : jsstring) (isVerifiedUser : bool) (scheme : jsstring),
       trim content <> [] ->
       In scheme unsafeSchemes ->
       startsWith (normalize (trim content)) scheme = true ->
       validateInputSafety (str "URL") (JsString content) isVerifiedUser
       = ret verdict_UNSAFE_PROTOCOL)
    /\ validateInputSafety (str "URL") (JsString (str "javascript:alert(1)")) false
       = ret verdict_UNSAFE_PROTOCOL.
Proof.
  intros H HL.
  assert (General : forall content isVerifiedUser scheme,
             trim content <> [] ->
             In scheme unsafeSchemes ->
             startsWith (normalize (trim content)) scheme = true ->
             validateInputSafety (str "URL") (JsString content) isVerifiedUser
             = ret verdict_UNSAFE_PROTOCOL).
  { intros s b scheme Hs Hin Hstart. unfold validateInputSafety.
    cbn [ToBoolean typeof_string call_trim bind negb].
    destruct (is_empty s) eqn:E1.
    { exfalso. apply Hs. now apply trim_nil_of_empty. }
    destruct (is_empty (trim s)) eqn:E2.
    { exfalso. apply Hs. now apply is_empty_nil. }
    cbn [negb bind].
    evaluate (includes nonUrlTypes (str "URL")).
    now rewrite (unsafeProtocolPattern_startsWith _ scheme Hin Hstart). }
  split; [exact General |].
  apply (General _ _ (str "javascript:")).
  - vm_compute. discriminate.
  - simpl. tauto.
  - unfold normalize. rewrite toLowerCase_ascii by reflexivity. reflexivity.
Qed.

Lemma unsafe_scheme_blocked_witness :
  trim (str " JavaScript%3Aalert(1)") <> []
  /\ In (str "javascript:") unsafeSchemes
  /\ startsWith (normalize (H := AsciiHost) (trim (str " JavaScript%3Aalert(1)")))
       (str "javascript:") = true
  /\ validateInputSafety (H := AsciiHost) (str "URL")
       (JsString (str " JavaScript%3Aalert(1)")) true
     = ret verdict_UNSAFE_PROTOCOL.
Proof.
  assert (H1 : trim (str " JavaScript%3Aalert(1)") <> []) by (vm_compute; discriminate).
  assert (H2 : In (str "javascript:") unsafeSchemes) by (simpl; tauto).
  assert (H3 : startsWith (normalize (H := AsciiHost) (trim (str " JavaScript%3Aalert(1)")))
                 (str "javascript:") = true) by reflexivity.
  split; [exact H1 |]. split; [exact H2 |]. split; [exact H3 |].
  exact (proj1 (unsafe_scheme_blocked AsciiHost AsciiHost_laws) _ true _ H1 H2 H3).
Defined.

(** C3, as the code has it: the URL [https://example.com/installer.exe] is
    blocked by the hidden-executable rule, which comes before the
    blocked-extension rule and matches a plain [.exe] at the end of the
    string; the reason code is EXECUTABLE_HIDDEN. *)
Theorem installer_exe_is_EXECUTABLE_HIDDEN :
  forall (H : Host) (HL : HostLaws H),
    validateInputSafety (str "URL") (JsString (str "https://example.com/installer.exe")) false
    = ret verdict_EXECUTABLE_HIDDEN.
Proof.
  intros H HL. unfold validateInputSafety.
  cbn [ToBoolean typeof_string call_trim bind negb].
  set (content := str "https://example.com/installer.exe").
  evaluate (is_empty content). evaluate (is_empty (trim content)). cbn [negb bind].
  replace (normalize (trim content)) with content
    by (unfold normalize; rewrite toLowerCase_ascii by reflexivity; reflexivity).
  evaluate (includes nonUrlTypes (str "URL")).
  evaluate (unsafeProtocolPattern content). evaluate (riskyProtocolPattern content).
  destruct (extract_extension_normal content) as [extension ->]. cbn [bind].
  evaluate (hiddenExecutablePattern content). reflexivity.
Qed.

Lemma installer_exe_is_EXECUTABLE_HIDDEN_witness :
  validateInputSafety (H := AsciiHost) (str "URL")
    (JsString (str "https://example.com/installer.exe")) false
  = ret verdict_EXECUTABLE_HIDDEN.
Proof. exact (installer_exe_is_EXECUTABLE_HIDDEN AsciiHost AsciiHost_laws). Defined.

(** C3, as stated, fails: the reason code of that URL is not EXECUTABLE. *)
Lemma installer_exe_is_not_EXECUTABLE :
  extract_extension (H := AsciiHost) (str "https://example.com/installer.exe")
  = ret (str "exe")
  /\ hiddenExecutablePattern (str "https://example.com/installer.exe") = true
  /\ validateInputSafety (H := AsciiHost) (str "URL")
       (JsString (str "https://example.com/installer.exe")) false
     = ret verdict_EXECUTABLE_HIDDEN
  /\ reasonCode verdict_EXECUTABLE_HIDDEN <> str "EXECUTABLE".
Proof. repeat split; literal. Qed.

(** The order of steps 10 and 11: when no earlier step returns and the
    host of the parsed URL is a shortener domain, the verdict is SHORTENER,
    whether or not the decoded string starts with [http://]. *)
Lemma shortener_rule_before_http :
  forall (H : Host) (inputType content : jsstring) (isVerifiedUser : bool)
         (extension : jsstring) (urlObj : URL),
    trim content <> [] ->
    includes nonUrlTypes inputType = false ->
    unsafeProtocolPattern (normalize (trim content)) = false ->
    riskyProtocolPattern (normalize (trim content)) = false ->
    hiddenExecutablePattern (normalize (trim content)) = false ->
    extract_extension (normalize (trim content)) = ret extension ->
    includes blockedExtensions extension = false ->
    includes archiveExtensions extension = false ->
    includes macroEnabledDocs extension = false ->
    new_URL (normalize (trim content)) = ret urlObj ->
    In (toLowerCase (hostname urlObj)) shortenerDomains ->
    validateInputSafety inputType (JsString content) isVerifiedUser
    = ret (verdict_SHORTENER (toLowerCase (hostname urlObj))).
Proof.
  intros H t s b ext urlObj Hs Ht Hu Hr Hh He Hb Ha Hm Eurl Hin.
  unfold validateInputSafety.
  cbn [ToBoolean typeof_string call_trim bind negb].
  destruct (is_empty s) eqn:E1.
  { exfalso. apply Hs. now apply trim_nil_of_empty. }
  destruct (is_empty (trim s)) eqn:E2.
  { exfalso. apply Hs. now apply is_empty_nil. }
  cbn [negb bind]. rewrite Ht, Hu, Hr, He. cbn [bind]. rewrite Hh, Hb, Ha, Hm.
  unfold check_domain. rewrite Eurl. cbn [bind try_catch].
  assert (Hx : startsWith (toLowerCase (hostname urlObj)) (str "xn--") = false).
  { unfold shortenerDomains in Hin. simpl in Hin.
    repeat (destruct Hin as [Hin | Hin]; [rewrite <- Hin; reflexivity |]).
    contradiction. }
  rewrite Hx. apply includes_In in Hin. rewrite Hin. reflexivity.
Qed.

(** C4. [http://bit.ly/abc] gets warn with SHORTENER: its host is the
    shortener [bit.ly], and the shortener rule comes before the plain-HTTP
    rule, although the string starts with [http://]. *)
Theorem bitly_is_SHORTENER :
  forall (H : Host) (HL : HostLaws H),
    validateInputSafety (str "URL") (JsString (str "http://bit.ly/abc")) false
    = ret (verdict_SHORTENER (str "bit.ly")).
Proof.
  intros H HL. unfold validateInputSafety.
  cbn [ToBoolean typeof_string call_trim bind negb].
  set (content := str "http://bit.ly/abc").
  evaluate (is_empty content). evaluate (is_empty (trim content)). cbn [negb bind].
  replace (normalize (trim content)) with content
    by (unfold normalize; rewrite toLowerCase_ascii by reflexivity; reflexivity).
  evaluate (includes nonUrlTypes (str "URL")).
  evaluate (unsafeProtocolPattern content). evaluate (riskyProtocolPattern content).
  assert (Eurl : new_URL content
                 = ret {| hostname := str "bit.ly"; pathname := str "/abc" |})
    by (vm_compute; reflexivity).
  unfold extract_extension, check_domain. rewrite Eurl.
  cbn [bind try_catch hostname pathname].
  rewrite !toLowerCase_ascii by reflexivity.
  rewrite extension_of_lawful.
  vm_compute. reflexivity.
Qed.

Lemma bitly_is_SHORTENER_witness :
  validateInputSafety (H := AsciiHost) (str "URL") (JsString (str "http://bit.ly/abc")) false
  = ret (verdict_SHORTENER (str "bit.ly")).
Proof. exact (bitly_is_SHORTENER AsciiHost AsciiHost_laws). Defined.

(** The same URL starts with [http://]: without the shortener rule the
    plain-HTTP rule would have decided it. *)
Example bitly_starts_with_http :
  startsWith (normalize (H := AsciiHost) (trim (str "http://bit.ly/abc"))) (str "http://") = true.
Proof. reflexivity. Qed.

(** ** Reachability of EXECUTABLE *)

(** C10, as the code has it.  A verdict with reason code EXECUTABLE comes
    from a string content whose decoded form the hidden-executable pattern
    does not match and whose extracted extension is a blocked one; and if
    the decoded string holds no ASCII tab or newline, or does not parse as a
    URL, that extension is one of com, app, dmg, pkg, deb, rpm, img, bin,
    crx, xpi: for exe, msi, bat, cmd, vbs, scr, dll, jar, apk, ps1, sh, aab
    the hidden-executable pattern has matched first. *)
Theorem executable_only_clean_extensions :
  forall (H : Host) (HL : HostLaws H)
         (inputType : jsstring) (content : value) (isVerifiedUser : bool) (v : Verdict),
    validateInputSafety inputType content isVerifiedUser = ret v ->
    reasonCode v = str "EXECUTABLE" ->
    exists s extension,
      content = JsString s
      /\ extract_extension (normalize (trim s)) = ret extension
      /\ v = verdict_EXECUTABLE extension
      /\ In extension blockedExtensions
      /\ hiddenExecutablePattern (normalize (trim s)) = false
      /\ (existsb is_tab_or_newline (normalize (trim s)) = false
          \/ new_URL (normalize (trim s)) = Throw TypeError ->
          In extension installerExtensions).
Proof.
  intros H HL t c b v Hv Hrc. unfold validateInputSafety in Hv.
  assert (Hleaf : forall v0 : Verdict,
             reasonCode v0 <> str "EXECUTABLE" -> ret v0 = ret v -> False).
  { intros v0 Hne E. injection E as <-. contradiction. }
  destruct c as [| | x | n | s |];
    cbn [ToBoolean typeof_string call_trim bind negb] in Hv;
    try solve [exfalso; revert Hv; apply Hleaf; literal].
  - exfalso. destruct x; cbn [negb bind] in Hv; revert Hv; apply Hleaf; literal.
  - exfalso. destruct (n =? 0); cbn [negb bind] in Hv; revert Hv; apply Hleaf; literal.
  - destruct (is_empty s); cbn [negb bind] in Hv;
      [exfalso; revert Hv; apply Hleaf; literal |].
    destruct (is_empty (trim s)); cbn [negb bind] in Hv;
      [exfalso; revert Hv; apply Hleaf; literal |].
    destruct (includes nonUrlTypes t);
      [exfalso; revert Hv; apply Hleaf; literal |].
    destruct (unsafeProtocolPattern _);
      [exfalso; revert Hv; apply Hleaf; literal |].
    destruct (riskyProtocolPattern _);
      [exfalso; revert Hv; apply Hleaf; literal |].
    destruct (extract_extension_normal (normalize (trim s))) as [ext Hext].
    rewrite Hext in Hv. cbn [bind] in Hv.
    destruct (hiddenExecutablePattern (normalize (trim s))) eqn:Ehidden;
      [exfalso; revert Hv; apply Hleaf; literal |].
    destruct (includes blockedExtensions ext) eqn:Eblocked.
    + injection Hv as <-. exists s, ext.
      apply includes_In in Eblocked.
      repeat split; try assumption.
      intros Hcase.
      assert (Hnot : In ext hiddenExecutableExtensions -> False).
      { intros Hin. unfold extract_extension, new_URL in *.
        destruct (basic_URL_parser (normalize (trim s))) as [urlObj |] eqn:Eu;
          cbn [bind try_catch] in Hext; injection Hext as Hext; rewrite <- Hext in Hin.
        - destruct Hcase as [Htab | Hthrow]; [| discriminate].
          apply (hidden_matches_parsed_extension _ _ Eu Htab) in Hin. congruence.
        - apply hidden_matches_fallback_extension in Hin. congruence. }
      unfold blockedExtensions in Eblocked. simpl in Eblocked.
      repeat (destruct Eblocked as [Eblocked | Eblocked];
              [first [ exfalso; apply Hnot; rewrite <- Eblocked; simpl; tauto
                     | rewrite <- Eblocked; simpl; tauto ] |]).
      contradiction.
    + exfalso.
      destruct (includes archiveExtensions ext);
        [destruct b; cbn [negb] in Hv; revert Hv; apply Hleaf; literal |].
      destruct (includes macroEnabledDocs ext);
        [revert Hv; apply Hleaf; literal |].
      destruct (check_domain_normal (normalize (trim s)))
        as [Ed | [v0 [Ed [Hs [Hr Hm]]]]]; rewrite Ed in Hv; cbn [bind] in Hv.
      * destruct (startsWith _ _); [revert Hv; apply Hleaf; literal |].
        destruct (_ || _); revert Hv; apply Hleaf; literal.
      * revert Hv; apply Hleaf. destruct Hr as [-> | ->]; literal.
Qed.

Lemma executable_only_clean_extensions_witness :
  validateInputSafety (H := AsciiHost) (str "URL")
    (JsString (str "https://example.com/setup.dmg")) false
  = ret (verdict_EXECUTABLE (str "dmg"))
  /\ reasonCode (verdict_EXECUTABLE (str "dmg")) = str "EXECUTABLE"
  /\ exists s extension,
       JsString (str "https://example.com/setup.dmg") = JsString s
       /\ extract_extension (H := AsciiHost) (normalize (H := AsciiHost) (trim s))
          = ret extension
       /\ verdict_EXECUTABLE (str "dmg") = verdict_EXECUTABLE extension
       /\ In extension blockedExtensions
       /\ hiddenExecutablePattern (normalize (H := AsciiHost) (trim s)) = false
       /\ (existsb is_tab_or_newline (normalize (H := AsciiHost) (trim s)) = false
           \/ new_URL (H := AsciiHost) (normalize (H := AsciiHost) (trim s))
              = Throw TypeError ->
           In extension installerExtensions).
Proof.
  split; [reflexivity |]. split; [reflexivity |].
  exact (executable_only_clean_extensions AsciiHost AsciiHost_laws (str "URL")
           (JsString (str "https://example.com/setup.dmg")) false
           (verdict_EXECUTABLE (str "dmg")) eq_refl eq_refl).
Defined.

(** C10, as stated, fails.  The URL parser drops tabs and newlines, so the
    path of [https://example.com/a.e%09xe] ends in [.exe] while the decoded
    string, which has a tab between [e] and [xe], has no [.exe] for the
    hidden-executable pattern to match: the verdict is EXECUTABLE with the
    extension exe. *)
Lemma EXECUTABLE_reached_with_exe :
  normalize (H := AsciiHost) (trim (str "https://example.com/a.e%09xe"))
  = str "https://example.com/a.e" ++ [TAB] ++ str "xe"
  /\ extract_extension (H := AsciiHost) (str "https://example.com/a.e" ++ [TAB] ++ str "xe")
     = ret (str "exe")
  /\ In (str "exe") hiddenExecutableExtensions
  /\ hiddenExecutablePattern (str "https://example.com/a.e" ++ [TAB] ++ str "xe") = false
  /\ validateInputSafety (H := AsciiHost) (str "URL")
       (JsString (str "https://example.com/a.e%09xe")) false
     = ret (verdict_EXECUTABLE (str "exe")).
Proof. repeat split; literal. Qed.

(** The same on every lawful host. *)
Lemma tab_inside_exe_on_any_host :
  forall (H : Host) (HL : HostLaws H),
    validateInputSafety (str "URL") (JsString (str "https://example.com/a.e%09xe")) false
    = ret (verdict_EXECUTABLE (str "exe")).
Proof.
  intros H HL. unfold validateInputSafety.
  cbn [ToBoolean typeof_string call_trim bind negb].
  set (content := str "https://example.com/a.e%09xe").
  set (decoded := str "https://example.com/a.e" ++ [TAB] ++ str "xe").
  evaluate (is_empty content). evaluate (is_empty (trim content)). cbn [negb bind].
  replace (normalize (trim content)) with decoded
    by (unfold normalize; rewrite toLowerCase_ascii by reflexivity; reflexivity).
  evaluate (includes nonUrlTypes (str "URL")).
  evaluate (unsafeProtocolPattern decoded). evaluate (riskyProtocolPattern decoded).
  assert (Eurl : new_URL decoded
                 = ret {| hostname := str "example.com"; pathname := str "/a.exe" |})
    by (vm_compute; reflexivity).
  unfold extract_extension. rewrite Eurl.
  cbn [bind try_catch hostname pathname].
  rewrite toLowerCase_ascii by reflexivity.
  rewrite extension_of_lawful.
  vm_compute. reflexivity.
Qed.

(** * Further properties

    The platform functions, the basic variant of the validator and the
    application around it. *)

(** ** Decoding *)

Lemma hex_value_hex_digit : forall n, n < 16 -> hex_value (hex_digit n) = Some n.
Proof.
  intros n Hn. unfold hex_digit.
  destruct (N.ltb_spec n 10); unfold hex_value, is_digit, in_range;
    by_cases; try lia; f_equal; lia.
Qed.

Lemma hex_value_lower : forall c, hex_value (ascii_lower c) = hex_value c.
Proof.
  intros c. unfold ascii_lower, is_upper, in_range.
  destruct (N.leb_spec 65 c); destruct (N.leb_spec c 90); cbn [andb]; try reflexivity.
  unfold hex_value, is_digit, in_range.
  by_cases; try lia; try reflexivity; f_equal; lia.
Qed.

Lemma case_map_hex : forall g, case_map g -> forall c, hex_value (g c) = hex_value c.
Proof. intros g Hg c. destruct (Hg c) as [-> | ->]; [reflexivity | apply hex_value_lower]. Qed.

Lemma case_map_eqb : forall g, case_map g ->
  forall c k, is_alpha k = false -> (g c =? k) = (c =? k).
Proof.
  intros g Hg c k Hk. destruct (Hg c) as [-> | ->]; [reflexivity | now apply ascii_lower_eqb].
Qed.

Lemma case_map_not_upper : forall g, case_map g -> forall c, is_upper c = false -> g c = c.
Proof.
  intros g Hg c Hc. destruct (Hg c) as [-> | ->]; [reflexivity |].
  unfold ascii_lower. now rewrite Hc.
Qed.

Lemma ParseHexOctet_escape : forall g b rest,
  case_map g -> b < 256 ->
  ParseHexOctet (map g (tl (percent_encode_byte b)) ++ rest) = Some (b, rest).
Proof.
  intros g b rest Hg Hb. cbn [percent_encode_byte tl map app ParseHexOctet].
  rewrite !(case_map_hex g Hg).
  euclid b 16.
  rewrite !hex_value_hex_digit by lia. f_equal. f_equal. lia.
Qed.

Lemma case_map_percent : forall g, case_map g -> g 37 = 37.
Proof. intros g Hg. now apply case_map_not_upper. Qed.

Lemma map_escape : forall g b rest,
  case_map g ->
  map g (percent_encode_byte b) ++ rest
  = 37 :: map g (tl (percent_encode_byte b)) ++ rest.
Proof. intros g b rest Hg. cbn [percent_encode_byte map tl app]. now rewrite case_map_percent. Qed.

(** One step of the decoder on an escape. *)
Lemma Decode_escape : forall g b rest fuel,
  case_map g -> b < 256 ->
  Decode (S fuel) (map g (percent_encode_byte b) ++ rest)
  = match leading_ones b with
    | O => r <- Decode fuel rest ;; ret (b :: r)
    | 1%nat => Throw URIError
    | S n =>
        if 4 <? N.of_nat (S n) then Throw URIError
        else match continuation n rest with
             | None => Throw URIError
             | Some (octets, rest2) =>
                 match utf8_code_point b octets with
                 | None => Throw URIError
                 | Some v => r <- Decode fuel rest2 ;; ret (UTF16EncodeCodePoint v ++ r)
                 end
             end
    end.
Proof.
  intros g b rest fuel Hg Hb. rewrite map_escape by assumption.
  cbn [Decode]. replace (37 =? 37) with true by reflexivity.
  now rewrite ParseHexOctet_escape.
Qed.

Lemma continuation_escape : forall g b rest n,
  case_map g -> b < 256 ->
  continuation (S n) (map g (percent_encode_byte b) ++ rest)
  = match continuation n rest with
    | Some (bs, rest') => Some (b :: bs, rest')
    | None => None
    end.
Proof.
  intros g b rest n Hg Hb. rewrite map_escape by assumption.
  cbn [continuation]. replace (37 =? 37) with true by reflexivity.
  now rewrite ParseHexOctet_escape.
Qed.

(** The decoder reads the escapes of a code point back. *)
Lemma Decode_code_point : forall g v rest fuel,
  case_map g -> scalar_value v ->
  Decode (S fuel) (map g (flat_map percent_encode_byte (utf8_encode v)) ++ rest)
  = (r <- Decode fuel rest ;; ret (UTF16EncodeCodePoint v ++ r)).
Proof.
  intros g v rest fuel Hg [Hv Hs]. unfold utf8_encode.
  destruct (N.ltb_spec v 0x80) as [H1 | H1].
  { cbn [flat_map]. rewrite app_nil_r, Decode_escape by (assumption || lia).
    unfold leading_ones. destruct (N.ltb_spec v 0x80); [| lia].
    unfold UTF16EncodeCodePoint. destruct (N.leb_spec v 0xFFFF); [reflexivity | lia]. }
  destruct (N.ltb_spec v 0x800) as [H2 | H2].
  { euclid v 64. cbn [flat_map]. rewrite app_nil_r, map_app, <- app_assoc.
    rewrite Decode_escape by (assumption || lia).
    assert (L : leading_ones (0xC0 + q) = 2%nat) by (unfold leading_ones; by_cases; lia).
    rewrite L. cbn [N.of_nat Pos.of_succ_nat Pos.succ N.ltb N.compare Pos.compare Pos.compare_cont].
    rewrite continuation_escape by (assumption || lia). cbn [continuation].
    unfold utf8_code_point. cbn [forallb fold_left].
    replace ((0xC0 + q - 0xC0) * 64 + (0x80 + r - 0x80)) with v by lia.
    unfold is_continuation_byte, in_range, UTF16EncodeCodePoint.
    by_cases; try lia; reflexivity. }
  destruct (N.ltb_spec v 0x10000) as [H3 | H3].
  { replace (v / 4096) with (v / 64 / 64) by (rewrite N.Div0.div_div; reflexivity).
    euclid v 64. euclid q 64. cbn [flat_map]. rewrite app_nil_r, !map_app, <- !app_assoc.
    rewrite Decode_escape by (assumption || lia).
    assert (L : leading_ones (0xE0 + q0) = 3%nat) by (unfold leading_ones; by_cases; lia).
    rewrite L. cbn [N.of_nat Pos.of_succ_nat Pos.succ N.ltb N.compare Pos.compare Pos.compare_cont].
    rewrite !continuation_escape by (assumption || lia). cbn [continuation].
    unfold utf8_code_point. cbn [forallb fold_left].
    replace (((0xE0 + q0 - 0xE0) * 64 + (0x80 + r0 - 0x80)) * 64 + (0x80 + r - 0x80))
      with v by lia.
    unfold is_continuation_byte, in_range, UTF16EncodeCodePoint.
    by_cases; try lia; reflexivity. }
  replace (v / 262144) with (v / 64 / 64 / 64) by (rewrite !N.Div0.div_div; reflexivity).
  replace (v / 4096) with (v / 64 / 64) by (rewrite N.Div0.div_div; reflexivity).
  euclid v 64. euclid q 64. euclid q0 64.
  replace (q1 mod 8) with q1 by (symmetry; apply N.mod_small; lia).
  cbn [flat_map]. rewrite app_nil_r, !map_app, <- !app_assoc.
  rewrite Decode_escape by (assumption || lia).
  assert (L : leading_ones (0xF0 + q1) = 4%nat) by (unfold leading_ones; by_cases; lia).
  rewrite L. cbn [N.of_nat Pos.of_succ_nat Pos.succ N.ltb N.compare Pos.compare Pos.compare_cont].
  rewrite !continuation_escape by (assumption || lia). cbn [continuation].
  unfold utf8_code_point. cbn [forallb fold_left].
  replace ((((0xF0 + q1 - 0xF0) * 64 + (0x80 + r1 - 0x80)) * 64 + (0x80 + r0 - 0x80)) * 64
           + (0x80 + r - 0x80))
    with v by lia.
  unfold is_continuation_byte, in_range, UTF16EncodeCodePoint.
  by_cases; try lia; reflexivity.
Qed.

Lemma uriUnescaped_ascii : forall c, uriUnescaped c = true -> c < 0x80 /\ c <> 37 /\ c <> 0.
Proof.
  intros c. unfold uriUnescaped, is_alnum, is_alpha, is_upper, is_lower, is_digit, in_range.
  cbn [existsb]. by_cases; try lia; discriminate.
Qed.

Lemma upper_uriUnescaped : forall c, is_upper c = true -> uriUnescaped c = true.
Proof. intros c E. unfold uriUnescaped, is_alnum, is_alpha. now rewrite E. Qed.

Lemma escaped_case_map : forall g c, case_map g -> uriUnescaped c = false -> g c = c.
Proof.
  intros g c Hg Hc. apply case_map_not_upper; [assumption |].
  destruct (is_upper c) eqn:E; [| reflexivity].
  apply upper_uriUnescaped in E. congruence.
Qed.

Lemma escapes_length : forall v,
  (3 <= List.length (flat_map percent_encode_byte (utf8_encode v)))%nat.
Proof.
  intros v. unfold utf8_encode.
  destruct (v <? 0x80); [cbn; lia |].
  destruct (v <? 0x800); [cbn; lia |].
  destruct (v <? 0x10000); cbn; lia.
Qed.

Lemma Encode_cons : forall c rest,
  Encode (c :: rest)
  = if uriUnescaped c then r <- Encode rest ;; ret (c :: r)
    else if in_range 0xDC00 0xDFFF c then Throw URIError
    else if in_range 0xD800 0xDBFF c then
      match rest with
      | d :: rest' =>
          if in_range 0xDC00 0xDFFF d then
            r <- Encode rest' ;;
            ret (flat_map percent_encode_byte
                   (utf8_encode (0x10000 + (c - 0xD800) * 0x400 + (d - 0xDC00))) ++ r)
          else Throw URIError
      | [] => Throw URIError
      end
    else r <- Encode rest ;; ret (flat_map percent_encode_byte (utf8_encode c) ++ r).
Proof. reflexivity. Qed.

Lemma Normal_inj : forall (A : Type) (a b : A), ret a = ret b -> a = b.
Proof. intros A a b E. now injection E. Qed.

Lemma in_range_true : forall lo hi c, in_range lo hi c = true <-> lo <= c <= hi.
Proof. intros lo hi c. unfold in_range. rewrite andb_true_iff, !N.leb_le. tauto. Qed.

Lemma in_range_false : forall lo hi c, in_range lo hi c = false <-> c < lo \/ hi < c.
Proof. intros lo hi c. unfold in_range. rewrite andb_false_iff, !N.leb_gt. tauto. Qed.

(** Decoding reads an encoded string back; a conversion of case in between
    changes the letters that were not escaped and nothing else. *)
Lemma Decode_Encode : forall g, case_map g -> forall n s e fuel,
  (List.length s <= n)%nat -> code_units s -> Encode s = ret e ->
  (List.length e <= fuel)%nat -> Decode fuel (map g e) = ret (map g s).
Proof.
  intros g Hg n. induction n as [| n IH]; intros s e fuel Hn Hs He Hfuel.
  { destruct s; [| simpl in Hn; lia]. apply Normal_inj in He. subst e. now destruct fuel. }
  destruct s as [| c rest]; [apply Normal_inj in He; subst e; now destruct fuel |].
  rewrite Encode_cons in He. inversion Hs as [| ? ? Hc Hrest]; subst.
  cbn [List.length] in Hn.
  destruct (uriUnescaped c) eqn:Eu.
  { destruct (Encode rest) as [r |] eqn:Er; [| discriminate].
    unfold bind in He. apply Normal_inj in He. subst e.
    destruct fuel as [| fuel]; [simpl in Hfuel; lia |].
    cbn [map Decode List.length] in *.
    rewrite (case_map_eqb g Hg) by reflexivity.
    apply uriUnescaped_ascii in Eu. destruct (N.eqb_spec c 37); [lia |].
    rewrite (IH rest r fuel); [reflexivity | lia | exact Hrest | exact Er | lia]. }
  destruct (in_range 0xDC00 0xDFFF c) eqn:Elow; [discriminate |].
  apply in_range_false in Elow.
  destruct (in_range 0xD800 0xDBFF c) eqn:Ehigh.
  - apply in_range_true in Ehigh.
    destruct rest as [| d rest']; [discriminate |].
    destruct (in_range 0xDC00 0xDFFF d) eqn:Ed; [| discriminate].
    apply in_range_true in Ed.
    destruct (Encode rest') as [r |] eqn:Er; [| discriminate].
    unfold bind in He. apply Normal_inj in He. subst e.
    inversion Hrest as [| ? ? Hd Hrest']; subst.
    assert (Ud : is_upper d = false) by (apply in_range_false; lia).
    assert (Uc : is_upper c = false) by (apply in_range_false; lia).
    remember (0x10000 + (c - 0xD800) * 0x400 + (d - 0xDC00)) as v eqn:Ev.
    pose proof (escapes_length v) as Hlen.
    rewrite length_app in Hfuel.
    destruct fuel as [| fuel]; [lia |].
    rewrite map_app, Decode_code_point; [| assumption | unfold scalar_value; lia].
    cbn [List.length] in Hn.
    rewrite (IH rest' r fuel); [| lia | exact Hrest' | exact Er | lia].
    cbn [bind map].
    rewrite !(case_map_not_upper g Hg) by assumption.
    f_equal. unfold UTF16EncodeCodePoint.
    destruct (N.leb_spec v 0xFFFF); [lia |].
    euclid (v - 0x10000) 0x400.
    replace (55296 + q) with c by lia. replace (56320 + r0) with d by lia. reflexivity.
  - apply in_range_false in Ehigh.
    destruct (Encode rest) as [r |] eqn:Er; [| discriminate].
    unfold bind in He. apply Normal_inj in He. subst e.
    pose proof (escapes_length c) as Hlen.
    rewrite length_app in Hfuel.
    destruct fuel as [| fuel]; [lia |].
    rewrite map_app, Decode_code_point; [| assumption | unfold scalar_value; lia].
    rewrite (IH rest r fuel); [| lia | exact Hrest | exact Er | lia]. cbn [bind map].
    rewrite (escaped_case_map g c Hg Eu).
    unfold UTF16EncodeCodePoint. destruct (N.leb_spec c 0xFFFF); [reflexivity | lia].
Qed.

Lemma case_map_id : case_map (fun c => c).
Proof. intros c. now left. Qed.

Lemma case_map_lower : case_map ascii_lower.
Proof. intros c. now right. Qed.

Lemma hex_digit_unescaped : forall n, n < 16 -> uriUnescaped (hex_digit n) = true.
Proof.
  intros n Hn. unfold hex_digit.
  destruct (N.ltb_spec n 10);
    unfold uriUnescaped, is_alnum, is_alpha, is_upper, is_lower, is_digit, in_range;
    cbn [existsb]; by_cases; try lia; reflexivity.
Qed.

Lemma escapes_uri_chars : forall v,
  forallb uri_char (flat_map percent_encode_byte (utf8_encode v)) = true.
Proof.
  intros v. apply forallb_forall. intros x Hx.
  apply in_flat_map in Hx as [b [Hb Hx]].
  apply utf8_encode_octets in Hb.
  unfold percent_encode_byte in Hx. euclid b 16.
  assert (q < 16) by lia.
  unfold uri_char. cbn [In] in Hx.
  destruct Hx as [<- | [<- | [<- | []]]];
    [reflexivity | |]; now rewrite hex_digit_unescaped.
Qed.

Lemma Encode_uri_chars : forall n s e,
  (List.length s <= n)%nat -> Encode s = ret e -> forallb uri_char e = true.
Proof.
  induction n as [| n IH]; intros s e Hn He.
  { destruct s; [| simpl in Hn; lia]. apply Normal_inj in He. now subst e. }
  destruct s as [| c rest]; [apply Normal_inj in He; now subst e |].
  rewrite Encode_cons in He. cbn [List.length] in Hn.
  destruct (uriUnescaped c) eqn:Eu.
  { destruct (Encode rest) as [r |] eqn:Er; [| discriminate].
    unfold bind in He. apply Normal_inj in He. subst e.
    cbn [forallb]. unfold uri_char at 1. rewrite Eu. cbn [orb andb].
    apply (IH rest); [lia | exact Er]. }
  destruct (in_range 0xDC00 0xDFFF c); [discriminate |].
  destruct (in_range 0xD800 0xDBFF c).
  - destruct rest as [| d rest']; [discriminate |].
    destruct (in_range 0xDC00 0xDFFF d); [| discriminate].
    destruct (Encode rest') as [r |] eqn:Er; [| discriminate].
    unfold bind in He. apply Normal_inj in He. subst e.
    rewrite forallb_app, escapes_uri_chars. cbn [andb List.length] in *.
    apply (IH rest'); [lia | exact Er].
  - destruct (Encode rest) as [r |] eqn:Er; [| discriminate].
    unfold bind in He. apply Normal_inj in He. subst e.
    rewrite forallb_app, escapes_uri_chars. cbn [andb].
    apply (IH rest); [lia | exact Er].
Qed.

Lemma uri_char_range : forall c, uri_char c = true -> 0x21 <= c <= 0x7E.
Proof.
  intros c E. unfold uri_char in E. apply orb_true_iff in E as [E | E].
  - destruct (uriUnescaped_ascii c E) as [E1 _].
    destruct (N.leb_spec 0x7F c) as [Hhi | Hhi]; [| destruct (N.leb_spec 0x21 c); [lia |]];
      exfalso; revert E;
      unfold uriUnescaped, is_alnum, is_alpha, is_upper, is_lower, is_digit, in_range;
      cbn [existsb]; settle; discriminate.
  - apply N.eqb_eq in E. lia.
Qed.

Lemma uri_char_facts : forall c,
  uri_char c = true -> is_ascii c = true /\ is_whitespace c = false /\ c < 0x10000.
Proof.
  intros c E. apply uri_char_range in E.
  unfold is_ascii, is_whitespace, in_range. settle. repeat split. lia.
Qed.

Lemma uri_chars_ascii : forall e, forallb uri_char e = true -> forallb is_ascii e = true.
Proof.
  intros e He. apply forallb_forall. intros c Hc.
  now apply uri_char_facts, (proj1 (forallb_forall _ _) He).
Qed.

Lemma uri_chars_code_units : forall e, forallb uri_char e = true -> code_units e.
Proof.
  intros e He. apply Forall_forall. intros c Hc.
  now apply uri_char_facts, (proj1 (forallb_forall _ _) He).
Qed.

(** ** Trimming *)

Lemma trimStart_keeps : forall c s, is_whitespace c = false -> trimStart (c :: s) = c :: s.
Proof. intros c s E. cbn [trimStart]. now rewrite E. Qed.

Lemma trimStart_app : forall a c b,
  is_whitespace c = false -> trimStart (a ++ c :: b) = trimStart a ++ c :: b.
Proof.
  induction a as [| x a IH]; intros c b E.
  - cbn [app]. now rewrite trimStart_keeps.
  - cbn [app trimStart]. destruct (is_whitespace x); [now apply IH | reflexivity].
Qed.

Lemma trimEnd_app : forall a c b,
  is_whitespace c = false -> trimEnd (a ++ c :: b) = a ++ c :: trimEnd b.
Proof.
  intros a c b E. unfold trimEnd.
  rewrite rev_app_distr. cbn [rev]. rewrite <- app_assoc. cbn [app].
  rewrite trimStart_app by assumption.
  rewrite rev_app_distr. cbn [rev]. rewrite rev_involutive, <- app_assoc. reflexivity.
Qed.

Lemma trimStart_head : forall s,
  match trimStart s with [] => True | c :: _ => is_whitespace c = false end.
Proof.
  induction s as [| x s IH]; [exact I |].
  cbn [trimStart]. destruct (is_whitespace x) eqn:E; [exact IH | exact E].
Qed.

Lemma trimStart_idem : forall s, trimStart (trimStart s) = trimStart s.
Proof.
  intros s. pose proof (trimStart_head s) as Hh.
  destruct (trimStart s) as [| c t]; [reflexivity | now apply trimStart_keeps].
Qed.

Lemma trimEnd_idem : forall s, trimEnd (trimEnd s) = trimEnd s.
Proof. intros s. unfold trimEnd. now rewrite rev_involutive, trimStart_idem. Qed.

Lemma trim_head : forall s,
  match trim s with [] => True | c :: _ => is_whitespace c = false end.
Proof.
  intros s. unfold trim. pose proof (trimStart_head s) as Hh.
  destruct (trimStart s) as [| c t]; [exact I |].
  pose proof (trimEnd_app [] c t Hh) as E. cbn [app] in E. rewrite E. exact Hh.
Qed.

(** Trimming twice is trimming once. *)
Lemma trim_idem : forall s, trim (trim s) = trim s.
Proof.
  intros s. pose proof (trim_head s) as Hh. unfold trim at 1.
  destruct (trim s) as [| c t] eqn:E; [reflexivity |].
  rewrite trimStart_keeps by assumption. rewrite <- E. unfold trim. apply trimEnd_idem.
Qed.

Lemma trimStart_all : forall s, forallb (fun c => negb (is_whitespace c)) s = true -> trimStart s = s.
Proof.
  intros [| c s] E; [reflexivity |]. cbn [forallb] in E.
  apply andb_true_iff in E as [E _]. apply negb_true_iff in E. now apply trimStart_keeps.
Qed.

(** A string without white space is its own trimming. *)
Lemma trim_all : forall s, forallb (fun c => negb (is_whitespace c)) s = true -> trim s = s.
Proof.
  intros s E. unfold trim, trimEnd. rewrite (trimStart_all s E).
  rewrite trimStart_all; [apply rev_involutive |].
  apply forallb_forall. intros c Hc. apply in_rev in Hc.
  now apply (proj1 (forallb_forall _ _) E).
Qed.

(** ** The decoding loop *)

Lemma plain_char_lower : forall c, plain_char (ascii_lower c) = plain_char c.
Proof. intros c. unfold plain_char. now rewrite !ascii_lower_eqb by reflexivity. Qed.

(** The decoder copies what stands before the first percent sign. *)
Lemma Decode_plain_prefix : forall p r fuel,
  forallb plain_char p = true ->
  Decode (List.length p + fuel) (p ++ r) = (d <- Decode fuel r ;; ret (p ++ d)).
Proof.
  induction p as [| c p IH]; intros r fuel Hp.
  - cbn [List.length app plus]. now destruct (Decode fuel r).
  - cbn [forallb] in Hp. apply andb_true_iff in Hp as [Hc Hp].
    cbn [List.length app plus Decode].
    unfold plain_char in Hc. apply andb_true_iff in Hc as [Hc _].
    apply negb_true_iff in Hc. rewrite Hc.
    rewrite IH by assumption. now destruct (Decode fuel r).
Qed.

Lemma decodeURIComponent_prefix : forall p r once,
  forallb plain_char p = true ->
  decodeURIComponent (p ++ r) = ret once -> exists r', once = p ++ r'.
Proof.
  intros p r once Hp E. unfold decodeURIComponent in E.
  rewrite length_app, Decode_plain_prefix in E by assumption.
  destruct (Decode (List.length r) r) as [d |]; [| discriminate].
  apply Normal_inj in E. now exists d.
Qed.

Lemma decode_loop_prefix : forall (H : Host) rounds p r,
  forallb plain_char p = true -> exists r', decode_loop rounds (p ++ r) = p ++ r'.
Proof.
  intros H rounds p. induction rounds as [| rounds IH]; intros r Hp.
  - now exists r.
  - cbn [decode_loop].
    destruct (decodeURIComponent (p ++ r)) as [once |] eqn:E; [| now exists r].
    destruct (jseq once (p ++ r)); [now exists r |].
    destruct (decodeURIComponent_prefix p r once Hp E) as [r' ->].
    now apply IH.
Qed.

Lemma filter_plain_prefix : forall p r,
  forallb plain_char p = true ->
  filter (fun c => negb (c =? 0x00)) (p ++ r) = p ++ filter (fun c => negb (c =? 0x00)) r.
Proof.
  intros p r Hp. rewrite filter_app. f_equal. apply filter_all.
  apply forallb_forall. intros c Hc.
  apply (proj1 (forallb_forall _ _) Hp) in Hc. unfold plain_char in Hc.
  now apply andb_true_iff in Hc.
Qed.

(** The decoded string keeps what stands before the first percent sign or
    NUL of the lower-cased content. *)
Lemma normalize_prefix : forall (H : Host) trimmed p r,
  toLowerCase trimmed = p ++ r -> forallb plain_char p = true ->
  exists r', normalize trimmed = p ++ r'.
Proof.
  intros H trimmed p r E Hp. unfold normalize. rewrite E.
  destruct (decode_loop_prefix H 3 p r Hp) as [r' ->].
  rewrite filter_plain_prefix by assumption. eauto.
Qed.

Lemma decode_loop_fixed : forall (H : Host) rounds decoded,
  decodeURIComponent decoded = ret decoded -> decode_loop rounds decoded = decoded.
Proof.
  intros H [| rounds] decoded E; [reflexivity |].
  cbn [decode_loop]. now rewrite E, jseq_refl.
Qed.

(** A round that decodes is a round of the loop, also when it changes
    nothing. *)
Lemma decode_loop_step : forall (H : Host) rounds decoded once,
  decodeURIComponent decoded = ret once ->
  decode_loop (S rounds) decoded = decode_loop rounds once.
Proof.
  intros H rounds decoded once E. cbn [decode_loop]. rewrite E.
  destruct (jseq once decoded) eqn:Ej; [| reflexivity].
  apply jseq_eq in Ej. subst once. symmetry. now apply decode_loop_fixed.
Qed.

(** ** Patterns at the head of a string *)

Lemma match_literal_i_split : forall literal s after,
  match_literal_i literal s = Some after ->
  exists p, s = p ++ after /\ map ascii_lower p = map ascii_lower literal.
Proof.
  induction literal as [| l literal IH]; intros s after E.
  - injection E as <-. now exists [].
  - destruct s as [| c s]; [discriminate |]. cbn [match_literal_i] in E.
    destruct (N.eqb_spec (ascii_lower c) (ascii_lower l)) as [Ec |]; [| discriminate].
    destruct (IH s after E) as [p [-> Hp]].
    exists (c :: p). cbn [app map]. now rewrite Ec, Hp.
Qed.

Lemma match_literal_i_intro : forall literal p rest,
  map ascii_lower p = map ascii_lower literal ->
  match_literal_i literal (p ++ rest) = Some rest.
Proof.
  induction literal as [| l literal IH]; intros p rest E.
  - destruct p; [reflexivity | discriminate].
  - destruct p as [| c p]; [discriminate |]. cbn [map] in E. injection E as Ec E.
    cbn [app match_literal_i]. rewrite Ec, N.eqb_refl. now apply IH.
Qed.

Lemma plain_chars_lower : forall s,
  forallb plain_char (map ascii_lower s) = forallb plain_char s.
Proof.
  induction s as [| c s IH]; [reflexivity |].
  cbn [map forallb]. now rewrite plain_char_lower, IH.
Qed.

Lemma plain_of_literal : forall literal p,
  map ascii_lower p = map ascii_lower literal ->
  forallb plain_char literal = true -> forallb plain_char p = true.
Proof.
  intros literal p E Hl. now rewrite <- plain_chars_lower, E, plain_chars_lower.
Qed.

(** A pattern of literal alternatives that holds at the head of a string
    holds of every string with the same head. *)
Lemma test_prefix_i_prefix : forall alternatives s,
  forallb (forallb plain_char) alternatives = true ->
  test_prefix_i alternatives s = true ->
  exists p r, s = p ++ r /\ forallb plain_char p = true
              /\ forall r', test_prefix_i alternatives (p ++ r') = true.
Proof.
  intros alternatives s Hplain E. unfold test_prefix_i in E.
  apply existsb_exists in E as [alt [Hin E]].
  destruct (match_literal_i alt s) as [after |] eqn:Em; [| discriminate].
  destruct (match_literal_i_split alt s after Em) as [p [-> Hp]].
  exists p, after. split; [reflexivity |]. split.
  - apply (plain_of_literal alt); [assumption |].
    now apply (proj1 (forallb_forall _ _) Hplain).
  - intros r'. unfold test_prefix_i. apply existsb_exists. exists alt.
    split; [assumption |]. now rewrite match_literal_i_intro.
Qed.

Lemma test_prefix_i_normalize : forall (H : Host) alternatives trimmed,
  forallb (forallb plain_char) alternatives = true ->
  test_prefix_i alternatives (toLowerCase trimmed) = true ->
  test_prefix_i alternatives (normalize trimmed) = true.
Proof.
  intros H alternatives trimmed Hplain E.
  destruct (test_prefix_i_prefix _ _ Hplain E) as [p [r [Es [Hp Hall]]]].
  destruct (normalize_prefix H trimmed p r Es Hp) as [r' ->]. apply Hall.
Qed.

(** The first two code units, lower-cased, of a string that a literal
    matches. *)
Lemma match_literal_i_head : forall l1 l2 literal s,
  match_literal_i (l1 :: l2 :: literal) s <> None ->
  exists c1 c2 rest, s = c1 :: c2 :: rest
                     /\ ascii_lower c1 = ascii_lower l1 /\ ascii_lower c2 = ascii_lower l2.
Proof.
  intros l1 l2 literal [| c1 [| c2 rest]] E; cbn [match_literal_i] in E.
  - congruence.
  - destruct (ascii_lower c1 =? ascii_lower l1); congruence.
  - destruct (N.eqb_spec (ascii_lower c1) (ascii_lower l1)); [| congruence].
    destruct (N.eqb_spec (ascii_lower c2) (ascii_lower l2)); [| congruence].
    now exists c1, c2, rest.
Qed.

(** No string matches both protocol patterns. *)
Lemma risky_not_unsafe : forall s,
  riskyProtocolPattern s = true -> unsafeProtocolPattern s = false.
Proof.
  intros s Hr. destruct (unsafeProtocolPattern s) eqn:Hu; [exfalso | reflexivity].
  unfold riskyProtocolPattern, unsafeProtocolPattern, test_prefix_i in *.
  apply existsb_exists in Hr as [risky [Hin1 Hr]].
  apply existsb_exists in Hu as [unsafe [Hin2 Hu]].
  assert (Hr' : match_literal_i risky s <> None) by (destruct (match_literal_i risky s); congruence).
  assert (Hu' : match_literal_i unsafe s <> None) by (destruct (match_literal_i unsafe s); congruence).
  clear Hr Hu. unfold unsafeSchemes in Hin2. cbn [In] in Hin1, Hin2.
  repeat (destruct Hin1 as [<- | Hin1]); try contradiction;
    apply match_literal_i_head in Hr' as [c1 [c2 [rest [-> [E1 E2]]]]];
    repeat (destruct Hin2 as [<- | Hin2]); try contradiction;
    apply match_literal_i_head in Hu' as [d1 [d2 [rest' [E [F1 F2]]]]];
    injection E as <- <- <-;
    rewrite E1 in F1; rewrite E2 in F2;
    first [vm_compute in F1; discriminate | vm_compute in F2; discriminate].
Qed.

(** ** White space around the content *)

(** X1. The verdict of a content is the verdict of the trimmed content:
    white space and line terminators around the content change nothing, for
    every input type and flag. *)
Theorem trim_invariance :
  forall (H : Host) (inputType content : jsstring) (isVerifiedUser : bool),
    validateInputSafety inputType (JsString content) isVerifiedUser
    = validateInputSafety inputType (JsString (trim content)) isVerifiedUser.
Proof.
  intros H t s b. unfold validateInputSafety.
  cbn [ToBoolean typeof_string call_trim bind negb]. rewrite trim_idem.
  destruct (is_empty s) eqn:E1.
  - rewrite (trim_nil_of_empty s E1). reflexivity.
  - destruct (is_empty (trim s)) eqn:E2; reflexivity.
Qed.

(** ** The protocol rules *)

Lemma nonUrlTypes_false : forall t, ~ In t nonUrlTypes -> includes nonUrlTypes t = false.
Proof.
  intros t Ht. destruct (includes nonUrlTypes t) eqn:E; [| reflexivity].
  apply includes_In in E. contradiction.
Qed.

Section RawContent.
Context {H : Host}.

Lemma unsafe_on_raw_content : forall inputType content isVerifiedUser,
  ~ In inputType nonUrlTypes -> trim content <> [] ->
  unsafeProtocolPattern (toLowerCase (trim content)) = true ->
  validateInputSafety inputType (JsString content) isVerifiedUser
  = ret verdict_UNSAFE_PROTOCOL.
Proof.
  intros t s b Ht Hs Hp. apply nonUrlTypes_false in Ht.
  unfold validateInputSafety; enter s Hs; rewrite Ht.
  unfold unsafeProtocolPattern in *.
  rewrite test_prefix_i_normalize; [reflexivity | reflexivity | exact Hp].
Qed.

Lemma risky_on_raw_content : forall inputType content isVerifiedUser,
  ~ In inputType nonUrlTypes -> trim content <> [] ->
  riskyProtocolPattern (toLowerCase (trim content)) = true ->
  validateInputSafety inputType (JsString content) isVerifiedUser
  = ret verdict_RISKY_PROTOCOL.
Proof.
  intros t s b Ht Hs Hp. apply nonUrlTypes_false in Ht.
  unfold validateInputSafety; enter s Hs; rewrite Ht.
  assert (Hr : riskyProtocolPattern (normalize (trim s)) = true).
  { unfold riskyProtocolPattern in *.
    apply test_prefix_i_normalize; [reflexivity | exact Hp]. }
  rewrite (risky_not_unsafe _ Hr), Hr. reflexivity.
Qed.

End RawContent.

(** X2. For an input type that is not exempt and content that is not
    blank, the protocol rules look at the beginning of the lower-cased
    content, whatever follows and whatever decoding makes of it: an unsafe
    scheme there gives block with UNSAFE_PROTOCOL, a risky scheme gives
    warn with RISKY_PROTOCOL, also when the rest names an executable. *)
Theorem protocol_rules_on_raw_content :
  forall (H : Host) (inputType content : jsstring) (isVerifiedUser : bool),
    ~ In inputType nonUrlTypes ->
    trim content <> [] ->
    (unsafeProtocolPattern (toLowerCase (trim content)) = true ->
     validateInputSafety inputType (JsString content) isVerifiedUser
     = ret verdict_UNSAFE_PROTOCOL)
    /\ (riskyProtocolPattern (toLowerCase (trim content)) = true ->
        validateInputSafety inputType (JsString content) isVerifiedUser
        = ret verdict_RISKY_PROTOCOL).
Proof.
  intros H t s b Ht Hs. split; intros Hp.
  - now apply unsafe_on_raw_content.
  - now apply risky_on_raw_content.
Qed.

Lemma protocol_rules_on_raw_content_witness :
  ~ In (str "URL") nonUrlTypes
  /\ trim (str "FTP://example.com/setup.exe") <> []
  /\ riskyProtocolPattern
       (toLowerCase (Host := AsciiHost) (trim (str "FTP://example.com/setup.exe"))) = true
  /\ validateInputSafety (H := AsciiHost) (str "URL")
       (JsString (str "FTP://example.com/setup.exe")) false
     = ret verdict_RISKY_PROTOCOL.
Proof.
  assert (H1 : ~ In (str "URL") nonUrlTypes).
  { intros Hin. apply includes_In in Hin. vm_compute in Hin. discriminate. }
  assert (H2 : trim (str "FTP://example.com/setup.exe") <> []) by (vm_compute; discriminate).
  assert (H3 : riskyProtocolPattern
                 (toLowerCase (Host := AsciiHost) (trim (str "FTP://example.com/setup.exe")))
               = true) by reflexivity.
  split; [exact H1 |]. split; [exact H2 |]. split; [exact H3 |].
  exact (proj2 (protocol_rules_on_raw_content AsciiHost (str "URL")
                  (str "FTP://example.com/setup.exe") false H1 H2) H3).
Defined.

(** ** The verdict ok *)

Lemma match_literal_i_app_literal : forall l1 l2 s,
  match_literal_i (l1 ++ l2) s <> None -> match_literal_i l1 s <> None.
Proof.
  induction l1 as [| l l1 IH]; intros l2 s E; [discriminate |].
  destruct s as [| c s]; cbn [app match_literal_i] in *; [congruence |].
  destruct (ascii_lower c =? ascii_lower l); [now apply (IH l2) | congruence].
Qed.

Lemma ftp_is_risky : forall s,
  test_prefix_i [str "ftp://"] s = true -> riskyProtocolPattern s = true.
Proof.
  intros s E. unfold test_prefix_i in E. cbn [existsb] in E. rewrite orb_false_r in E.
  assert (M : match_literal_i (str "ftp:") s <> None).
  { apply (match_literal_i_app_literal (str "ftp:") (str "//")).
    change (str "ftp:" ++ str "//") with (str "ftp://").
    destruct (match_literal_i (str "ftp://") s); congruence. }
  unfold riskyProtocolPattern, test_prefix_i. cbn [existsb].
  destruct (match_literal_i (str "ftp:") s); [reflexivity | congruence].
Qed.

Lemma https_is_url_like : forall s,
  startsWith s (str "https://") = true ->
  test_prefix_i [str "https://"; str "http://"] s = true.
Proof.
  intros s E. apply startsWith_match_literal_i in E.
  unfold test_prefix_i. cbn [existsb].
  destruct (match_literal_i (str "https://") s); [reflexivity | congruence].
Qed.

(** X3. For an input type that is not exempt, the verdict ok is given only
    to string content whose decoded form starts with [http://] or [https://]
    in some case and not with [http://] as written, which no protocol rule
    and not the hidden-executable pattern matches, and whose extension is
    not a blocked, archive or macro extension.  In particular the
    alternative [ftp://] of the URL test never leads to ok. *)
Theorem ok_only_for_web_links :
  forall (H : Host) (inputType : jsstring) (content : value) (isVerifiedUser : bool)
         (v : Verdict),
    ~ In inputType nonUrlTypes ->
    validateInputSafety inputType content isVerifiedUser = ret v ->
    status v = str "ok" ->
    exists s extension,
      content = JsString s
      /\ test_prefix_i [str "https://"; str "http://"] (normalize (trim s)) = true
      /\ startsWith (normalize (trim s)) (str "http://") = false
      /\ unsafeProtocolPattern (normalize (trim s)) = false
      /\ riskyProtocolPattern (normalize (trim s)) = false
      /\ hiddenExecutablePattern (normalize (trim s)) = false
      /\ extract_extension (normalize (trim s)) = ret extension
      /\ ~ In extension (blockedExtensions ++ archiveExtensions ++ macroEnabledDocs)
      /\ check_domain (normalize (trim s)) = ret None.
Proof.
  intros H t c b v Ht Hv Hok. apply nonUrlTypes_false in Ht.
  unfold validateInputSafety in Hv.
  assert (Hleaf : forall v0 : Verdict,
             status v0 <> str "ok" -> ret v0 = ret v -> False).
  { intros v0 Hne E. apply Normal_inj in E. subst v0. contradiction. }
  destruct c as [| | x | n | s |];
    cbn [ToBoolean typeof_string call_trim bind negb] in Hv;
    try solve [exfalso; revert Hv; apply Hleaf; literal].
  - exfalso. destruct x; cbn [negb bind] in Hv; revert Hv; apply Hleaf; literal.
  - exfalso. destruct (n =? 0); cbn [negb bind] in Hv; revert Hv; apply Hleaf; literal.
  - destruct (is_empty s); cbn [negb bind] in Hv;
      [exfalso; revert Hv; apply Hleaf; literal |].
    destruct (is_empty (trim s)); cbn [negb bind] in Hv;
      [exfalso; revert Hv; apply Hleaf; literal |].
    rewrite Ht in Hv.
    destruct (unsafeProtocolPattern _) eqn:Eunsafe;
      [exfalso; revert Hv; apply Hleaf; literal |].
    destruct (riskyProtocolPattern _) eqn:Erisky;
      [exfalso; revert Hv; apply Hleaf; literal |].
    destruct (extract_extension_normal (normalize (trim s))) as [ext Hext].
    rewrite Hext in Hv. cbn [bind] in Hv.
    destruct (hiddenExecutablePattern (normalize (trim s))) eqn:Ehidden;
      [exfalso; revert Hv; apply Hleaf; literal |].
    destruct (includes blockedExtensions ext) eqn:Eblocked;
      [exfalso; revert Hv; apply Hleaf; literal |].
    destruct (includes archiveExtensions ext) eqn:Earchive;
      [exfalso; destruct b; cbn [negb] in Hv; revert Hv; apply Hleaf; literal |].
    destruct (includes macroEnabledDocs ext) eqn:Emacro;
      [exfalso; revert Hv; apply Hleaf; literal |].
    destruct (check_domain_normal (normalize (trim s)))
      as [Ed | [v0 [Ed [Hs [Hr Hm]]]]]; rewrite Ed in Hv; cbn [bind] in Hv.
    + destruct (startsWith (normalize (trim s)) (str "http://")) eqn:Ehttp;
        [exfalso; revert Hv; apply Hleaf; literal |].
      destruct (isUrlLike (normalize (trim s))
                || startsWith (normalize (trim s)) (str "https://")) eqn:Eurl;
        [| exfalso; revert Hv; apply Hleaf; literal].
      exists s, ext. repeat split; try assumption.
      * apply orb_true_iff in Eurl as [Eurl | Eurl]; [| now apply https_is_url_like].
        unfold isUrlLike in Eurl. apply orb_true_iff in Eurl as [Eurl | Eurl];
          [exact Eurl |].
        apply ftp_is_risky in Eurl. congruence.
      * intros Hin. rewrite !in_app_iff in Hin.
        destruct Hin as [Hin | [Hin | Hin]]; apply includes_In in Hin; congruence.
    + exfalso. revert Hv. apply Hleaf. rewrite Hs. literal.
Qed.

Lemma ok_only_for_web_links_witness :
  ~ In (str "URL") nonUrlTypes
  /\ exists v,
       validateInputSafety (H := AsciiHost) (str "URL")
         (JsString (str "https://example.com/index.html")) false = ret v
       /\ status v = str "ok"
       /\ exists s extension,
            JsString (str "https://example.com/index.html") = JsString s
            /\ test_prefix_i [str "https://"; str "http://"]
                 (normalize (H := AsciiHost) (trim s)) = true
            /\ startsWith (normalize (H := AsciiHost) (trim s)) (str "http://") = false
            /\ unsafeProtocolPattern (normalize (H := AsciiHost) (trim s)) = false
            /\ riskyProtocolPattern (normalize (H := AsciiHost) (trim s)) = false
            /\ hiddenExecutablePattern (normalize (H := AsciiHost) (trim s)) = false
            /\ extract_extension (H := AsciiHost) (normalize (H := AsciiHost) (trim s))
               = ret extension
            /\ ~ In extension (blockedExtensions ++ archiveExtensions ++ macroEnabledDocs)
            /\ check_domain (H := AsciiHost) (normalize (H := AsciiHost) (trim s)) = ret None.
Proof.
  assert (H1 : ~ In (str "URL") nonUrlTypes).
  { intros Hin. apply includes_In in Hin. vm_compute in Hin. discriminate. }
  split; [exact H1 |].
  eexists. split; [reflexivity |]. split; [reflexivity |].
  exact (ok_only_for_web_links AsciiHost (str "URL")
           (JsString (str "https://example.com/index.html")) false _ H1 eq_refl eq_refl).
Defined.

(** ** Extensions *)

Section Extensions.
Context {H : Host} {HL : HostLaws H}.

Lemma extension_of_alnum : forall s, forallb is_alnum (extension_of s) = true.
Proof.
  intros s. rewrite extension_of_lawful.
  destruct (match_extension s) as [group |] eqn:E; [| reflexivity].
  apply match_extension_end in E as [before [_ [_ Hg]]].
  now rewrite forallb_is_alnum_lower.
Qed.

(** The extracted extension is made of letters and digits. *)
Lemma extract_extension_alnum : forall decoded extension,
  extract_extension decoded = ret extension -> forallb is_alnum extension = true.
Proof.
  intros decoded extension E. unfold extract_extension in E.
  destruct (new_URL decoded) as [urlObj |]; cbn [bind try_catch] in E;
    apply Normal_inj in E; subst extension; apply extension_of_alnum.
Qed.

End Extensions.

(** X4. A verdict with reason code ARCHIVE names one of the extensions zip,
    rar, 7z, tar, tgz, gz, bz2, xz and iso: the extracted extension has no
    dot, so the entry [tar.gz] of the archive list is never the one that
    matches, and a link to a [.tar.gz] file is reported as [gz]. *)
Theorem archive_extension_has_no_dot :
  forall (H : Host) (HL : HostLaws H)
         (inputType : jsstring) (content : value) (isVerifiedUser : bool) (v : Verdict),
    validateInputSafety inputType content isVerifiedUser = ret v ->
    reasonCode v = str "ARCHIVE" ->
    exists extension,
      In extension [str "zip"; str "rar"; str "7z"; str "tar"; str "tgz"; str "gz";
                    str "bz2"; str "xz"; str "iso"]
      /\ v = verdict_ARCHIVE isVerifiedUser extension.
Proof.
  intros H HL t c b v Hv Hrc. unfold validateInputSafety in Hv.
  assert (Hleaf : forall v0 : Verdict,
             reasonCode v0 <> str "ARCHIVE" -> ret v0 = ret v -> False).
  { intros v0 Hne E. apply Normal_inj in E. subst v0. contradiction. }
  destruct c as [| | x | n | s |];
    cbn [ToBoolean typeof_string call_trim bind negb] in Hv;
    try solve [exfalso; revert Hv; apply Hleaf; literal].
  - exfalso. destruct x; cbn [negb bind] in Hv; revert Hv; apply Hleaf; literal.
  - exfalso. destruct (n =? 0); cbn [negb bind] in Hv; revert Hv; apply Hleaf; literal.
  - destruct (is_empty s); cbn [negb bind] in Hv;
      [exfalso; revert Hv; apply Hleaf; literal |].
    destruct (is_empty (trim s)); cbn [negb bind] in Hv;
      [exfalso; revert Hv; apply Hleaf; literal |].
    destruct (includes nonUrlTypes t);
      [exfalso; revert Hv; apply Hleaf; literal |].
    destruct (unsafeProtocolPattern _);
      [exfalso; revert Hv; apply Hleaf; literal |].
    destruct (riskyProtocolPattern _);
      [exfalso; revert Hv; apply Hleaf; literal |].
    destruct (extract_extension_normal (normalize (trim s))) as [ext Hext].
    rewrite Hext in Hv. cbn [bind] in Hv.
    destruct (hiddenExecutablePattern (normalize (trim s)));
      [exfalso; revert Hv; apply Hleaf; literal |].
    destruct (includes blockedExtensions ext);
      [exfalso; revert Hv; apply Hleaf; literal |].
    destruct (includes archiveExtensions ext) eqn:Earchive.
    + exists ext. split.
      * apply extract_extension_alnum in Hext. apply includes_In in Earchive.
        unfold archiveExtensions in Earchive. cbn [In] in Earchive |- *.
        destruct Earchive as [E | [E | [E | [E | [E | [E | Earchive]]]]]]; try tauto.
        rewrite <- E in Hext. vm_compute in Hext. discriminate.
      * unfold verdict_ARCHIVE. destruct b; cbn [negb] in Hv |- *;
          apply Normal_inj in Hv; now subst v.
    + exfalso.
      destruct (includes macroEnabledDocs ext);
        [revert Hv; apply Hleaf; literal |].
      destruct (check_domain_normal (normalize (trim s)))
        as [Ed | [v0 [Ed [Hs [Hr Hm]]]]]; rewrite Ed in Hv; cbn [bind] in Hv.
      * destruct (startsWith _ _); [revert Hv; apply Hleaf; literal |].
        destruct (_ || _); revert Hv; apply Hleaf; literal.
      * revert Hv; apply Hleaf. destruct Hr as [-> | ->]; literal.
Qed.

Lemma archive_extension_has_no_dot_witness :
  validateInputSafety (H := AsciiHost) (str "URL")
    (JsString (str "https://example.com/backup.tar.gz")) false
  = ret (verdict_ARCHIVE false (str "gz"))
  /\ reasonCode (verdict_ARCHIVE false (str "gz")) = str "ARCHIVE"
  /\ exists extension,
       In extension [str "zip"; str "rar"; str "7z"; str "tar"; str "tgz"; str "gz";
                     str "bz2"; str "xz"; str "iso"]
       /\ verdict_ARCHIVE false (str "gz") = verdict_ARCHIVE false extension.
Proof.
  split; [reflexivity |]. split; [reflexivity |].
  exact (archive_extension_has_no_dot AsciiHost AsciiHost_laws (str "URL")
           (JsString (str "https://example.com/backup.tar.gz")) false
           (verdict_ARCHIVE false (str "gz")) eq_refl eq_refl).
Defined.

(** ** Layers of encoding *)

Lemma match_literal_i_map_lower : forall literal s,
  match_literal_i literal (map ascii_lower s)
  = option_map (map ascii_lower) (match_literal_i literal s).
Proof.
  induction literal as [| l literal IH]; intros s; [reflexivity |].
  destruct s as [| c s]; [reflexivity |].
  cbn [map match_literal_i]. rewrite ascii_lower_idem.
  destruct (ascii_lower c =? ascii_lower l); [apply IH | reflexivity].
Qed.

Lemma test_prefix_i_map_lower : forall alternatives s,
  test_prefix_i alternatives (map ascii_lower s) = test_prefix_i alternatives s.
Proof.
  intros alternatives s. unfold test_prefix_i.
  induction alternatives as [| alt alternatives IH]; [reflexivity |].
  cbn [existsb]. rewrite IH, match_literal_i_map_lower.
  now destruct (match_literal_i alt s).
Qed.

Lemma encodeURIComponent_uri_chars : forall s e,
  encodeURIComponent s = ret e -> forallb uri_char e = true.
Proof. intros s e E. now apply (Encode_uri_chars (List.length s) s). Qed.

(** Decoding reads back what [encodeURIComponent] wrote. *)
Lemma decodeURIComponent_encodeURIComponent : forall s e,
  code_units s -> encodeURIComponent s = ret e -> decodeURIComponent e = ret s.
Proof.
  intros s e Hs E. unfold decodeURIComponent.
  pose proof (Decode_Encode (fun c => c) case_map_id (List.length s) s e (List.length e)
                (le_n _) Hs E (le_n _)) as D.
  now rewrite !map_id in D.
Qed.

(** The same through the lower-casing of the validator. *)
Lemma decodeURIComponent_lower_encodeURIComponent : forall s e,
  code_units s -> encodeURIComponent s = ret e ->
  decodeURIComponent (map ascii_lower e) = ret (map ascii_lower s).
Proof.
  intros s e Hs E. unfold decodeURIComponent. rewrite length_map.
  exact (Decode_Encode ascii_lower case_map_lower (List.length s) s e (List.length e)
           (le_n _) Hs E (le_n _)).
Qed.

Lemma encode_layers_uri_chars : forall layers s e,
  encode_layers (S layers) s = ret e -> forallb uri_char e = true.
Proof.
  induction layers as [| layers IH]; intros s e E; cbn [encode_layers] in E.
  - destruct (encodeURIComponent s) as [once |] eqn:Eo; [| discriminate].
    cbn [bind] in E. apply Normal_inj in E. subst once.
    now apply (encodeURIComponent_uri_chars s).
  - destruct (encodeURIComponent s) as [once |]; [| discriminate].
    cbn [bind] in E. now apply (IH once).
Qed.

(** Each round of the loop takes one layer off. *)
Lemma decode_loop_layers : forall (H : Host) layers rounds s e,
  code_units s -> encode_layers layers s = ret e ->
  decode_loop (layers + rounds) (map ascii_lower e) = decode_loop rounds (map ascii_lower s).
Proof.
  intros H layers. induction layers as [| layers IH]; intros rounds s e Hs E.
  - apply Normal_inj in E. now subst e.
  - cbn [encode_layers] in E.
    destruct (encodeURIComponent s) as [once |] eqn:Eo; [| discriminate].
    cbn [bind] in E.
    assert (Ho : code_units once).
    { now apply uri_chars_code_units, (encodeURIComponent_uri_chars s). }
    replace (S layers + rounds)%nat with (layers + S rounds)%nat by lia.
    rewrite (IH (S rounds) once e Ho E).
    apply (decode_loop_step H). now apply decodeURIComponent_lower_encodeURIComponent.
Qed.

Lemma uri_chars_trim : forall e, forallb uri_char e = true -> trim e = e.
Proof.
  intros e He. apply trim_all. apply forallb_forall. intros c Hc.
  apply (proj1 (forallb_forall _ _) He) in Hc.
  apply uri_char_facts in Hc as [_ [Hc _]]. now rewrite Hc.
Qed.

(** The decoded form of content that was encoded up to three times: the
    loop takes the layers off and spends the rounds that are left on the
    original, lower-cased. *)
Lemma normalize_layers : forall (H : Host) (HL : HostLaws H) layers rounds s e,
  (S layers + rounds = 3)%nat ->
  code_units s -> encode_layers (S layers) s = ret e ->
  normalize (trim e)
  = filter (fun c => negb (c =? 0x00)) (decode_loop rounds (map ascii_lower s)).
Proof.
  intros H HL layers rounds s e Hsum Hs E.
  pose proof (encode_layers_uri_chars layers s e E) as He.
  unfold normalize. rewrite (uri_chars_trim e He).
  rewrite toLowerCase_ascii by now apply uri_chars_ascii.
  rewrite <- Hsum. now rewrite (decode_loop_layers H (S layers) rounds s e Hs E).
Qed.

(** X5. Multi-level decoding: for an input type that is not exempt, content
    obtained from a string with an unsafe scheme by one, two or three
    applications of [encodeURIComponent] gets block with UNSAFE_PROTOCOL. *)
Theorem encoded_unsafe_scheme_blocked :
  forall (H : Host) (HL : HostLaws H) (inputType : jsstring) (layers : nat)
         (s e : jsstring) (isVerifiedUser : bool),
    ~ In inputType nonUrlTypes ->
    (1 <= layers <= 3)%nat ->
    code_units s ->
    encode_layers layers s = ret e ->
    unsafeProtocolPattern s = true ->
    validateInputSafety inputType (JsString e) isVerifiedUser = ret verdict_UNSAFE_PROTOCOL.
Proof.
  intros H HL t layers s e b Ht Hl Hs E Hu.
  destruct layers as [| layers]; [lia |].
  pose proof (normalize_layers H HL layers (3 - S layers) s e ltac:(lia) Hs E) as Hn.
  unfold unsafeProtocolPattern in Hu. rewrite <- test_prefix_i_map_lower in Hu.
  destruct (test_prefix_i_prefix unsafeSchemes (map ascii_lower s) eq_refl Hu)
    as [p [r [Es [Hp Hall]]]].
  rewrite Es in Hn.
  destruct (decode_loop_prefix H (3 - S layers) p r Hp) as [r' Er]. rewrite Er in Hn.
  rewrite filter_plain_prefix in Hn by assumption.
  assert (He : trim e <> []).
  { intros E0. rewrite E0 in Hn.
    assert (Hnil : normalize [] = []).
    { unfold normalize. rewrite toLowerCase_ascii by reflexivity. reflexivity. }
    rewrite Hnil in Hn. destruct p; [| discriminate].
    specialize (Hall []). discriminate. }
  apply nonUrlTypes_false in Ht.
  unfold validateInputSafety. enter e He. rewrite Ht, Hn.
  unfold unsafeProtocolPattern. now rewrite Hall.
Qed.

Lemma encoded_unsafe_scheme_blocked_witness :
  ~ In (str "URL") nonUrlTypes
  /\ (1 <= 3 <= 3)%nat
  /\ code_units (str "JavaScript:alert(1)")
  /\ encode_layers 3 (str "JavaScript:alert(1)") = ret (str "JavaScript%25253Aalert(1)")
  /\ unsafeProtocolPattern (str "JavaScript:alert(1)") = true
  /\ validateInputSafety (H := AsciiHost) (str "URL")
       (JsString (str "JavaScript%25253Aalert(1)")) true
     = ret verdict_UNSAFE_PROTOCOL.
Proof.
  assert (H1 : ~ In (str "URL") nonUrlTypes).
  { intros Hin. apply includes_In in Hin. vm_compute in Hin. discriminate. }
  assert (H2 : (1 <= 3 <= 3)%nat) by lia.
  assert (H3 : code_units (str "JavaScript:alert(1)")).
  { apply Forall_forall. intros c Hc. vm_compute in Hc.
    repeat (destruct Hc as [<- | Hc]; [reflexivity |]). contradiction. }
  assert (H4 : encode_layers 3 (str "JavaScript:alert(1)")
               = ret (str "JavaScript%25253Aalert(1)")) by reflexivity.
  assert (H5 : unsafeProtocolPattern (str "JavaScript:alert(1)") = true) by reflexivity.
  repeat (split; [assumption |]).
  exact (encoded_unsafe_scheme_blocked AsciiHost AsciiHost_laws (str "URL") 3
           (str "JavaScript:alert(1)") (str "JavaScript%25253Aalert(1)") true
           H1 H2 H3 H4 H5).
Defined.

(** ** The basic variant *)

Lemma ParseHexOctet_trailing : forall y b rest,
  ParseHexOctet (y ++ [37]) = Some (b, rest) ->
  exists y', rest = y' ++ [37] /\ (List.length y' < List.length y)%nat.
Proof.
  intros [| h [| l y]] b rest E; cbn [app ParseHexOctet] in E.
  - discriminate.
  - destruct (hex_value h); discriminate.
  - destruct (hex_value h); [| discriminate]. destruct (hex_value l); [| discriminate].
    injection E as _ <-. exists y. split; [reflexivity | cbn [List.length]; lia].
Qed.

Lemma continuation_trailing : forall n y octets rest,
  continuation n (y ++ [37]) = Some (octets, rest) ->
  exists y', rest = y' ++ [37] /\ (List.length y' <= List.length y)%nat.
Proof.
  induction n as [| n IH]; intros y octets rest E.
  - injection E as _ <-. now exists y.
  - destruct y as [| c y]; cbn [app continuation] in E.
    + cbn in E. discriminate.
    + destruct (c =? 37); [| discriminate].
      destruct (ParseHexOctet (y ++ [37])) as [[b s2] |] eqn:Ep; [| discriminate].
      apply ParseHexOctet_trailing in Ep as [y2 [-> Hlen]].
      destruct (continuation n (y2 ++ [37])) as [[bs s3] |] eqn:Ec; [| discriminate].
      injection E as _ <-.
      apply IH in Ec as [y3 [-> Hlen3]]. exists y3.
      split; [reflexivity | cbn [List.length]; lia].
Qed.

(** A string that ends in a percent sign cannot be decoded. *)
Lemma Decode_trailing_percent : forall fuel y,
  (List.length y < fuel)%nat -> Decode fuel (y ++ [37]) = Throw URIError.
Proof.
  induction fuel as [| fuel IH]; intros y Hy; [lia |].
  destruct y as [| c y]; [reflexivity |].
  cbn [app Decode List.length] in *.
  destruct (c =? 37).
  - destruct (ParseHexOctet (y ++ [37])) as [[b rest1] |] eqn:Ep; [| reflexivity].
    apply ParseHexOctet_trailing in Ep as [y2 [-> Hlen]].
    destruct (leading_ones b) as [| [| n]]; [| reflexivity |].
    + rewrite IH by lia. reflexivity.
    + destruct (4 <? N.of_nat (S (S n))); [reflexivity |].
      destruct (continuation (S n) (y2 ++ [37])) as [[octets rest2] |] eqn:Ec;
        [| reflexivity].
      apply continuation_trailing in Ec as [y3 [-> Hlen3]].
      destruct (utf8_code_point b octets); [| reflexivity].
      rewrite IH by lia. reflexivity.
  - rewrite IH by lia. reflexivity.
Qed.

Lemma trimStart_forallb : forall (f : N -> bool) s,
  forallb f s = true -> forallb f (trimStart s) = true.
Proof.
  intros f s. induction s as [| c s IH]; intros E; [reflexivity |].
  cbn [trimStart]. destruct (is_whitespace c); [| exact E].
  cbn [forallb] in E. apply andb_true_iff in E as [_ E]. now apply IH.
Qed.

Lemma trim_trailing_percent : forall s, trim (s ++ [37]) = trimStart s ++ [37].
Proof.
  intros s. unfold trim.
  rewrite (trimStart_app s 37 []) by reflexivity.
  rewrite (trimEnd_app (trimStart s) 37 []) by reflexivity. reflexivity.
Qed.

Section BasicFacts.
Context {H : Host}.

Lemma check_shortener_normal : forall value,
  Basic.check_shortener value = ret None
  \/ exists v, Basic.check_shortener value = ret (Some v)
       /\ status v = str "warn" /\ reasonCode v = str "SHORTENER" /\ message v <> [].
Proof.
  intros value. unfold Basic.check_shortener.
  destruct (new_URL value) as [urlObj |]; cbn [bind try_catch]; [| now left].
  destruct (includes shortenerDomains _); [right | now left].
  eexists. split; [reflexivity |]. cbn [status reasonCode message].
  split; [reflexivity |]. split; [reflexivity |].
  intros E. vm_compute in E. discriminate.
Qed.

(** What the basic variant does after the decoding: it returns. *)
Lemma basic_returns_after_decoding : forall inputType s isVerifiedUser decoded,
  decodeURIComponent (toLowerCase (trim s)) = ret decoded ->
  exists v, Basic.validateInputSafety inputType (JsString s) isVerifiedUser = ret v.
Proof.
  intros t s b decoded Ed. unfold Basic.validateInputSafety.
  cbn [ToBoolean typeof_string call_trim bind negb].
  destruct (is_empty s); cbn [negb bind]; [eauto |].
  destruct (is_empty (trim s)); cbn [negb bind]; [eauto |].
  rewrite Ed. cbn [bind].
  destruct (includes nonUrlTypes t); [eauto |].
  destruct (unsafeProtocolPattern _); [eauto |].
  destruct (riskyProtocolPattern _); [eauto |].
  destruct (includes blockedExtensions _); [eauto |].
  destruct (includes archiveExtensions _); [destruct (negb b); eauto |].
  destruct (includes macroEnabledDocs _); [eauto |].
  destruct (check_shortener_normal (toLowerCase (trim s))) as [-> | [v0 [-> _]]];
    cbn [bind]; [| eauto].
  destruct (startsWith _ _); [eauto |].
  destruct (_ || _); eauto.
Qed.

End BasicFacts.

(** X6. The basic variant throws exactly when the content is a string that
    is not blank and whose trimmed, lower-cased form the decoder rejects: the
    exception of [decodeURIComponent] reaches the caller, for every input
    type, the exempt ones included. *)
Theorem basic_variant_throws_on_bad_escapes :
  forall (H : Host) (inputType : jsstring) (content : value) (isVerifiedUser : bool)
         (e : exn),
    Basic.validateInputSafety inputType content isVerifiedUser = Throw e
    <-> exists s, content = JsString s
                  /\ trim s <> []
                  /\ decodeURIComponent (toLowerCase (trim s)) = Throw e.
Proof.
  intros H t c b e. split.
  - intros E. unfold Basic.validateInputSafety in E.
    destruct c as [| | x | n | s |];
      cbn [ToBoolean typeof_string call_trim bind negb] in E; try discriminate.
    + destruct x; discriminate.
    + destruct (n =? 0); discriminate.
    + exists s. split; [reflexivity |].
      destruct (is_empty s) eqn:E1; cbn [negb bind] in E; [discriminate |].
      destruct (is_empty (trim s)) eqn:E2; cbn [negb bind] in E; [discriminate |].
      split; [intros E0; rewrite E0 in E2; discriminate |].
      destruct (decodeURIComponent (toLowerCase (trim s))) as [decoded | e'] eqn:Ed.
      * exfalso.
        destruct (basic_returns_after_decoding t s b decoded Ed) as [v Hv].
        unfold Basic.validateInputSafety in Hv.
        cbn [ToBoolean typeof_string call_trim bind negb] in Hv.
        rewrite E1 in Hv. cbn [negb bind] in Hv. rewrite E2 in Hv. cbn [negb bind] in Hv.
        rewrite Ed in Hv. congruence.
      * cbn [bind] in E. injection E as E. now rewrite E.
  - intros [s [-> [Hs Ed]]]. unfold Basic.validateInputSafety. enter s Hs.
    now rewrite Ed.
Qed.

(** X7. The basic variant throws [URIError] on every content of ASCII
    characters that ends in a percent sign, such as [100%], whatever the
    input type and the flag. *)
Theorem basic_variant_throws_on_trailing_percent :
  forall (H : Host) (HL : HostLaws H)
         (inputType s : jsstring) (isVerifiedUser : bool),
    forallb is_ascii s = true ->
    Basic.validateInputSafety inputType (JsString (s ++ [PERCENT])) isVerifiedUser
    = Throw URIError.
Proof.
  intros H HL t s b Hs. unfold Basic.validateInputSafety.
  assert (Ht : trim (s ++ [37]) <> []).
  { rewrite trim_trailing_percent. now destruct (trimStart s). }
  enter (s ++ [37]) Ht.
  rewrite trim_trailing_percent.
  rewrite toLowerCase_ascii
    by (rewrite forallb_app, trimStart_forallb by assumption; reflexivity).
  rewrite map_app. cbn [map]. change (ascii_lower 37) with 37.
  unfold decodeURIComponent. rewrite Decode_trailing_percent; [reflexivity |].
  rewrite length_app. cbn [List.length]. lia.
Qed.

Lemma basic_variant_throws_on_trailing_percent_witness :
  forallb is_ascii (str "100") = true
  /\ Basic.validateInputSafety (H := AsciiHost) (str "Text")
       (JsString (str "100" ++ [PERCENT])) false
     = Throw URIError.
Proof.
  split; [reflexivity |].
  exact (basic_variant_throws_on_trailing_percent AsciiHost AsciiHost_laws
           (str "Text") (str "100") false eq_refl).
Defined.

(** X8. The two variants agree on what the basic one decides early: when
    the basic variant returns a verdict with reason code EMPTY,
    UNSAFE_PROTOCOL or RISKY_PROTOCOL, or returns for an exempt input type,
    the enhanced variant returns the same verdict; its decoding rounds and
    the removal of NUL do not disturb the scheme the basic variant saw. *)
Theorem enhanced_agrees_on_early_steps :
  forall (H : Host) (inputType : jsstring) (content : value) (isVerifiedUser : bool)
         (v : Verdict),
    Basic.validateInputSafety inputType content isVerifiedUser = ret v ->
    In (reasonCode v) early_reason_codes \/ In inputType nonUrlTypes ->
    validateInputSafety inputType content isVerifiedUser = ret v.
Proof.
  intros H t c b v Hv Hcase. unfold Basic.validateInputSafety in Hv.
  destruct c as [| | x | n | s |];
    cbn [ToBoolean typeof_string call_trim bind negb] in Hv;
    try (rewrite <- Hv; reflexivity).
  destruct (is_empty s) eqn:E1; cbn [negb bind] in Hv.
  { rewrite <- Hv. unfold validateInputSafety.
    cbn [ToBoolean typeof_string call_trim bind negb]. now rewrite E1. }
  destruct (is_empty (trim s)) eqn:E2; cbn [negb bind] in Hv.
  { rewrite <- Hv. unfold validateInputSafety.
    cbn [ToBoolean typeof_string call_trim bind negb]. now rewrite E1, E2. }
  assert (Hs : trim s <> []) by (intros E0; rewrite E0 in E2; discriminate).
  destruct (decodeURIComponent (toLowerCase (trim s))) as [decoded |];
    cbn [bind] in Hv; [| discriminate].
  destruct (includes nonUrlTypes t) eqn:Et.
  { rewrite <- Hv. unfold validateInputSafety. enter s Hs. now rewrite Et. }
  assert (Ht : ~ In t nonUrlTypes).
  { intros Hin. apply includes_In in Hin. congruence. }
  destruct Hcase as [Hcode | Hin]; [| contradiction].
  destruct (unsafeProtocolPattern (toLowerCase (trim s))) eqn:Eunsafe.
  { rewrite <- Hv. now apply unsafe_on_raw_content. }
  destruct (riskyProtocolPattern (toLowerCase (trim s))) eqn:Erisky.
  { rewrite <- Hv. now apply risky_on_raw_content. }
  exfalso.
  assert (Hleaf : forall v0 : Verdict,
             ~ In (reasonCode v0) early_reason_codes -> ret v0 = ret v -> False).
  { intros v0 Hne E. apply Normal_inj in E. subst v0. contradiction. }
  assert (Hlate : forall code, In code [str "EXECUTABLE"; str "ARCHIVE"; str "MACRO_DOC";
                                       str "SHORTENER"; str "HTTP"; str "SAFE";
                                       str "INVALID"] ->
                               ~ In code early_reason_codes).
  { intros code Hc He. cbn [In] in Hc.
    repeat (destruct Hc as [<- | Hc];
            [apply includes_In in He; vm_compute in He; discriminate |]).
    contradiction. }
  destruct (includes blockedExtensions _);
    [revert Hv; apply Hleaf, Hlate; cbn; tauto |].
  destruct (includes archiveExtensions _);
    [destruct b; cbn [negb] in Hv; revert Hv; apply Hleaf, Hlate; cbn; tauto |].
  destruct (includes macroEnabledDocs _);
    [revert Hv; apply Hleaf, Hlate; cbn; tauto |].
  destruct (check_shortener_normal (toLowerCase (trim s)))
    as [Ed | [v0 [Ed [_ [Hr _]]]]]; rewrite Ed in Hv; cbn [bind] in Hv.
  + destruct (startsWith _ _); [revert Hv; apply Hleaf, Hlate; cbn; tauto |].
    destruct (_ || _); revert Hv; apply Hleaf, Hlate; cbn; tauto.
  + revert Hv. apply Hleaf, Hlate. rewrite Hr. cbn; tauto.
Qed.

Lemma enhanced_agrees_on_early_steps_witness :
  Basic.validateInputSafety (H := AsciiHost) (str "URL")
    (JsString (str "ssh://example.com/%2e%2e")) false
  = ret verdict_RISKY_PROTOCOL
  /\ (In (reasonCode verdict_RISKY_PROTOCOL) early_reason_codes
      \/ In (str "URL") nonUrlTypes)
  /\ validateInputSafety (H := AsciiHost) (str "URL")
       (JsString (str "ssh://example.com/%2e%2e")) false
     = ret verdict_RISKY_PROTOCOL.
Proof.
  assert (H1 : Basic.validateInputSafety (H := AsciiHost) (str "URL")
                 (JsString (str "ssh://example.com/%2e%2e")) false
               = ret verdict_RISKY_PROTOCOL) by reflexivity.
  assert (H2 : In (reasonCode verdict_RISKY_PROTOCOL) early_reason_codes
               \/ In (str "URL") nonUrlTypes) by (left; cbn; tauto).
  split; [exact H1 |]. split; [exact H2 |].
  exact (enhanced_agrees_on_early_steps AsciiHost (str "URL")
           (JsString (str "ssh://example.com/%2e%2e")) false verdict_RISKY_PROTOCOL H1 H2).
Defined.

(** X9. A verdict of the basic variant pairs status and reason code in one
    of eleven ways and has a message; EXECUTABLE_HIDDEN and PUNYCODE_DOMAIN
    are not among its reason codes. *)
Theorem basic_variant_verdicts :
  forall (H : Host) (inputType : jsstring) (content : value) (isVerifiedUser : bool)
         (v : Verdict),
    Basic.validateInputSafety inputType content isVerifiedUser = ret v ->
    In (status v, reasonCode v) basic_verdict_kinds /\ message v <> [].
Proof.
  intros H t c b v Hv. unfold Basic.validateInputSafety in Hv.
  assert (Hleaf : forall v0 : Verdict,
             In (status v0, reasonCode v0) basic_verdict_kinds /\ message v0 <> [] ->
             ret v0 = ret v ->
             In (status v, reasonCode v) basic_verdict_kinds /\ message v <> []).
  { intros v0 Hok E. apply Normal_inj in E. now subst v0. }
  assert (Hnonempty : forall (a b : jsstring) c x, a ++ b ++ c :: x <> []).
  { intros a0 b0 c0 x E. apply app_eq_nil in E as [_ E].
    apply app_eq_nil in E as [_ E]. discriminate. }
  destruct c as [| | x | n | s |];
    cbn [ToBoolean typeof_string call_trim bind negb] in Hv;
    try solve [revert Hv; apply Hleaf; cbn [status reasonCode message]; literal].
  - destruct x; cbn [negb bind] in Hv; revert Hv; apply Hleaf;
      cbn [status reasonCode message]; literal.
  - destruct (n =? 0); cbn [negb bind] in Hv; revert Hv; apply Hleaf;
      cbn [status reasonCode message]; literal.
  - destruct (is_empty s); cbn [negb bind] in Hv;
      [revert Hv; apply Hleaf; cbn [status reasonCode message]; literal |].
    destruct (is_empty (trim s)); cbn [negb bind] in Hv;
      [revert Hv; apply Hleaf; cbn [status reasonCode message]; literal |].
    destruct (decodeURIComponent (toLowerCase (trim s))) as [decoded |];
      cbn [bind] in Hv; [| discriminate].
    destruct (includes nonUrlTypes t);
      [revert Hv; apply Hleaf; cbn [status reasonCode message]; literal |].
    destruct (unsafeProtocolPattern _);
      [revert Hv; apply Hleaf; cbn [status reasonCode message]; literal |].
    destruct (riskyProtocolPattern _);
      [revert Hv; apply Hleaf; cbn [status reasonCode message]; literal |].
    destruct (includes blockedExtensions _);
      [revert Hv; apply Hleaf; cbn [status reasonCode message];
       split; [cbn; tauto |];
       intros E; apply app_eq_nil in E as [E _]; vm_compute in E; discriminate |].
    destruct (includes archiveExtensions _);
      [destruct b; cbn [negb] in Hv; revert Hv; apply Hleaf;
       cbn [status reasonCode message];
       (split; [cbn; tauto |]; intros E; vm_compute in E; discriminate) |].
    destruct (includes macroEnabledDocs _);
      [revert Hv; apply Hleaf; cbn [status reasonCode message];
       split; [cbn; tauto |]; intros E; vm_compute in E; discriminate |].
    destruct (check_shortener_normal (toLowerCase (trim s)))
      as [Ed | [v0 [Ed [Hs [Hr Hm]]]]]; rewrite Ed in Hv; cbn [bind] in Hv.
    + destruct (startsWith _ _);
        [revert Hv; apply Hleaf; cbn [status reasonCode message]; literal |].
      destruct (_ || _); revert Hv; apply Hleaf; cbn [status reasonCode message]; literal.
    + revert Hv. apply Hleaf. rewrite Hs, Hr. split; [cbn; tauto | exact Hm].
Qed.

Lemma basic_variant_verdicts_witness :
  Basic.validateInputSafety (H := AsciiHost) (str "URL")
    (JsString (str "https://example.com/setup.exe")) false
  = ret (verdict_EXECUTABLE (str "exe"))
  /\ In (status (verdict_EXECUTABLE (str "exe")), reasonCode (verdict_EXECUTABLE (str "exe")))
        basic_verdict_kinds
  /\ message (verdict_EXECUTABLE (str "exe")) <> [].
Proof.
  split; [reflexivity |].
  exact (basic_variant_verdicts AsciiHost (str "URL")
           (JsString (str "https://example.com/setup.exe")) false
           (verdict_EXECUTABLE (str "exe")) eq_refl).
Defined.

(** ** The application *)

Lemma trim_head_kept : forall p r,
  match p with c :: _ => negb (is_whitespace c) | [] => false end = true ->
  trim (p ++ r) <> [].
Proof.
  intros [| c p] r E; [discriminate |]. apply negb_true_iff in E.
  unfold trim. cbn [app]. rewrite trimStart_keeps by assumption.
  pose proof (trimEnd_app [] c (p ++ r) E) as T. cbn [app] in T. rewrite T. discriminate.
Qed.

Lemma buildContent_Email : forall inputs,
  buildContent (str "Email") inputs
  = (subject <- encodeURIComponent (given inputs "subject") ;;
     body <- encodeURIComponent (given inputs "body") ;;
     ret (str "mailto:" ++ given inputs "emailTo" ++ str "?subject=" ++ subject
          ++ str "&body=" ++ body)).
Proof. reflexivity. Qed.

(** The content of a structured type begins with the text of its format. *)
Lemma buildContent_structured : forall inputType inputs content,
  In inputType structuredTypes ->
  buildContent inputType inputs = ret content -> trim content <> [].
Proof.
  intros t inputs content Ht E. unfold structuredTypes in Ht. cbn [In] in Ht.
  destruct Ht as [<- | [<- | Ht]].
  - unfold buildContent in E. switch. apply Normal_inj in E. subst content.
    now apply trim_head_kept.
  - rewrite buildContent_Email in E.
    destruct (encodeURIComponent (given inputs "subject")); [| discriminate].
    destruct (encodeURIComponent (given inputs "body")); [| discriminate].
    cbn [bind] in E. apply Normal_inj in E. subst content. now apply trim_head_kept.
  - repeat (destruct Ht as [<- | Ht];
            [unfold buildContent in E; switch; apply Normal_inj in E; subst content;
             now apply trim_head_kept |]).
    contradiction.
Qed.

Section AppFacts.
Context {H : Host}.

(** The outcome, given the content and its verdict. *)
Lemma outcome_of_verdict : forall inputType inputs isVerifiedUser content v,
  buildContent inputType inputs = ret content ->
  trim content <> [] ->
  validateInputSafety inputType (JsString content) isVerifiedUser = ret v ->
  fetchQR inputType inputs isVerifiedUser
  = ret (if jseq (status v) (str "block")
         then Stopped (status v) (message v)
         else Request content (status v) (message v)).
Proof.
  intros t inputs b content v Eb Hc Ev. unfold fetchQR. rewrite Eb. cbn [bind ToBoolean].
  destruct (is_empty (trim content)) eqn:E; [apply is_empty_nil in E; contradiction |].
  cbn [negb]. rewrite Ev. cbn [bind try_catch].
  now destruct (jseq (status v) (str "block")).
Qed.

Lemma nonurl_content_is_safe : forall inputType content isVerifiedUser,
  In inputType nonUrlTypes -> trim content <> [] ->
  validateInputSafety inputType (JsString content) isVerifiedUser = ret verdict_SAFE_non_URL.
Proof.
  intros t s b Ht Hs. unfold validateInputSafety. enter s Hs.
  apply includes_In in Ht. now rewrite Ht.
Qed.

End AppFacts.

Lemma structured_is_nonurl : forall t, In t structuredTypes -> In t nonUrlTypes.
Proof.
  intros t Ht. unfold structuredTypes in Ht. cbn [In] in Ht.
  repeat (destruct Ht as [<- | Ht]; [cbn; tauto |]). contradiction.
Qed.

(** X10. For the structured input types (Wi-Fi, Email, vCard, Phone, SMS,
    Event, Geo, UPI, MECARD) the application always goes on to the request:
    the content that [buildContent] makes begins with the fixed text of the
    format, so it is never blank, and the validator passes it as ok with the
    message of the exempt types, whatever the fields hold, also when all of
    them are empty. *)
Theorem structured_types_are_requested :
  forall (H : Host) (inputType : jsstring) (inputs : Inputs) (isVerifiedUser : bool)
         (content : jsstring),
    In inputType structuredTypes ->
    buildContent inputType inputs = ret content ->
    fetchQR inputType inputs isVerifiedUser
    = ret (Request content (str "ok") (str "Content type is non-URL and safe.")).
Proof.
  intros H t inputs b content Ht Eb.
  pose proof (buildContent_structured t inputs content Ht Eb) as Hc.
  rewrite (outcome_of_verdict t inputs b content verdict_SAFE_non_URL Eb Hc).
  - reflexivity.
  - apply nonurl_content_is_safe; [now apply structured_is_nonurl | exact Hc].
Qed.

Lemma structured_types_are_requested_witness :
  In (str "Wi-Fi") structuredTypes
  /\ buildContent (str "Wi-Fi") (fun _ => None) = ret (str "WIFI:S:;T:WPA;P:;;")
  /\ fetchQR (H := AsciiHost) (str "Wi-Fi") (fun _ => None) false
     = ret (Request (str "WIFI:S:;T:WPA;P:;;") (str "ok")
              (str "Content type is non-URL and safe.")).
Proof.
  assert (H1 : In (str "Wi-Fi") structuredTypes) by (cbn; tauto).
  assert (H2 : buildContent (str "Wi-Fi") (fun _ => None) = ret (str "WIFI:S:;T:WPA;P:;;"))
    by reflexivity.
  split; [exact H1 |]. split; [exact H2 |].
  exact (structured_types_are_requested AsciiHost (str "Wi-Fi") (fun _ => None) false
           (str "WIFI:S:;T:WPA;P:;;") H1 H2).
Defined.

(** X11. The subject and the body of an Email content can be read back:
    the content is [mailto:], the address, [?subject=], the encoded subject,
    [&body=] and the encoded body; [decodeURIComponent] returns the subject
    and the body from their encoded forms, and these hold no [&], [=], [?]
    or [#] that could be taken for a separator. *)
Theorem email_content_decodes :
  forall (inputs : Inputs) (content : jsstring),
    code_units (given inputs "subject") ->
    code_units (given inputs "body") ->
    buildContent (str "Email") inputs = ret content ->
    exists subject body,
      content = str "mailto:" ++ given inputs "emailTo" ++ str "?subject=" ++ subject
                ++ str "&body=" ++ body
      /\ decodeURIComponent subject = ret (given inputs "subject")
      /\ decodeURIComponent body = ret (given inputs "body")
      /\ forallb uri_char (subject ++ body) = true
      /\ forall c, In c (str "&=?#") -> ~ In c (subject ++ body).
Proof.
  intros inputs content Hs Hb E. rewrite buildContent_Email in E.
  destruct (encodeURIComponent (given inputs "subject")) as [subject |] eqn:Es;
    [| discriminate].
  destruct (encodeURIComponent (given inputs "body")) as [body |] eqn:Eb;
    [| discriminate].
  cbn [bind] in E. apply Normal_inj in E. subst content.
  exists subject, body.
  assert (Hchars : forallb uri_char (subject ++ body) = true).
  { rewrite forallb_app.
    now rewrite (encodeURIComponent_uri_chars _ _ Es), (encodeURIComponent_uri_chars _ _ Eb). }
  split; [reflexivity |].
  split; [now apply decodeURIComponent_encodeURIComponent |].
  split; [now apply decodeURIComponent_encodeURIComponent |].
  split; [exact Hchars |].
  intros c Hc Hin. apply (proj1 (forallb_forall _ _) Hchars) in Hin.
  cbn in Hc. repeat (destruct Hc as [<- | Hc]; [vm_compute in Hin; discriminate |]).
  contradiction.
Qed.

Lemma email_content_decodes_witness :
  code_units
    (given (fun name => if jseq name (str "subject") then Some (str "Q&A 100%") else None)
       "subject")
  /\ code_units
       (given (fun name => if jseq name (str "subject") then Some (str "Q&A 100%") else None)
          "body")
  /\ buildContent (str "Email")
       (fun name => if jseq name (str "subject") then Some (str "Q&A 100%") else None)
     = ret (str "mailto:?subject=Q%26A%20100%25&body=")
  /\ exists subject body,
       str "mailto:?subject=Q%26A%20100%25&body="
       = str "mailto:"
         ++ given (fun name => if jseq name (str "subject") then Some (str "Q&A 100%")
                               else None) "emailTo"
         ++ str "?subject=" ++ subject ++ str "&body=" ++ body
       /\ decodeURIComponent subject
          = ret (given (fun name => if jseq name (str "subject") then Some (str "Q&A 100%")
                                    else None) "subject")
       /\ decodeURIComponent body
          = ret (given (fun name => if jseq name (str "subject") then Some (str "Q&A 100%")
                                    else None) "body")
       /\ forallb uri_char (subject ++ body) = true
       /\ forall c, In c (str "&=?#") -> ~ In c (subject ++ body).
Proof.
  set (inputs := fun name => if jseq name (str "subject") then Some (str "Q&A 100%")
                             else None).
  assert (H1 : code_units (given inputs "subject")).
  { apply Forall_forall. intros c Hc. vm_compute in Hc.
    repeat (destruct Hc as [<- | Hc]; [reflexivity |]). contradiction. }
  assert (H2 : code_units (given inputs "body")) by constructor.
  assert (H3 : buildContent (str "Email") inputs
               = ret (str "mailto:?subject=Q%26A%20100%25&body=")) by reflexivity.
  split; [exact H1 |]. split; [exact H2 |]. split; [exact H3 |].
  exact (email_content_decodes inputs _ H1 H2 H3).
Defined.

Section Outcomes.
Context {H : Host}.

Lemma blank_string_is_EMPTY : forall inputType s isVerifiedUser,
  trim s = [] -> validateInputSafety inputType (JsString s) isVerifiedUser = ret verdict_EMPTY.
Proof.
  intros t s b E. unfold validateInputSafety.
  cbn [ToBoolean typeof_string call_trim bind negb]. rewrite E.
  now destruct (is_empty s).
Qed.

(** No message of the validator is the message of the [catch] branch. *)
Lemma validate_message : forall inputType content isVerifiedUser v,
  validateInputSafety inputType content isVerifiedUser = ret v ->
  In (status v) [str "ok"; str "warn"; str "block"]
  /\ message v <> str "Validation error".
Proof.
  intros t c b v Hv. unfold validateInputSafety in Hv.
  assert (Hleaf : forall v0 : Verdict,
             In (status v0) [str "ok"; str "warn"; str "block"]
             /\ message v0 <> str "Validation error" ->
             ret v0 = ret v ->
             In (status v) [str "ok"; str "warn"; str "block"]
             /\ message v <> str "Validation error").
  { intros v0 Hok E. apply Normal_inj in E. now subst v0. }
  destruct c as [| | x | n | s |];
    cbn [ToBoolean typeof_string call_trim bind negb] in Hv;
    try solve [revert Hv; apply Hleaf; cbn [status reasonCode message]; literal].
  - destruct x; cbn [negb bind] in Hv; revert Hv; apply Hleaf;
      cbn [status reasonCode message]; literal.
  - destruct (n =? 0); cbn [negb bind] in Hv; revert Hv; apply Hleaf;
      cbn [status reasonCode message]; literal.
  - destruct (is_empty s); cbn [negb bind] in Hv;
      [revert Hv; apply Hleaf; cbn [status reasonCode message]; literal |].
    destruct (is_empty (trim s)); cbn [negb bind] in Hv;
      [revert Hv; apply Hleaf; cbn [status reasonCode message]; literal |].
    destruct (includes nonUrlTypes t);
      [revert Hv; apply Hleaf; cbn [status reasonCode message]; literal |].
    destruct (unsafeProtocolPattern _);
      [revert Hv; apply Hleaf; cbn [status reasonCode message]; literal |].
    destruct (riskyProtocolPattern _);
      [revert Hv; apply Hleaf; cbn [status reasonCode message]; literal |].
    destruct (extract_extension_normal (normalize (trim s))) as [ext Hext].
    rewrite Hext in Hv. cbn [bind] in Hv.
    destruct (hiddenExecutablePattern _);
      [revert Hv; apply Hleaf; cbn [status reasonCode message]; literal |].
    destruct (includes blockedExtensions ext);
      [revert Hv; apply Hleaf; cbn [status reasonCode message]; literal |].
    destruct (includes archiveExtensions ext);
      [destruct b; cbn [negb] in Hv; revert Hv; apply Hleaf;
       cbn [status reasonCode message]; literal |].
    destruct (includes macroEnabledDocs ext);
      [revert Hv; apply Hleaf; cbn [status reasonCode message]; literal |].
    unfold check_domain in Hv.
    destruct (new_URL (normalize (trim s))) as [urlObj |]; cbn [bind try_catch] in Hv.
    + destruct (startsWith (toLowerCase (hostname urlObj)) (str "xn--"));
        cbn [bind] in Hv;
        [revert Hv; apply Hleaf; cbn [status reasonCode message]; literal |].
      destruct (includes shortenerDomains _); cbn [bind] in Hv;
        [revert Hv; apply Hleaf; cbn [status reasonCode message]; literal |].
      destruct (startsWith _ _);
        [revert Hv; apply Hleaf; cbn [status reasonCode message]; literal |].
      destruct (_ || _); revert Hv; apply Hleaf; cbn [status reasonCode message]; literal.
    + destruct (startsWith _ _);
        [revert Hv; apply Hleaf; cbn [status reasonCode message]; literal |].
      destruct (_ || _); revert Hv; apply Hleaf; cbn [status reasonCode message]; literal.
Qed.

End Outcomes.

(** X12. What the validation before a request comes to.  It leaves without
    content exactly on blank content; it stops exactly when the verdict of
    the content is block, with the message of the verdict; and it goes on
    to the request only with status ok or warn.  The [catch] branch is never
    taken: the message [Validation error] is not shown. *)
Theorem request_only_after_ok_or_warn :
  forall (H : Host) (inputType : jsstring) (inputs : Inputs) (isVerifiedUser : bool)
         (outcome : Outcome),
    fetchQR inputType inputs isVerifiedUser = ret outcome ->
    exists content,
      buildContent inputType inputs = ret content
      /\ match outcome with
         | NoContent => trim content = []
         | Stopped validationStatus validationMessage =>
             trim content <> []
             /\ validationStatus = str "block"
             /\ validationMessage <> str "Validation error"
             /\ exists v,
                  validateInputSafety inputType (JsString content) isVerifiedUser = ret v
                  /\ status v = str "block" /\ message v = validationMessage
         | Request data validationStatus validationMessage =>
             trim content <> []
             /\ data = content
             /\ (validationStatus = str "ok" \/ validationStatus = str "warn")
             /\ exists v,
                  validateInputSafety inputType (JsString content) isVerifiedUser = ret v
                  /\ status v = validationStatus /\ message v = validationMessage
         end.
Proof.
  intros H t inputs b outcome E. unfold fetchQR in E.
  destruct (buildContent t inputs) as [content |]; [| discriminate].
  cbn [bind ToBoolean] in E. exists content. split; [reflexivity |].
  destruct (is_empty (trim content)) eqn:Ec; cbn [negb] in E.
  { apply Normal_inj in E. subst outcome. now apply is_empty_nil. }
  assert (Hc : trim content <> []) by (intros E0; rewrite E0 in Ec; discriminate).
  destruct (validate_returns t (JsString content) b) as [v [Ev _]].
  destruct (validate_message t (JsString content) b v Ev) as [Hst Hmsg].
  rewrite Ev in E. cbn [bind try_catch] in E.
  destruct (jseq (status v) (str "block")) eqn:Ej;
    cbn [try_catch] in E; apply Normal_inj in E; subst outcome.
  - apply jseq_eq in Ej. repeat split; try assumption. now exists v.
  - repeat split; try assumption.
    + cbn [In] in Hst. destruct Hst as [Hst | [Hst | [Hst | []]]]; try (now auto).
      rewrite <- Hst in Ej. vm_compute in Ej. discriminate.
    + now exists v.
Qed.

Lemma request_only_after_ok_or_warn_witness :
  fetchQR (H := AsciiHost) (str "URL")
    (fun name => if jseq name (str "url") then Some (str "javascript:alert(1)") else None)
    false
  = ret (Stopped (str "block") (message verdict_UNSAFE_PROTOCOL))
  /\ exists content,
       buildContent (str "URL")
         (fun name => if jseq name (str "url") then Some (str "javascript:alert(1)")
                      else None)
       = ret content
       /\ trim content <> []
       /\ str "block" = str "block"
       /\ message verdict_UNSAFE_PROTOCOL <> str "Validation error"
       /\ exists v,
            validateInputSafety (H := AsciiHost) (str "URL") (JsString content) false = ret v
            /\ status v = str "block" /\ message v = message verdict_UNSAFE_PROTOCOL.
Proof.
  split; [reflexivity |].
  exact (request_only_after_ok_or_warn AsciiHost (str "URL")
           (fun name => if jseq name (str "url") then Some (str "javascript:alert(1)")
                        else None)
           false (Stopped (str "block") (message verdict_UNSAFE_PROTOCOL)) eq_refl).
Defined.

(** X13. The validation that [handleChange] shows while typing agrees with
    the validation before the request on the fields it has merged: whenever
    the latter sets a status and a message, [handleChange] has set the same;
    and on blank content, where the latter sets none, [handleChange] shows
    block with the message of EMPTY. *)
Theorem inline_validation_agrees :
  forall (H : Host) (inputType : jsstring) (inputs : Inputs) (isVerifiedUser : bool)
         (field value : jsstring) (outcome : Outcome),
    fetchQR inputType (fst (handleChange inputType inputs isVerifiedUser field value))
      isVerifiedUser = ret outcome ->
    snd (handleChange inputType inputs isVerifiedUser field value)
    = Some match outcome with
           | NoContent => (str "block", message verdict_EMPTY)
           | Stopped validationStatus validationMessage
           | Request _ validationStatus validationMessage =>
               (validationStatus, validationMessage)
           end.
Proof.
  intros H t inputs b f x outcome E. unfold handleChange in *. cbn [fst snd] in *.
  unfold fetchQR in E.
  destruct (buildContent t (merge inputs f x)) as [content |]; [| discriminate].
  cbn [bind ToBoolean] in *.
  destruct (is_empty (trim content)) eqn:Ec; cbn [negb] in E.
  { apply Normal_inj in E. subst outcome. apply is_empty_nil in Ec.
    now rewrite blank_string_is_EMPTY. }
  destruct (validate_returns t (JsString content) b) as [v [Ev _]].
  rewrite Ev in *. cbn [bind try_catch] in E.
  destruct (jseq (status v) (str "block")); cbn [try_catch] in E;
    apply Normal_inj in E; now subst outcome.
Qed.

Lemma inline_validation_agrees_witness :
  fetchQR (H := AsciiHost) (str "URL")
    (fst (handleChange (H := AsciiHost) (str "URL") (fun _ => None) false
            (str "url") (str "http://example.com/")))
    false
  = ret (Request (str "http://example.com/") (str "warn") (message
           {| status := str "warn"; reasonCode := str "HTTP";
              message := str "Warning " ++ dash ++
                str " non-secure HTTP link detected. Use HTTPS whenever possible." |}))
  /\ snd (handleChange (H := AsciiHost) (str "URL") (fun _ => None) false
            (str "url") (str "http://example.com/"))
     = Some (str "warn",
             str "Warning " ++ dash ++
               str " non-secure HTTP link detected. Use HTTPS whenever possible.").
Proof.
  split; [reflexivity |].
  exact (inline_validation_agrees AsciiHost (str "URL") (fun _ => None) false
           (str "url") (str "http://example.com/")
           (Request (str "http://example.com/") (str "warn")
              (str "Warning " ++ dash ++
                 str " non-secure HTTP link detected. Use HTTPS whenever possible."))
           eq_refl).
Defined.

(** ** The EPS export *)

(** Where the output of the global replacement starts like the pattern, so
    does its input: a replacement starts with [s], which the pattern does
    not hold. *)
Lemma replace_all_startsWith : forall by_ pattern s q,
  match by_ with x :: _ => ~ In x q | [] => False end ->
  startsWith (replace_all 0 pattern by_ s) q = true -> startsWith s q = true.
Proof.
  intros by_ pattern s. induction s as [| c rest IH]; intros q Hby E.
  - exact E.
  - destruct q as [| x q]; [reflexivity |].
    cbn [replace_all] in E.
    destruct (startsWith (c :: rest) pattern).
    + exfalso. destruct by_ as [| y by_]; [contradiction |].
      cbn [app startsWith] in E. apply andb_true_iff in E as [E _].
      apply N.eqb_eq in E. subst y. apply Hby. now left.
    + cbn [startsWith] in E |- *. apply andb_true_iff in E as [-> E]. cbn [andb].
      apply IH; [| exact E].
      destruct by_ as [| y by_]; [contradiction |].
      intros Hin. apply Hby. now right.
Qed.

Lemma occurs_cons : forall pattern c s,
  occurs pattern (c :: s) = startsWith (c :: s) pattern || occurs pattern s.
Proof. reflexivity. Qed.

(** Nothing of the replacement text starts the pattern of the fill
    attribute. *)
Lemma occurs_after_replacement : forall s,
  occurs fill_attribute ((str "setrgbcolor" ++ [LF] ++ str "fill ") ++ s)
  = occurs fill_attribute s.
Proof. intros s. reflexivity. Qed.

Lemma replace_all_fill : forall s skip,
  occurs fill_attribute
    (replace_all skip fill_attribute (str "setrgbcolor" ++ [LF] ++ str "fill ") s) = false.
Proof.
  induction s as [| c rest IH]; intros skip; [reflexivity |].
  cbn [replace_all]. destruct skip as [| skip]; [| apply IH].
  destruct (startsWith (c :: rest) fill_attribute) eqn:E.
  - rewrite occurs_after_replacement. apply IH.
  - rewrite occurs_cons, IH, orb_false_r.
    destruct (startsWith (c :: replace_all 0 fill_attribute
                                 (str "setrgbcolor" ++ [LF] ++ str "fill ") rest)
                fill_attribute) eqn:E'; [| reflexivity].
    change fill_attribute with (102 :: tl fill_attribute) in E, E'.
    cbn [startsWith] in E, E'. apply andb_true_iff in E' as [Ec E'].
    rewrite Ec in E. cbn [andb] in E.
    apply replace_all_startsWith in E'; [congruence |].
    vm_compute. intros Hin.
    repeat (destruct Hin as [Hin | Hin]; [discriminate |]). contradiction.
Qed.

Lemma startsWith_app_boundary : forall b x t pattern,
  ~ In x pattern ->
  startsWith (b ++ x :: t) pattern = true -> startsWith b pattern = true.
Proof.
  induction b as [| c b IH]; intros x t pattern Hx E.
  - destruct pattern as [| p pattern]; [reflexivity |].
    cbn [app startsWith] in E. apply andb_true_iff in E as [E _].
    apply N.eqb_eq in E. subst p. exfalso. apply Hx. now left.
  - destruct pattern as [| p pattern]; [reflexivity |].
    cbn [app startsWith] in E |- *. apply andb_true_iff in E as [-> E]. cbn [andb].
    apply (IH x t); [| exact E]. intros Hin. apply Hx. now right.
Qed.

Lemma occurs_app_none : forall pattern a s,
  match pattern with p :: _ => ~ In p a | [] => False end ->
  occurs pattern (a ++ s) = occurs pattern s.
Proof.
  intros pattern a s Hp. induction a as [| c a IH]; [reflexivity |].
  destruct pattern as [| p pattern]; [contradiction |].
  cbn [app]. rewrite occurs_cons. cbn [startsWith].
  destruct (N.eqb_spec c p) as [-> |]; [exfalso; apply Hp; now left |].
  cbn [andb orb]. apply IH. intros Hin. apply Hp. now right.
Qed.

Lemma occurs_before_boundary : forall pattern b x t,
  ~ In x pattern -> occurs pattern b = false ->
  occurs pattern (b ++ x :: t) = occurs pattern (x :: t).
Proof.
  intros pattern b x t Hx. induction b as [| c b IH]; intros E; [reflexivity |].
  rewrite occurs_cons in E. apply orb_false_iff in E as [E1 E2].
  cbn [app]. rewrite occurs_cons, (IH E2).
  destruct (startsWith (c :: b ++ x :: t) pattern) eqn:E'; [| reflexivity].
  apply (startsWith_app_boundary (c :: b) x t pattern Hx) in E'. congruence.
Qed.

(** X14. The EPS text that [svgToEPS] makes holds no [fill=] followed by a
    double quote: every fill attribute of the SVG text is rewritten, and
    neither the replacement, the header nor the trailer brings one in. *)
Theorem svgToEPS_rewrites_every_fill :
  forall svgData : jsstring, occurs fill_attribute (svgToEPS svgData) = false.
Proof.
  intros svgData. unfold svgToEPS.
  rewrite occurs_app_none.
  - cbn [app]. rewrite occurs_before_boundary.
    + reflexivity.
    + vm_compute. intros Hin.
      repeat (destruct Hin as [Hin | Hin]; [discriminate |]). contradiction.
    + apply replace_all_fill.
  - vm_compute. intros Hin.
    repeat (destruct Hin as [Hin | Hin]; [discriminate |]). contradiction.
Qed.

Lemma remove_first_here : forall pattern s after,
  pattern s = Some after -> remove_first pattern s = after.
Proof. intros pattern [| c s] after E; cbn [remove_first]; now rewrite E. Qed.

Lemma remove_first_later : forall pattern c s,
  pattern (c :: s) = None -> remove_first pattern (c :: s) = c :: remove_first pattern s.
Proof. intros pattern c s E. cbn [remove_first]. now rewrite E. Qed.

Lemma startsWith_app_self : forall p s, startsWith (p ++ s) p = true.
Proof.
  induction p as [| c p IH]; intros s; [now destruct s |].
  cbn [app startsWith]. now rewrite N.eqb_refl, IH.
Qed.

Lemma lazy_dots_then_gt_app : forall attributes rest,
  forallb (fun c => negb (c =? 0x3E) && negb (is_line_terminator c)) attributes = true ->
  lazy_dots_then_gt (attributes ++ 0x3E :: rest) = Some rest.
Proof.
  induction attributes as [| c attributes IH]; intros rest E; [reflexivity |].
  cbn [forallb] in E. apply andb_true_iff in E as [Ec E].
  apply andb_true_iff in Ec as [E1 E2]. apply negb_true_iff in E1, E2.
  cbn [app lazy_dots_then_gt]. rewrite E1, E2. now apply IH.
Qed.

Lemma remove_closing_tag : forall body rest,
  occurs (str "</svg>") body = false ->
  remove_first (literally (str "</svg>")) (body ++ str "</svg>" ++ rest) = body ++ rest.
Proof.
  induction body as [| c body IH]; intros rest E.
  - cbn [app]. apply remove_first_here. unfold literally.
    now rewrite startsWith_app_self.
  - rewrite occurs_cons in E. apply orb_false_iff in E as [E1 E2].
    cbn [app]. rewrite remove_first_later; [now rewrite IH |].
    unfold literally.
    destruct (startsWith (c :: body ++ str "</svg>" ++ rest) (str "</svg>")) eqn:E';
      [| reflexivity].
    exfalso.
    change (str "</svg>") with (60 :: tl (str "</svg>")) in E1, E' at 2.
    change (str "</svg>" ++ rest) with (60 :: tl (str "</svg>") ++ rest) in E'.
    cbn [startsWith] in E1, E'. apply andb_true_iff in E' as [Ec E'].
    rewrite Ec in E1. cbn [andb] in E1.
    apply startsWith_app_boundary in E'; [congruence |].
    vm_compute. intros Hin.
    repeat (destruct Hin as [Hin | Hin]; [discriminate |]). contradiction.
Qed.

(** X15. On the text of an SVG image that begins with its opening tag on
    one line, [svgToEPS] takes out that tag and the first closing tag and
    rewrites the fill attributes of everything else, between the header and
    the trailer of the EPS text. *)
Theorem svgToEPS_of_document :
  forall attributes body rest : jsstring,
    forallb (fun c => negb (c =? 0x3E) && negb (is_line_terminator c)) attributes = true ->
    occurs (str "</svg>") body = false ->
    svgToEPS (str "<svg" ++ attributes ++ [0x3E] ++ body ++ str "</svg>" ++ rest)
    = epsHeader
      ++ replace_all 0 fill_attribute (str "setrgbcolor" ++ [LF] ++ str "fill ")
           (body ++ rest)
      ++ [LF] ++ str "showpage".
Proof.
  intros attributes body rest Ha Hb. unfold svgToEPS.
  rewrite (remove_first_here svg_open_tag _ (body ++ str "</svg>" ++ rest)).
  - now rewrite remove_closing_tag.
  - unfold svg_open_tag. rewrite startsWith_app_self.
    change (skipn 4 (str "<svg" ++ attributes ++ [0x3E] ++ body ++ str "</svg>" ++ rest))
      with (attributes ++ 0x3E :: body ++ str "</svg>" ++ rest).
    now apply lazy_dots_then_gt_app.
Qed.

Lemma svgToEPS_of_document_witness :
  forallb (fun c => negb (c =? 0x3E) && negb (is_line_terminator c)) (str " width='10'") = true
  /\ occurs (str "</svg>") (str "<rect fill=" ++ [0x22] ++ str "#000" ++ [0x22] ++ str "/>")
     = false
  /\ svgToEPS (str "<svg" ++ str " width='10'" ++ [0x3E]
               ++ (str "<rect fill=" ++ [0x22] ++ str "#000" ++ [0x22] ++ str "/>")
               ++ str "</svg>" ++ [])
     = epsHeader
       ++ replace_all 0 fill_attribute (str "setrgbcolor" ++ [LF] ++ str "fill ")
            ((str "<rect fill=" ++ [0x22] ++ str "#000" ++ [0x22] ++ str "/>") ++ [])
       ++ [LF] ++ str "showpage".
Proof.
  split; [reflexivity |]. split; [reflexivity |].
  exact (svgToEPS_of_document (str " width='10'")
           (str "<rect fill=" ++ [0x22] ++ str "#000" ++ [0x22] ++ str "/>") []
           eq_refl eq_refl).
Defined.

(** ** A fourth layer of encoding *)

Lemma alpha_uriUnescaped : forall c, is_alpha c = true -> uriUnescaped c = true.
Proof. intros c E. unfold uriUnescaped, is_alnum. now rewrite E. Qed.

Lemma Encode_letters : forall p rest e,
  forallb is_alpha p = true -> Encode (p ++ rest) = ret e ->
  exists e', Encode rest = ret e' /\ e = p ++ e'.
Proof.
  induction p as [| c p IH]; intros rest e Hp E; [now exists e |].
  cbn [forallb] in Hp. apply andb_true_iff in Hp as [Hc Hp].
  cbn [app] in E. rewrite Encode_cons, (alpha_uriUnescaped c Hc) in E.
  destruct (Encode (p ++ rest)) as [r |] eqn:Er; [| discriminate].
  unfold bind in E. apply Normal_inj in E. subst e.
  destruct (IH rest r Hp Er) as [e' [E' ->]]. now exists e'.
Qed.

Lemma Encode_colon : forall rest e,
  Encode (COLON :: rest) = ret e -> exists e', e = str "%3A" ++ e'.
Proof.
  intros rest e E. rewrite Encode_cons in E.
  change (uriUnescaped 58) with false in E.
  change (in_range 0xDC00 0xDFFF 58) with false in E.
  change (in_range 0xD800 0xDBFF 58) with false in E.
  cbn iota in E.
  destruct (Encode rest) as [r |]; [| discriminate].
  unfold bind in E. apply Normal_inj in E. subst e. now exists r.
Qed.

Lemma lower_is_colon : forall c, ascii_lower c = COLON -> c = COLON.
Proof.
  intros c. unfold ascii_lower, is_upper, in_range.
  destruct (N.leb_spec 65 c); destruct (N.leb_spec c 90); cbn [andb]; lia.
Qed.

Lemma lower_is_letter : forall c, is_lower (ascii_lower c) = true -> is_alpha c = true.
Proof.
  intros c. unfold ascii_lower, is_alpha. destruct (is_upper c); [reflexivity |].
  intros ->. apply orb_true_r.
Qed.

(** A match of a scheme, split into its letters and its colon. *)
Lemma scheme_split : forall letters p,
  forallb is_lower letters = true ->
  map ascii_lower p = letters ++ [COLON] ->
  exists q, p = q ++ [COLON] /\ map ascii_lower q = letters /\ forallb is_alpha q = true.
Proof.
  induction letters as [| l letters IH]; intros p Hl E.
  - destruct p as [| c [| d p]]; try discriminate.
    cbn [map app] in E. injection E as E. apply lower_is_colon in E. subst c.
    now exists [].
  - destruct p as [| c p]; [discriminate |].
    cbn [map app] in E. injection E as Ec E.
    cbn [forallb] in Hl. apply andb_true_iff in Hl as [Hl1 Hl].
    destruct (IH p Hl E) as [q [-> [Eq Hq]]].
    exists (c :: q). cbn [app map forallb]. rewrite Ec, Eq, Hq.
    rewrite <- Ec in Hl1. now rewrite (lower_is_letter c Hl1).
Qed.

Lemma uri_char_lower : forall c, uri_char c = true -> uri_char (ascii_lower c) = true.
Proof.
  intros c E. unfold ascii_lower. destruct (is_upper c) eqn:U; [| exact E].
  apply in_range_true in U. unfold uri_char. rewrite alpha_uriUnescaped; [reflexivity |].
  unfold is_alpha. replace (is_lower (c + 32)) with true; [apply orb_true_r |].
  symmetry. apply in_range_true. lia.
Qed.

Lemma uri_chars_no_NUL : forall e,
  forallb uri_char e = true ->
  filter (fun c => negb (c =? 0x00)) (map ascii_lower e) = map ascii_lower e.
Proof.
  intros e He. apply filter_all. apply forallb_forall. intros c Hc.
  apply in_map_iff in Hc as [d [<- Hd]].
  apply (proj1 (forallb_forall _ _) He) in Hd. apply uri_char_lower in Hd.
  destruct (N.eqb_spec (ascii_lower d) 0) as [E |]; [| reflexivity].
  rewrite E in Hd. discriminate.
Qed.

Lemma unsafeSchemes_names : unsafeSchemes = map (fun name => name ++ [COLON]) unsafeSchemeNames.
Proof. reflexivity. Qed.

(** After four applications of [encodeURIComponent] to a string with an
    unsafe scheme the three rounds of the loop leave the colon of the scheme
    encoded. *)
Lemma normalize_fourth_layer : forall (H : Host) (HL : HostLaws H) s e,
  code_units s -> encode_layers 4 s = ret e -> unsafeProtocolPattern s = true ->
  exists name rest,
    In name unsafeSchemeNames /\ normalize (trim e) = name ++ str "%3a" ++ rest.
Proof.
  intros H HL s e Hs E Hu.
  cbn [encode_layers] in E.
  destruct (encodeURIComponent s) as [once |] eqn:Eo; [| discriminate].
  cbn [bind] in E.
  pose proof (encodeURIComponent_uri_chars s once Eo) as Ho.
  assert (En : normalize (trim e) = map ascii_lower once).
  { rewrite (normalize_layers H HL 2 0 once e eq_refl (uri_chars_code_units once Ho) E).
    cbn [decode_loop]. now apply uri_chars_no_NUL. }
  unfold unsafeProtocolPattern, test_prefix_i in Hu.
  apply existsb_exists in Hu as [scheme [Hin Hm]].
  destruct (match_literal_i scheme s) as [after |] eqn:Em; [| discriminate].
  apply match_literal_i_split in Em as [p [-> Ep]].
  rewrite unsafeSchemes_names in Hin. apply in_map_iff in Hin as [name [<- Hname]].
  assert (Hlower : forallb is_lower name = true /\ map ascii_lower name = name).
  { unfold unsafeSchemeNames in Hname. cbn [In] in Hname.
    repeat (destruct Hname as [<- | Hname]; [split; reflexivity |]). contradiction. }
  destruct Hlower as [Hl1 Hl2].
  rewrite map_app, Hl2 in Ep. cbn [map] in Ep. change (ascii_lower 58) with 58 in Ep.
  destruct (scheme_split name p Hl1 Ep) as [q [-> [Eq Hq]]].
  unfold encodeURIComponent in Eo. rewrite <- !app_assoc in Eo.
  apply Encode_letters in Eo as [e1 [Eo ->]]; [| exact Hq].
  cbn [app] in Eo. apply Encode_colon in Eo as [e2 ->].
  exists name, (map ascii_lower e2). split; [exact Hname |].
  rewrite En, !map_app, Eq. reflexivity.
Qed.

Lemma encoded_scheme_is_no_scheme : forall name rest,
  In name unsafeSchemeNames ->
  unsafeProtocolPattern (name ++ str "%3a" ++ rest) = false
  /\ isUrlLike (name ++ str "%3a" ++ rest) = false
  /\ startsWith (name ++ str "%3a" ++ rest) (str "https://") = false.
Proof.
  intros name rest Hname. unfold unsafeSchemeNames in Hname. cbn [In] in Hname.
  repeat (destruct Hname as [<- | Hname]; [repeat split; reflexivity |]). contradiction.
Qed.

(** X16. The limit of the three rounds: for an input type that is not
    exempt, content obtained from a string with an unsafe scheme by four
    applications of [encodeURIComponent] is not recognised, its reason code
    is never UNSAFE_PROTOCOL; the colon stays encoded, so the content is
    no web link either and its status is never ok. *)
Theorem fourth_layer_hides_the_scheme :
  forall (H : Host) (HL : HostLaws H) (inputType s e : jsstring) (isVerifiedUser : bool)
         (v : Verdict),
    ~ In inputType nonUrlTypes ->
    code_units s ->
    encode_layers 4 s = ret e ->
    unsafeProtocolPattern s = true ->
    validateInputSafety inputType (JsString e) isVerifiedUser = ret v ->
    reasonCode v <> str "UNSAFE_PROTOCOL" /\ status v <> str "ok".
Proof.
  intros H HL t s e b v Ht Hs E Hu Hv.
  destruct (normalize_fourth_layer H HL s e Hs E Hu) as [name [rest [Hname En]]].
  destruct (encoded_scheme_is_no_scheme name rest Hname) as [F1 [F2 F3]].
  rewrite <- En in F1, F2, F3. clear En.
  apply nonUrlTypes_false in Ht. unfold validateInputSafety in Hv.
  assert (Hleaf : forall v0 : Verdict,
             reasonCode v0 <> str "UNSAFE_PROTOCOL" /\ status v0 <> str "ok" ->
             ret v0 = ret v ->
             reasonCode v <> str "UNSAFE_PROTOCOL" /\ status v <> str "ok").
  { intros v0 Hok E0. apply Normal_inj in E0. now subst v0. }
  cbn [ToBoolean typeof_string call_trim bind negb] in Hv.
  destruct (is_empty e); cbn [negb bind] in Hv;
    [revert Hv; apply Hleaf; cbn [status reasonCode]; literal |].
  destruct (is_empty (trim e)); cbn [negb bind] in Hv;
    [revert Hv; apply Hleaf; cbn [status reasonCode]; literal |].
  rewrite Ht, F1 in Hv.
  destruct (riskyProtocolPattern _);
    [revert Hv; apply Hleaf; cbn [status reasonCode]; literal |].
  destruct (extract_extension_normal (normalize (trim e))) as [ext Hext].
  rewrite Hext in Hv. cbn [bind] in Hv.
  destruct (hiddenExecutablePattern _);
    [revert Hv; apply Hleaf; cbn [status reasonCode]; literal |].
  destruct (includes blockedExtensions ext);
    [revert Hv; apply Hleaf; cbn [status reasonCode]; literal |].
  destruct (includes archiveExtensions ext);
    [destruct b; cbn [negb] in Hv; revert Hv; apply Hleaf; cbn [status reasonCode]; literal |].
  destruct (includes macroEnabledDocs ext);
    [revert Hv; apply Hleaf; cbn [status reasonCode]; literal |].
  destruct (check_domain_normal (normalize (trim e)))
    as [Ed | [v0 [Ed [Hst [Hr Hm]]]]]; rewrite Ed in Hv; cbn [bind] in Hv.
  - destruct (startsWith _ (str "http://"));
      [revert Hv; apply Hleaf; cbn [status reasonCode]; literal |].
    rewrite F2, F3 in Hv. cbn [orb] in Hv.
    revert Hv; apply Hleaf; cbn [status reasonCode]; literal.
  - revert Hv. apply Hleaf. rewrite Hst. destruct Hr as [-> | ->]; literal.
Qed.

Lemma fourth_layer_hides_the_scheme_witness :
  ~ In (str "URL") nonUrlTypes
  /\ code_units (str "javascript:x.docm")
  /\ encode_layers 4 (str "javascript:x.docm") = ret (str "javascript%2525253Ax.docm")
  /\ unsafeProtocolPattern (str "javascript:x.docm") = true
  /\ exists v,
       validateInputSafety (H := AsciiHost) (str "URL")
         (JsString (str "javascript%2525253Ax.docm")) false = ret v
       /\ reasonCode v = str "MACRO_DOC"
       /\ reasonCode v <> str "UNSAFE_PROTOCOL" /\ status v <> str "ok".
Proof.
  assert (H1 : ~ In (str "URL") nonUrlTypes).
  { intros Hin. apply includes_In in Hin. vm_compute in Hin. discriminate. }
  assert (H2 : code_units (str "javascript:x.docm")).
  { apply Forall_forall. intros c Hc. vm_compute in Hc.
    repeat (destruct Hc as [<- | Hc]; [reflexivity |]). contradiction. }
  assert (H3 : encode_layers 4 (str "javascript:x.docm")
               = ret (str "javascript%2525253Ax.docm")) by reflexivity.
  assert (H4 : unsafeProtocolPattern (str "javascript:x.docm") = true) by reflexivity.
  repeat (split; [assumption |]).
  eexists. split; [reflexivity |]. split; [reflexivity |].
  exact (fourth_layer_hides_the_scheme AsciiHost AsciiHost_laws (str "URL")
           (str "javascript:x.docm") (str "javascript%2525253Ax.docm") false _
           H1 H2 H3 H4 eq_refl).
Defined.





(** ** Plain links *)

Lemma link_char_facts : forall c,
  link_char c = true ->
  is_whitespace c = false /\ is_ascii c = true /\ ascii_lower c = c
  /\ plain_char c = true /\ (c <? 0xD800) = true /\ is_c0_or_space c = false
  /\ is_tab_or_newline c = false.
Proof.
  intros c E.
  assert (R : 0x2D <= c <= 0x7A).
  { unfold link_char, slug_char, is_lower, is_digit, in_range in E.
    destruct (N.leb_spec 0x2D c); [destruct (N.leb_spec c 0x7A); [lia |] |];
      exfalso; revert E; settle; discriminate. }
  assert (U : is_upper c = false).
  { destruct (is_upper c) eqn:U; [| reflexivity]. apply in_range_true in U.
    exfalso. revert E. unfold link_char, slug_char, is_lower, is_digit, in_range.
    settle. discriminate. }
  unfold is_whitespace, is_ascii, ascii_lower, plain_char, is_c0_or_space,
    is_tab_or_newline, in_range.
  rewrite U. settle. repeat split.
Qed.

Lemma slug_is_link : forall c, slug_char c = true -> link_char c = true.
Proof. intros c E. unfold link_char. now rewrite E. Qed.

Lemma slug_chars_are_link_chars : forall s,
  forallb slug_char s = true -> forallb link_char s = true.
Proof.
  intros s E. apply forallb_forall. intros c Hc.
  now apply slug_is_link, (proj1 (forallb_forall _ _) E).
Qed.

Lemma forallb_impl : forall (p q : N -> bool) s,
  (forall c, p c = true -> q c = true) -> forallb p s = true -> forallb q s = true.
Proof.
  intros p q s Hpq E. apply forallb_forall. intros c Hc.
  now apply Hpq, (proj1 (forallb_forall _ _) E).
Qed.

Lemma link_chars_no_whitespace : forall s,
  forallb link_char s = true -> forallb (fun c => negb (is_whitespace c)) s = true.
Proof.
  intros s. apply forallb_impl. intros c Hc.
  apply link_char_facts in Hc as [F _]. now rewrite F.
Qed.

Lemma link_chars_ascii : forall s, forallb link_char s = true -> forallb is_ascii s = true.
Proof. intros s. apply forallb_impl. intros c Hc. now apply link_char_facts in Hc. Qed.

Lemma link_chars_plain : forall s, forallb link_char s = true -> forallb plain_char s = true.
Proof. intros s. apply forallb_impl. intros c Hc. now apply link_char_facts in Hc. Qed.

Lemma map_lower_link : forall s, forallb link_char s = true -> map ascii_lower s = s.
Proof.
  induction s as [| c s IH]; intros E; [reflexivity |].
  cbn [forallb] in E. apply andb_true_iff in E as [Ec E]. cbn [map].
  apply link_char_facts in Ec. rewrite IH by assumption. f_equal. tauto.
Qed.

Lemma decodeURIComponent_plain : forall s,
  forallb plain_char s = true -> decodeURIComponent s = ret s.
Proof.
  intros s E. unfold decodeURIComponent.
  pose proof (Decode_plain_prefix s [] 0 E) as D.
  rewrite app_nil_r in D.
  replace (List.length s + 0)%nat with (List.length s) in D by lia.
  rewrite D. cbn [Decode bind]. now rewrite app_nil_r.
Qed.

Section PlainLinks.
Context {H : Host} {HL : HostLaws H}.

(** A plain link is its own decoded form. *)
Lemma normalize_link : forall s, forallb link_char s = true -> normalize (trim s) = s.
Proof.
  intros s Hs.
  rewrite trim_all by now apply link_chars_no_whitespace.
  unfold normalize. rewrite toLowerCase_ascii by now apply link_chars_ascii.
  rewrite map_lower_link by assumption.
  pose proof (link_chars_plain s Hs) as Hp.
  rewrite (decode_loop_fixed H 3 s (decodeURIComponent_plain s Hp)).
  apply filter_all. apply forallb_forall. intros c Hc.
  apply (proj1 (forallb_forall _ _) Hp) in Hc. unfold plain_char in Hc.
  now apply andb_true_iff in Hc.
Qed.

End PlainLinks.

Lemma code_points_link : forall s, forallb link_char s = true -> code_points s = s.
Proof.
  induction s as [| c s IH]; intros E; [reflexivity |].
  cbn [forallb] in E. apply andb_true_iff in E as [Ec E].
  apply link_char_facts in Ec as [_ [_ [_ [_ [Ec _]]]]]. apply N.ltb_lt in Ec.
  cbn [code_points].
  replace (in_range 0xD800 0xDBFF c) with false by (symmetry; apply in_range_false; lia).
  replace (in_range 0xDC00 0xDFFF c) with false by (symmetry; apply in_range_false; lia).
  now rewrite IH.
Qed.

Lemma dropWhile_none : forall (p : N -> bool) s,
  forallb (fun c => negb (p c)) s = true -> dropWhile p s = s.
Proof.
  intros p [| c s] E; [reflexivity |]. cbn [forallb] in E.
  apply andb_true_iff in E as [E _]. apply negb_true_iff in E.
  cbn [dropWhile]. now rewrite E.
Qed.

Lemma url_preprocess_link : forall s, forallb link_char s = true -> url_preprocess s = s.
Proof.
  intros s Hs. unfold url_preprocess.
  assert (Hc : forallb (fun c => negb (is_c0_or_space c)) s = true).
  { apply forallb_forall. intros c Hc.
    apply (proj1 (forallb_forall _ _) Hs) in Hc. apply link_char_facts in Hc.
    apply negb_true_iff. tauto. }
  rewrite (dropWhile_none _ s Hc).
  rewrite dropWhile_none by now apply forallb_rev.
  rewrite rev_involutive. apply filter_all.
  apply forallb_forall. intros c Hin.
  apply (proj1 (forallb_forall _ _) Hs) in Hin. apply link_char_facts in Hin.
  apply negb_true_iff. tauto.
Qed.

Lemma jseq_head_differs : forall c s t,
  match t with d :: _ => c <> d | [] => True end -> jseq (c :: s) t = false.
Proof.
  intros c s [| d t] E; [reflexivity |]. cbn [jseq].
  destruct (N.eqb_spec c d); [contradiction | reflexivity].
Qed.

(** The segments of a plain path are what stands between its slashes. *)
Lemma slug_no_dot_segment : forall buffer,
  forallb slug_char buffer = true ->
  is_single_dot buffer = false /\ is_double_dot buffer = false.
Proof.
  intros [| c buffer] E; [split; reflexivity |].
  cbn [forallb] in E. apply andb_true_iff in E as [Ec _].
  assert (Hc : ascii_lower c <> DOT /\ ascii_lower c <> PERCENT).
  { pose proof (link_char_facts c (slug_is_link c Ec)) as [_ [_ [El _]]]. rewrite El.
    unfold slug_char, is_lower, is_digit, in_range in Ec.
    split; intros ->; discriminate. }
  destruct Hc as [H1 H2].
  unfold is_single_dot, is_double_dot, includes. cbn [map existsb].
  rewrite !jseq_head_differs by (first [exact H1 | exact H2]). split; reflexivity.
Qed.

Lemma path_set_slug : forall c, slug_char c = true -> path_set c = false.
Proof.
  intros c E.
  assert (R : 0x2D <= c <= 0x7A /\ c <> 0x3C /\ c <> 0x3E /\ c <> 0x3F /\ c <> 0x5E /\ c <> 0x60).
  { unfold slug_char, is_lower, is_digit, in_range in E.
    repeat split;
      try (destruct (N.leb_spec 0x2D c); [lia |]);
      try (destruct (N.leb_spec c 0x7A); [lia |]);
      try (intros ->; discriminate);
      exfalso; revert E; settle; discriminate. }
  unfold path_set, query_set, c0_control_set. settle. reflexivity.
Qed.

Lemma push_segment_slug : forall path buffer slash,
  forallb slug_char buffer = true -> push_segment false path buffer slash = path ++ [buffer].
Proof.
  intros path buffer slash E. unfold push_segment.
  destruct (slug_no_dot_segment buffer E) as [-> ->]. reflexivity.
Qed.

Lemma path_state_slug : forall tail path buffer,
  forallb slug_char tail = true ->
  Forall (fun segment => forallb slug_char segment = true) path ->
  forallb slug_char buffer = true ->
  Forall (fun segment => forallb slug_char segment = true)
    (path_state true false path buffer tail).
Proof.
  induction tail as [| c rest IH]; intros path buffer Ht Hp Hb.
  - cbn [path_state]. rewrite push_segment_slug by assumption.
    apply Forall_app. split; [assumption | now repeat constructor].
  - cbn [forallb] in Ht. apply andb_true_iff in Ht as [Hc Ht].
    cbn [path_state].
    destruct (N.eqb_spec c SLASH) as [-> | Hslash]; cbn [orb].
    + rewrite push_segment_slug by assumption. apply IH; [assumption | | reflexivity].
      apply Forall_app. split; [assumption | now repeat constructor].
    + assert (Hq : (c =? BACKSLASH) = false /\ (c =? QUESTION) = false /\ (c =? HASH) = false).
      { unfold slug_char, is_lower, is_digit, in_range in Hc.
        repeat split; apply N.eqb_neq; intros ->; discriminate. }
      destruct Hq as [-> [-> ->]]. cbn [andb orb].
      unfold utf8_percent_encode. rewrite (path_set_slug c Hc).
      apply IH; [assumption | assumption |].
      rewrite forallb_app, Hb. cbn [forallb]. now rewrite Hc.
Qed.

Lemma serialize_path_slug : forall path,
  Forall (fun segment => forallb slug_char segment = true) path ->
  forallb slug_char (serialize_path path) = true.
Proof.
  intros path Hp. unfold serialize_path. induction Hp as [| segment path Hs Hp IH];
    [reflexivity |].
  cbn [flat_map]. rewrite forallb_app, IH. cbn [forallb]. now rewrite Hs.
Qed.

Lemma slug_no_dot : forall c, slug_char c = true -> (c =? DOT) = false.
Proof.
  intros c E. apply N.eqb_neq. intros ->. discriminate.
Qed.

Lemma match_extension_slug : forall s, forallb slug_char s = true -> match_extension s = None.
Proof.
  induction s as [| c s IH]; intros E; [reflexivity |].
  cbn [forallb] in E. apply andb_true_iff in E as [Ec E].
  cbn [match_extension]. rewrite (slug_no_dot c Ec). cbn [andb]. now apply IH.
Qed.

Lemma hidden_slug : forall s, forallb slug_char s = true -> hiddenExecutablePattern s = false.
Proof.
  unfold hiddenExecutablePattern.
  induction s as [| c s IH]; intros E; [reflexivity |].
  cbn [forallb] in E. apply andb_true_iff in E as [Ec E].
  rewrite search_cons, hidden_executable_here_cons, (slug_no_dot c Ec). cbn [andb orb].
  now apply IH.
Qed.

Section PlainPaths.
Context {H : Host} {HL : HostLaws H}.

(** The path of a plain link has no extension. *)
Lemma plain_path_extension : forall tail,
  forallb slug_char tail = true ->
  extension_of
    (before_query
       (toLowerCase
          (if is_empty (serialize_path (path_state true false [] [] tail)) then []
           else serialize_path (path_state true false [] [] tail))))
  = [].
Proof.
  intros tail Ht.
  assert (Hs : forallb slug_char (serialize_path (path_state true false [] [] tail)) = true).
  { apply serialize_path_slug, path_state_slug; [assumption | constructor | reflexivity]. }
  set (pathname := serialize_path (path_state true false [] [] tail)) in *.
  rewrite or_empty.
  pose proof (slug_chars_are_link_chars pathname Hs) as Hl.
  rewrite toLowerCase_ascii by now apply link_chars_ascii.
  rewrite map_lower_link by assumption.
  rewrite before_query_all.
  - rewrite extension_of_lawful. now rewrite match_extension_slug.
  - apply forallb_forall. intros c Hc.
    apply (proj1 (forallb_forall _ _) Hs) in Hc.
    unfold slug_char, is_lower, is_digit, in_range in Hc.
    destruct (N.eqb_spec c 63) as [-> |]; [discriminate |].
    destruct (N.eqb_spec c 35) as [-> |]; [discriminate | reflexivity].
Qed.

End PlainPaths.

Lemma link_not_blank : forall front tail,
  forallb link_char (front ++ tail) = true -> front <> [] -> trim (front ++ tail) <> [].
Proof.
  intros front tail Hl Hf. rewrite trim_all by now apply link_chars_no_whitespace.
  now destruct front.
Qed.

Section PlainLinkVerdicts.
Context {H : Host} {HL : HostLaws H}.

(** The enhanced validator on a plain web link: [front] holds the scheme,
    the host and the slash, [tail] is the plain path. *)
Lemma enhanced_on_plain_link : forall inputType front host tail isVerifiedUser,
  includes nonUrlTypes inputType = false ->
  forallb slug_char tail = true ->
  forallb link_char front = true ->
  front <> [] ->
  forallb is_ascii host = true ->
  map ascii_lower host = host ->
  startsWith host (str "xn--") = false ->
  unsafeProtocolPattern (front ++ tail) = false ->
  riskyProtocolPattern (front ++ tail) = false ->
  hiddenExecutablePattern (front ++ tail) = hiddenExecutablePattern tail ->
  isUrlLike (front ++ tail) = true ->
  new_URL (front ++ tail)
  = ret {| hostname := host;
           pathname := serialize_path (path_state true false [] [] tail) |} ->
  validateInputSafety inputType (JsString (front ++ tail)) isVerifiedUser
  = ret (if includes shortenerDomains host then verdict_SHORTENER host
         else if startsWith (front ++ tail) (str "http://") then verdict_HTTP
         else verdict_SAFE_link).
Proof.
  intros t front host tail b Htype Ht Hf Hne Hascii Hlower Hxn Hu Hr Hh Hlike Eurl.
  assert (Hl : forallb link_char (front ++ tail) = true).
  { now rewrite forallb_app, Hf, (slug_chars_are_link_chars tail Ht). }
  pose proof (link_not_blank front tail Hl Hne) as Hblank.
  unfold validateInputSafety. enter (front ++ tail) Hblank.
  rewrite (normalize_link (front ++ tail) Hl), Htype, Hu, Hr.
  unfold extract_extension, check_domain. rewrite Eurl.
  cbn [bind try_catch hostname pathname].
  rewrite (plain_path_extension tail Ht), Hh, (hidden_slug tail Ht).
  change (includes blockedExtensions []) with false.
  change (includes archiveExtensions []) with false.
  change (includes macroEnabledDocs []) with false.
  cbn iota.
  rewrite (toLowerCase_ascii host Hascii), Hlower, Hxn.
  destruct (includes shortenerDomains host); [reflexivity |].
  cbn [bind]. rewrite Hlike.
  now destruct (startsWith (front ++ tail) (str "http://")).
Qed.

(** The basic validator on the same. *)
Lemma basic_on_plain_link : forall inputType front host tail isVerifiedUser,
  includes nonUrlTypes inputType = false ->
  forallb slug_char tail = true ->
  forallb link_char front = true ->
  front <> [] ->
  unsafeProtocolPattern (front ++ tail) = false ->
  riskyProtocolPattern (front ++ tail) = false ->
  match_extension (front ++ tail) = match_extension tail ->
  isUrlLike (front ++ tail) = true ->
  new_URL (front ++ tail)
  = ret {| hostname := host;
           pathname := serialize_path (path_state true false [] [] tail) |} ->
  Basic.validateInputSafety inputType (JsString (front ++ tail)) isVerifiedUser
  = ret (if includes shortenerDomains (Basic.strip_www host)
         then verdict_SHORTENER (Basic.strip_www host)
         else if startsWith (front ++ tail) (str "http://") then verdict_HTTP
         else verdict_SAFE_link).
Proof.
  intros t front host tail b Htype Ht Hf Hne Hu Hr Hm Hlike Eurl.
  assert (Hl : forallb link_char (front ++ tail) = true).
  { now rewrite forallb_app, Hf, (slug_chars_are_link_chars tail Ht). }
  pose proof (link_not_blank front tail Hl Hne) as Hblank.
  unfold Basic.validateInputSafety. enter (front ++ tail) Hblank.
  rewrite trim_all by now apply link_chars_no_whitespace.
  rewrite toLowerCase_ascii by now apply link_chars_ascii.
  rewrite (map_lower_link (front ++ tail) Hl).
  rewrite (decodeURIComponent_plain (front ++ tail) (link_chars_plain _ Hl)).
  cbn [bind]. rewrite Htype, Hu, Hr.
  rewrite before_query_all.
  - rewrite extension_of_lawful, Hm, (match_extension_slug tail Ht).
    change (includes blockedExtensions []) with false.
    change (includes archiveExtensions []) with false.
    change (includes macroEnabledDocs []) with false.
    cbn iota.
    unfold Basic.check_shortener. rewrite Eurl. cbn [bind try_catch hostname].
    destruct (includes shortenerDomains (Basic.strip_www host)); [reflexivity |].
    cbn [bind]. rewrite Hlike.
    now destruct (startsWith (front ++ tail) (str "http://")).
  - revert Hl. apply forallb_impl. intros c Hc.
    unfold link_char, slug_char, is_lower, is_digit, in_range in Hc.
    destruct (N.eqb_spec c 63) as [-> |]; [discriminate |].
    destruct (N.eqb_spec c 35) as [-> |]; [discriminate | reflexivity].
Qed.

End PlainLinkVerdicts.

(** X18. Every plain link to a shortener is warned as SHORTENER: for an
    input type that is not exempt, a scheme [http] or [https], a domain of
    the shortener list and a path of lower-case letters, digits, [/], [-] and
    [_], the verdict is warn with SHORTENER and names the domain. *)
Theorem shortener_links_are_warned :
  forall (H : Host) (HL : HostLaws H) (inputType scheme domain tail : jsstring)
         (isVerifiedUser : bool),
    ~ In inputType nonUrlTypes ->
    In scheme [str "http"; str "https"] ->
    In domain shortenerDomains ->
    forallb slug_char tail = true ->
    validateInputSafety inputType
      (JsString (scheme ++ str "://" ++ domain ++ str "/" ++ tail)) isVerifiedUser
    = ret (verdict_SHORTENER domain).
Proof.
  intros H HL t scheme domain tail b Htype Hscheme Hdomain Ht.
  apply nonUrlTypes_false in Htype.
  unfold shortenerDomains in Hdomain. cbn [In] in Hscheme, Hdomain.
  destruct Hscheme as [<- | [<- | []]];
    repeat (destruct Hdomain as [<- | Hdomain]); try contradiction;
    match goal with
    | |- validateInputSafety _ (JsString (?s ++ ?sep ++ ?d ++ ?sl ++ tail)) _ = _ =>
        let front := eval vm_compute in (s ++ sep ++ d ++ sl) in
        change (s ++ sep ++ d ++ sl ++ tail) with (front ++ tail);
        rewrite (enhanced_on_plain_link t front d tail b Htype Ht);
        [ reflexivity | reflexivity | discriminate | reflexivity | reflexivity
        | reflexivity | reflexivity | reflexivity | reflexivity | reflexivity | ]
    end;
    unfold new_URL, basic_URL_parser;
    rewrite code_points_link, url_preprocess_link
      by (rewrite forallb_app, (slug_chars_are_link_chars tail Ht); reflexivity);
    reflexivity.
Qed.

Lemma shortener_links_are_warned_witness :
  ~ In (str "URL") nonUrlTypes
  /\ In (str "https") [str "http"; str "https"]
  /\ In (str "tinyurl.com") shortenerDomains
  /\ forallb slug_char (str "promo-2024/spring_sale") = true
  /\ validateInputSafety (H := AsciiHost) (str "URL")
       (JsString (str "https" ++ str "://" ++ str "tinyurl.com" ++ str "/"
                  ++ str "promo-2024/spring_sale")) true
     = ret (verdict_SHORTENER (str "tinyurl.com")).
Proof.
  assert (H1 : ~ In (str "URL") nonUrlTypes).
  { intros Hin. apply includes_In in Hin. vm_compute in Hin. discriminate. }
  assert (H2 : In (str "https") [str "http"; str "https"]) by (cbn; tauto).
  assert (H3 : In (str "tinyurl.com") shortenerDomains) by (cbn; tauto).
  assert (H4 : forallb slug_char (str "promo-2024/spring_sale") = true) by reflexivity.
  repeat (split; [assumption |]).
  exact (shortener_links_are_warned AsciiHost AsciiHost_laws (str "URL") (str "https")
           (str "tinyurl.com") (str "promo-2024/spring_sale") true H1 H2 H3 H4).
Defined.

(** X19. A shortener behind [www.]: for an input type that is not exempt, a
    domain of the shortener list and a plain path, the basic variant warns
    about [http(s)://www.<domain>/<path>] as SHORTENER, naming the domain,
    while the enhanced variant, which compares the host as it is, does not
    recognise the shortener: it gives warn with HTTP for the scheme [http]
    and ok with SAFE for the scheme [https]. *)
Theorem shortener_behind_www :
  forall (H : Host) (HL : HostLaws H) (inputType scheme domain tail : jsstring)
         (isVerifiedUser : bool),
    ~ In inputType nonUrlTypes ->
    In scheme [str "http"; str "https"] ->
    In domain shortenerDomains ->
    forallb slug_char tail = true ->
    Basic.validateInputSafety inputType
      (JsString (scheme ++ str "://www." ++ domain ++ str "/" ++ tail)) isVerifiedUser
    = ret (verdict_SHORTENER domain)
    /\ validateInputSafety inputType
         (JsString (scheme ++ str "://www." ++ domain ++ str "/" ++ tail)) isVerifiedUser
       = ret (if jseq scheme (str "http") then verdict_HTTP else verdict_SAFE_link).
Proof.
  intros H HL t scheme domain tail b Htype Hscheme Hdomain Ht.
  apply nonUrlTypes_false in Htype.
  unfold shortenerDomains in Hdomain. cbn [In] in Hscheme, Hdomain.
  destruct Hscheme as [<- | [<- | []]];
    repeat (destruct Hdomain as [<- | Hdomain]); try contradiction;
    (split;
     [ match goal with
       | |- Basic.validateInputSafety _ (JsString (?s ++ ?sep ++ ?d ++ ?sl ++ tail)) _ = _ =>
           let front := eval vm_compute in (s ++ sep ++ d ++ sl) in
           let host := eval vm_compute in (str "www." ++ d) in
           change (s ++ sep ++ d ++ sl ++ tail) with (front ++ tail);
           rewrite (basic_on_plain_link t front host tail b Htype Ht);
           [ reflexivity | reflexivity | discriminate | reflexivity | reflexivity
           | reflexivity | reflexivity | ]
       end
     | match goal with
       | |- validateInputSafety _ (JsString (?s ++ ?sep ++ ?d ++ ?sl ++ tail)) _ = _ =>
           let front := eval vm_compute in (s ++ sep ++ d ++ sl) in
           let host := eval vm_compute in (str "www." ++ d) in
           change (s ++ sep ++ d ++ sl ++ tail) with (front ++ tail);
           rewrite (enhanced_on_plain_link t front host tail b Htype Ht);
           [ reflexivity | reflexivity | discriminate | reflexivity | reflexivity
           | reflexivity | reflexivity | reflexivity | reflexivity | reflexivity | ]
       end ]);
    unfold new_URL, basic_URL_parser;
    rewrite code_points_link, url_preprocess_link
      by (rewrite forallb_app, (slug_chars_are_link_chars tail Ht); reflexivity);
    reflexivity.
Qed.

Lemma shortener_behind_www_witness :
  ~ In (str "URL") nonUrlTypes
  /\ In (str "https") [str "http"; str "https"]
  /\ In (str "bit.ly") shortenerDomains
  /\ forallb slug_char (str "abc") = true
  /\ Basic.validateInputSafety (H := AsciiHost) (str "URL")
       (JsString (str "https" ++ str "://www." ++ str "bit.ly" ++ str "/" ++ str "abc")) false
     = ret (verdict_SHORTENER (str "bit.ly"))
  /\ validateInputSafety (H := AsciiHost) (str "URL")
       (JsString (str "https" ++ str "://www." ++ str "bit.ly" ++ str "/" ++ str "abc")) false
     = ret (if jseq (str "https") (str "http") then verdict_HTTP else verdict_SAFE_link).
Proof.
  assert (H1 : ~ In (str "URL") nonUrlTypes).
  { intros Hin. apply includes_In in Hin. vm_compute in Hin. discriminate. }
  assert (H2 : In (str "https") [str "http"; str "https"]) by (cbn; tauto).
  assert (H3 : In (str "bit.ly") shortenerDomains) by (cbn; tauto).
  assert (H4 : forallb slug_char (str "abc") = true) by reflexivity.
  repeat (split; [assumption |]).
  exact (shortener_behind_www AsciiHost AsciiHost_laws (str "URL") (str "https")
           (str "bit.ly") (str "abc") false H1 H2 H3 H4).
Defined.
